(** * Rollins room-reservation scraper: extraction and collection engine

    A shallow embedding of [rollins_room_scraper.py]: the three extraction
    strategies of [parse_time_slots], the helpers [extract_from_json_item],
    [extract_from_element] and [parse_time_string], and the date-range loop
    of [collect_date_range], followed by the properties of the
    specification that concern them.

    Modelling conventions.
    - A Python [str] is a list of Unicode code points ([pystr]).  Case
      folding ([lower], the [re.IGNORECASE] flag) and the classes [\d] and
      [\w] are modelled on their ASCII part; [\s] and [str.strip] use the
      full list of Unicode white space.
    - An exception is a value of [exn]; code that may raise returns a
      [result].  A float is a finite value, an infinity or a NaN
      ([pyfloat]).
    - A page is the tree that [BeautifulSoup(html, "html.parser")] builds
      for it; the empty string is the empty forest.
    - [json.loads], the rendering [str(v)] of JSON numbers, arrays and
      objects, and [time.sleep] belong to the interpreter and are
      parameters ([Runtime]); [json.loads] and [time.sleep] return or
      raise.
    - [duration_hours] is a float with at most two decimals; it is kept as
      the integer number of hundredths of an hour.
    - [collect_date_range] returns, with its result, the trace of what it
      did to the outside: the pages it asked for and the delays it took;
      a [time.sleep] that raises ends the collection. *)

From Stdlib Require Import ZArith NArith QArith List Bool Lia String Ascii DecimalString Permutation Sorted.
Import ListNotations.
Open Scope Z_scope.

Set Warnings "-register-all".

(* ------------------------------------------------------------------ *)
(** ** Python strings *)

Module Py.

Definition pystr := list N.

(** [str "..."] turns an ASCII literal into a Python string. *)
Definition str (s : string) : pystr := List.map N_of_ascii (list_ascii_of_string s).

Definition chr (a : ascii) : N := N_of_ascii a.

Fixpoint str_eqb (a b : pystr) : bool :=
  match a, b with
  | [], [] => true
  | x :: a', y :: b' => N.eqb x y && str_eqb a' b'
  | _, _ => false
  end.

(** [a < b] on strings: lexicographic on code points. *)
Fixpoint str_ltb (a b : pystr) : bool :=
  match a, b with
  | _, [] => false
  | [], _ :: _ => true
  | x :: a', y :: b' => N.ltb x y || (N.eqb x y && str_ltb a' b')
  end.

Definition is_upper (c : N) : bool := (N.leb 65 c && N.leb c 90)%N.
Definition is_lower (c : N) : bool := (N.leb 97 c && N.leb c 122)%N.
Definition is_digit (c : N) : bool := (N.leb 48 c && N.leb c 57)%N.

(** [\w]: letters, digits and the underscore. *)
Definition is_word (c : N) : bool := is_upper c || is_lower c || is_digit c || N.eqb c 95.

(** White space as [str.isspace] and [\s] have it. *)
Definition is_space (c : N) : bool :=
  ((N.leb 9 c && N.leb c 13) || (N.leb 28 c && N.leb c 32)
   || N.eqb c 133 || N.eqb c 160 || N.eqb c 5760
   || (N.leb 8192 c && N.leb c 8202)
   || N.eqb c 8232 || N.eqb c 8233 || N.eqb c 8239 || N.eqb c 8287
   || N.eqb c 12288)%N.

Definition lower_cp (c : N) : N := if is_upper c then (c + 32)%N else c.
Definition upper_cp (c : N) : N := if is_lower c then (c - 32)%N else c.

(** [s.lower()] and [s.upper()] *)
Definition lower (s : pystr) : pystr := List.map lower_cp s.
Definition upper (s : pystr) : pystr := List.map upper_cp s.

Fixpoint lstrip (s : pystr) : pystr :=
  match s with
  | c :: s' => if is_space c then lstrip s' else s
  | [] => []
  end.

Definition rstrip (s : pystr) : pystr := rev (lstrip (rev s)).

(** [s.strip()] *)
Definition strip (s : pystr) : pystr := rstrip (lstrip s).

Fixpoint startswith (p s : pystr) : bool :=
  match p, s with
  | [], _ => true
  | x :: p', y :: s' => N.eqb x y && startswith p' s'
  | _ :: _, [] => false
  end.

(** [k in s] on strings: [k] occurs in [s] as a substring. *)
Fixpoint contains (k s : pystr) : bool :=
  startswith k s ||
  match s with
  | [] => false
  | _ :: s' => contains k s'
  end.

(** [sep.join(l)] *)
Fixpoint join (sep : pystr) (l : list pystr) : pystr :=
  match l with
  | [] => []
  | [x] => x
  | x :: l' => x ++ sep ++ join sep l'
  end.

(** [int(s)] on a run of decimal digits. *)
Definition int_of_digits (s : pystr) : Z :=
  fold_left (fun acc c => 10 * acc + (Z.of_N c - 48)) s 0.

Definition digit_cp (d : Z) : N := Z.to_N (48 + d).

(** A number below 100 on two digits, below 10000 on four. *)
Definition two_digits (n : Z) : pystr := [digit_cp (n / 10 mod 10); digit_cp (n mod 10)].
Definition four_digits (n : Z) : pystr :=
  [digit_cp (n / 1000 mod 10); digit_cp (n / 100 mod 10);
   digit_cp (n / 10 mod 10); digit_cp (n mod 10)].

(** [str(n)] for a number from 0 to 99. *)
Definition small_int_str (n : Z) : pystr :=
  if n <? 10 then [digit_cp n] else two_digits n.

End Py.
Export Py.

(* ------------------------------------------------------------------ *)
(** ** Exceptions *)

(** The classes of exception.  A class stands for its subclasses too:
    [json.JSONDecodeError] is a [ValueError]. *)
Inductive exn :=
| ValueError
| TypeError
| OverflowError
| RecursionError
| OSError
| OtherError (name : string).

Inductive result (A : Type) :=
| Ok (a : A)
| Raise (e : exn).
Arguments Ok {A} a.
Arguments Raise {A} e.

Definition bind {A B} (r : result A) (f : A -> result B) : result B :=
  match r with
  | Ok a => f a
  | Raise e => Raise e
  end.

Notation "x <- c ;; k" := (bind c (fun x => k))
  (at level 61, c at next level, right associativity).

(** A float: a finite value, an infinity or a NaN. *)
Inductive pyfloat :=
| Finite (q : Q)
| Infinity (negative : bool)
| NaN.

(** [try: body  except (ValueError, TypeError): handler] *)
Definition try_except {A} (body : result A) (handler : result A) : result A :=
  match body with
  | Raise ValueError | Raise TypeError => handler
  | r => r
  end.

(* ------------------------------------------------------------------ *)
(** ** Regular expressions

    The patterns of the source are matched by backtracking, leftmost
    first, as [re] does.  The matcher is in continuation-passing style:
    the continuation receives the character before the current position
    (for [\b]), the rest of the subject and the groups captured so far,
    and its failure makes the matcher try the next alternative. *)

Module Re.

Inductive regex :=
| Eps
| Chr (p : N -> bool)
| Seq (r1 r2 : regex)
| Alt (r1 r2 : regex)
| Rep (greedy : bool) (lo : nat) (hi : option nat) (p : N -> bool)
| Grp (i : N) (r : regex)
| WordB.

Definition caps := list (N * pystr).

Definition hi_open (hi : option nat) : bool :=
  match hi with Some O => false | _ => true end.
Definition hi_pred (hi : option nat) : option nat :=
  match hi with Some n => Some (Nat.pred n) | None => None end.

Definition opt_word (c : option N) : bool :=
  match c with Some a => is_word a | None => false end.

Section Matcher.
Variable X : Type.

(** [p{lo,hi}] (greedy) or [p{lo,hi}?] (lazy) for a one-character [p]. *)
Fixpoint rep (greedy : bool) (p : N -> bool) (lo : nat) (hi : option nat)
    (prev : option N) (s : pystr) (k : option N -> pystr -> pystr -> option X)
    {struct s} : option X :=
  match s with
  | a :: s' =>
      if p a && hi_open hi then
        if greedy then
          match rep greedy p (Nat.pred lo) (hi_pred hi) (Some a) s'
                    (fun prev' t s'' => k prev' (a :: t) s'') with
          | Some x => Some x
          | None => match lo with O => k prev [] s | S _ => None end
          end
        else
          match (match lo with O => k prev [] s | S _ => None end) with
          | Some x => Some x
          | None => rep greedy p (Nat.pred lo) (hi_pred hi) (Some a) s'
                        (fun prev' t s'' => k prev' (a :: t) s'')
          end
      else match lo with O => k prev [] s | S _ => None end
  | [] => match lo with O => k prev [] s | S _ => None end
  end.

(** [run r prev s c k]: match [r] at the head of [s]; [k] is given the
    last character passed, the text [r] took, the rest, and the groups. *)
Fixpoint run (r : regex) (prev : option N) (s : pystr) (c : caps)
    (k : option N -> pystr -> pystr -> caps -> option X) : option X :=
  match r with
  | Eps => k prev [] s c
  | Chr p =>
      match s with
      | a :: s' => if p a then k (Some a) [a] s' c else None
      | [] => None
      end
  | Seq r1 r2 =>
      run r1 prev s c
        (fun p1 t1 s1 c1 =>
           run r2 p1 s1 c1 (fun p2 t2 s2 c2 => k p2 (t1 ++ t2) s2 c2))
  | Alt r1 r2 =>
      match run r1 prev s c k with
      | Some x => Some x
      | None => run r2 prev s c k
      end
  | Rep g lo hi p => rep g p lo hi prev s (fun prev' t s' => k prev' t s' c)
  | Grp i r1 => run r1 prev s c (fun prev' t s' c' => k prev' t s' ((i, t) :: c'))
  | WordB =>
      if xorb (opt_word prev) (opt_word (hd_error s)) then k prev [] s c else None
  end.

End Matcher.
Arguments rep {X}.
Arguments run {X}.

(** A match object: [group(0)], the captured groups, and what follows. *)
Record match_obj := MatchObj {
  group0 : pystr;
  groups : caps;
  m_last : option N;
  m_rest : pystr
}.

(** [m.group(i)]; [None] when the group took no part in the match. *)
Fixpoint group (i : N) (c : caps) : option pystr :=
  match c with
  | [] => None
  | (j, t) :: c' => if N.eqb i j then Some t else group i c'
  end.

Definition match_at (r : regex) (prev : option N) (s : pystr) : option match_obj :=
  run r prev s [] (fun prev' t s' c => Some (MatchObj t c prev' s')).

(** [re.match(r, s)] *)
Definition re_match (r : regex) (s : pystr) : option match_obj := match_at r None s.

Fixpoint search_from (r : regex) (prev : option N) (s : pystr) : option match_obj :=
  match match_at r prev s with
  | Some m => Some m
  | None =>
      match s with
      | a :: s' => search_from r (Some a) s'
      | [] => None
      end
  end.

(** [re.search(r, s)] *)
Definition re_search (r : regex) (s : pystr) : option match_obj := search_from r None s.

(** [re.findall(r, s)]: the successive matches, none overlapping; after an
    empty match the scan moves on by one character. *)
Fixpoint findall_from (fuel : nat) (r : regex) (prev : option N) (s : pystr)
    : list match_obj :=
  match fuel with
  | O => []
  | S fuel' =>
      match search_from r prev s with
      | None => []
      | Some m =>
          match group0 m, m_rest m with
          | [], [] => [m]
          | [], a :: s' => m :: findall_from fuel' r (Some a) s'
          | _ :: _, s' => m :: findall_from fuel' r (m_last m) s'
          end
      end
  end.

Definition re_findall (r : regex) (s : pystr) : list match_obj :=
  findall_from (S (List.length s)) r None s.

(** Pattern syntax. *)
Definition any : N -> bool := fun _ => true.
Definition one (c : N) : N -> bool := fun x => N.eqb x c.
(** a literal character under [re.IGNORECASE] *)
Definition onei (c : N) : N -> bool := fun x => N.eqb (lower_cp x) (lower_cp c).
Definition range (a b : ascii) : N -> bool :=
  fun x => (N.leb (chr a) x && N.leb x (chr b))%N.

Fixpoint cat (l : list regex) : regex :=
  match l with
  | [] => Eps
  | [r] => r
  | r :: l' => Seq r (cat l')
  end.

Fixpoint alt (l : list regex) : regex :=
  match l with
  | [] => Eps
  | [r] => r
  | r :: l' => Alt r (alt l')
  end.

Definition lit (s : string) : regex := cat (List.map (fun c => Chr (one c)) (str s)).
Definition liti (s : string) : regex := cat (List.map (fun c => Chr (onei c)) (str s)).
Definition opt (r : regex) : regex := Alt r Eps.
Definition star (p : N -> bool) : regex := Rep true O None p.
Definition plus (p : N -> bool) : regex := Rep true 1%nat None p.
Definition d : regex := Chr is_digit.

End Re.
Import Re.

(* ------------------------------------------------------------------ *)
(** ** [datetime]

    A naive [datetime] is kept as the proleptic Gregorian ordinal of its
    date ([toordinal()]) and its time of day; the calendar fields are
    computed from the ordinal as the library computes them. *)

Module Datetime.

Definition MAXORDINAL : Z := 3652059.   (* date.max.toordinal(): 9999-12-31 *)

Record datetime := mkdt {
  ordinal : Z;
  hour : Z;
  minute : Z;
  second : Z;
  microsecond : Z
}.

Definition valid_datetime (t : datetime) : Prop :=
  1 <= ordinal t <= MAXORDINAL /\ 0 <= hour t <= 23 /\ 0 <= minute t <= 59
  /\ 0 <= second t <= 59 /\ 0 <= microsecond t <= 999999.

Definition is_leap (y : Z) : bool :=
  (y mod 4 =? 0) && (negb (y mod 100 =? 0) || (y mod 400 =? 0)).

Definition days_in_month (y m : Z) : Z :=
  if m =? 2 then (if is_leap y then 29 else 28)
  else if (m =? 4) || (m =? 6) || (m =? 9) || (m =? 11) then 30 else 31.

Definition DAYS_BEFORE_MONTH : list Z :=
  [0; 0; 31; 59; 90; 120; 151; 181; 212; 243; 273; 304; 334].
Definition DAYS_IN_MONTH : list Z :=
  [0; 31; 28; 31; 30; 31; 30; 31; 31; 30; 31; 30; 31].

Definition days_before_year (y : Z) : Z :=
  let y := y - 1 in y * 365 + y / 4 - y / 100 + y / 400.

Definition days_before_month (y m : Z) : Z :=
  nth (Z.to_nat m) DAYS_BEFORE_MONTH 0 + (if (2 <? m) && is_leap y then 1 else 0).

Definition ymd2ord (y m d : Z) : Z := days_before_year y + days_before_month y m + d.

(** [datetime(y, m, d, H, M)] checks its arguments. *)
Definition valid_date (y m d : Z) : bool :=
  (1 <=? y) && (y <=? 9999) && (1 <=? m) && (m <=? 12) && (1 <=? d) && (d <=? days_in_month y m).

Definition valid_time (h mi s : Z) : bool :=
  (0 <=? h) && (h <=? 23) && (0 <=? mi) && (mi <=? 59) && (0 <=? s) && (s <=? 59).

Definition make_datetime (y m d h mi s : Z) : result datetime :=
  if valid_date y m d && valid_time h mi s
  then Ok (mkdt (ymd2ord y m d) h mi s 0)
  else Raise ValueError.

(** The date of an ordinal, as [date.fromordinal] finds it. *)
Definition ord2ymd (n : Z) : Z * Z * Z :=
  let n := n - 1 in
  let n400 := n / 146097 in let n := n mod 146097 in
  let year := n400 * 400 + 1 in
  let n100 := n / 36524 in let n := n mod 36524 in
  let n4 := n / 1461 in let n := n mod 1461 in
  let n1 := n / 365 in let n := n mod 365 in
  let year := year + n100 * 100 + n4 * 4 + n1 in
  if (n1 =? 4) || (n100 =? 4) then (year - 1, 12, 31)
  else
    let leapyear := (n1 =? 3) && (negb (n4 =? 24) || (n100 =? 3)) in
    let month := Z.shiftr (n + 50) 5 in
    let preceding :=
      nth (Z.to_nat month) DAYS_BEFORE_MONTH 0
      + (if (2 <? month) && leapyear then 1 else 0) in
    if n <? preceding then
      let month := month - 1 in
      let preceding :=
        preceding - (nth (Z.to_nat month) DAYS_IN_MONTH 0
                     + (if (month =? 2) && leapyear then 1 else 0)) in
      (year, month, n - preceding + 1)
    else (year, month, n - preceding + 1).

Definition year_of (t : datetime) : Z := fst (fst (ord2ymd (ordinal t))).
Definition month_of (t : datetime) : Z := snd (fst (ord2ymd (ordinal t))).
Definition day_of (t : datetime) : Z := snd (ord2ymd (ordinal t)).

(** [t.weekday()]: Monday is 0. *)
Definition weekday (t : datetime) : Z := (ordinal t + 6) mod 7.

Definition isoweek1monday (y : Z) : Z :=
  let firstday := ymd2ord y 1 1 in
  let firstweekday := (firstday + 6) mod 7 in
  let week1monday := firstday - firstweekday in
  if 3 <? firstweekday then week1monday + 7 else week1monday.

(** [t.isocalendar()[1]] *)
Definition iso_week (t : datetime) : Z :=
  let y := year_of t in
  let today := ordinal t in
  let week := (today - isoweek1monday y) / 7 in
  if week <? 0 then (today - isoweek1monday (y - 1)) / 7 + 1
  else if (52 <=? week) && (isoweek1monday (y + 1) <=? today) then 1
  else week + 1.

(** [a <= b] and [a < b]: by date, then by time of day. *)
Definition time_key (t : datetime) : Z :=
  ((hour t * 60 + minute t) * 60 + second t) * 1000000 + microsecond t.

Definition dt_leb (a b : datetime) : bool :=
  (ordinal a <? ordinal b) || ((ordinal a =? ordinal b) && (time_key a <=? time_key b)).

Definition dt_ltb (a b : datetime) : bool := negb (dt_leb b a).

(** [t + timedelta(days=dd, seconds=ss)] *)
Definition add_timedelta (t : datetime) (dd ss : Z) : result datetime :=
  let secs := (hour t * 60 + minute t) * 60 + second t + ss in
  let days := ordinal t + dd + secs / 86400 in
  let secs := secs mod 86400 in
  if (0 <? days) && (days <=? MAXORDINAL)
  then Ok (mkdt days (secs / 3600) (secs mod 3600 / 60) (secs mod 60) (microsecond t))
  else Raise OverflowError.

(** [(a - b).seconds]: the seconds field of the normalised difference,
    always between 0 and 86399, whatever the sign of the difference. *)
Definition sub_seconds (a b : datetime) : Z :=
  let us := time_key a - time_key b in
  (us / 1000000) mod 86400.

(** [t.replace(hour=h, minute=mi, second=0, microsecond=0)] *)
Definition replace_hm (t : datetime) (h mi : Z) : result datetime :=
  if (0 <=? h) && (h <=? 23) && (0 <=? mi) && (mi <=? 59)
  then Ok (mkdt (ordinal t) h mi 0 0)
  else Raise ValueError.

(** [t.strftime("%Y-%m-%d")], [t.strftime("%H:%M")], [t.strftime("%A")];
    the year is written on four digits. *)
Definition strftime_Ymd (t : datetime) : pystr :=
  four_digits (year_of t) ++ str "-" ++ two_digits (month_of t) ++ str "-"
  ++ two_digits (day_of t).

Definition strftime_HM (t : datetime) : pystr :=
  two_digits (hour t) ++ str ":" ++ two_digits (minute t).

Definition strftime_A (t : datetime) : pystr :=
  nth (Z.to_nat (weekday t))
    (List.map str ["Monday"; "Tuesday"; "Wednesday"; "Thursday"; "Friday";
                   "Saturday"; "Sunday"]%string) [].

(** *** [datetime.strptime]

    The format is turned into a regular expression, one named group per
    directive (the group is named here by the directive's letter), white
    space in the format standing for [\s+]; the expression is matched
    ignoring case at the start of the data, which it must consume whole. *)

(** a character from [a] to [b], then one of class [p] *)
Definition two (a b : ascii) (p : N -> bool) : regex := Seq (Chr (range a b)) (Chr p).

Definition directive (c : N) : option regex :=
  let g := Grp c in
  if N.eqb c (chr "d") then
    Some (g (alt [two "3" "3" (range "0" "1"); two "1" "2" is_digit;
                  two "0" "0" (range "1" "9"); Chr (range "1" "9");
                  two " " " " (range "1" "9")]))
  else if N.eqb c (chr "H") then
    Some (g (alt [two "2" "2" (range "0" "3"); two "0" "1" is_digit; d]))
  else if N.eqb c (chr "I") || N.eqb c (chr "m") then
    Some (g (alt [two "1" "1" (range "0" "2"); two "0" "0" (range "1" "9");
                  Chr (range "1" "9")]))
  else if N.eqb c (chr "M") then
    Some (g (alt [two "0" "5" is_digit; d]))
  else if N.eqb c (chr "S") then
    Some (g (alt [two "6" "6" (range "0" "1"); two "0" "5" is_digit; d]))
  else if N.eqb c (chr "Y") then
    Some (g (cat [d; d; d; d]))
  else if N.eqb c (chr "p") then
    Some (g (alt [liti "am"; liti "pm"]))
  else None.

Fixpoint pattern_from (in_space : bool) (fmt : pystr) : option regex :=
  match fmt with
  | [] => Some Eps
  | c :: rest =>
      if N.eqb c (chr "%") then
        match rest with
        | dc :: rest' =>
            match directive dc, pattern_from false rest' with
            | Some r, Some r' => Some (Seq r r')
            | _, _ => None
            end
        | [] => None
        end
      else if is_space c then
        if in_space then pattern_from true rest
        else option_map (Seq (plus is_space)) (pattern_from true rest)
      else option_map (Seq (Chr (onei c))) (pattern_from false rest)
  end.

Definition pattern (fmt : pystr) : option regex := pattern_from false fmt.

(** [int(s)]: surrounding white space is ignored. *)
Definition py_int (s : pystr) : Z := int_of_digits (strip s).

Definition field (c : ascii) (dflt : Z) (cs : caps) : Z :=
  match group (chr c) cs with
  | Some t => py_int t
  | None => dflt
  end.

(** The hour of a 12-hour clock reading with its meridiem. *)
Definition hour12 (h : Z) (ampm : pystr) : Z :=
  if str_eqb ampm [] || str_eqb ampm (str "am") then (if h =? 12 then 0 else h)
  else if str_eqb ampm (str "pm") then (if h =? 12 then h else h + 12)
  else h.

Definition strptime (data fmt : pystr) : result datetime :=
  match pattern fmt with
  | None => Raise ValueError
  | Some r =>
      match re_match r data with
      | None => Raise ValueError
      | Some m =>
          match m_rest m with
          | _ :: _ => Raise ValueError       (* unconverted data remains *)
          | [] =>
              let cs := groups m in
              let h :=
                match group (chr "I") cs with
                | Some t =>
                    hour12 (py_int t)
                      (lower (match group (chr "p") cs with Some a => a | None => [] end))
                | None => field "H" 0 cs
                end in
              make_datetime (field "Y" 1900 cs) (field "m" 1 cs) (field "d" 1 cs)
                            h (field "M" 0 cs) (field "S" 0 cs)
          end
      end
  end.

End Datetime.
Export Datetime.

(* ------------------------------------------------------------------ *)
(** ** The parsed page

    The tree of [BeautifulSoup(html, "html.parser")].  A tag has its name,
    its [class] (a list of names, empty when the attribute is absent), its
    other attributes and its children; a string has the kind the parser
    gave it, which decides whether [get_text] counts it as text. *)

Module Soup.

Inductive strkind :=
| NavigableString | CData | Comment | Script | Stylesheet | TemplateString
| RubyTextString | RubyParenthesisString.

Inductive node :=
| Tag (name : pystr) (class_ : list pystr) (attrs : list (pystr * pystr))
      (children : list node)
| Str (kind : strkind) (s : pystr).

Definition soup := list node.

(** [n.descendants], in document order *)
Fixpoint descendants (n : node) : list node :=
  match n with
  | Tag _ _ _ ch => flat_map (fun c => c :: descendants c) ch
  | Str _ _ => []
  end.

Definition soup_descendants (p : soup) : list node :=
  flat_map (fun c => c :: descendants c) p.

Definition tag_name (n : node) : pystr :=
  match n with Tag nm _ _ _ => nm | Str _ _ => [] end.

Definition has_name (names : list pystr) (n : node) : bool :=
  match n with
  | Tag nm _ _ _ => existsb (str_eqb nm) names
  | Str _ _ => false
  end.

(** [n.find_all(names)] and [soup.find_all(names)] *)
Definition find_all (names : list pystr) (n : node) : list node :=
  filter (has_name names) (descendants n).

Definition soup_find_all (names : list pystr) (p : soup) : list node :=
  filter (has_name names) (soup_descendants p).

Definition kind_eqb (a b : strkind) : bool :=
  match a, b with
  | NavigableString, NavigableString | CData, CData | Comment, Comment
  | Script, Script | Stylesheet, Stylesheet | TemplateString, TemplateString
  | RubyTextString, RubyTextString
  | RubyParenthesisString, RubyParenthesisString => true
  | _, _ => false
  end.

(** The kinds of string that are the text of a tag of the given name. *)
Definition interesting_string_types (nm : pystr) : list strkind :=
  if str_eqb nm (str "script") then [Script]
  else if str_eqb nm (str "style") then [Stylesheet]
  else if str_eqb nm (str "template") then [TemplateString]
  else if str_eqb nm (str "rt") then [RubyTextString]
  else if str_eqb nm (str "rp") then [RubyParenthesisString]
  else [NavigableString; CData].

Definition all_strings (strip_ : bool) (n : node) : list pystr :=
  flat_map
    (fun c =>
       match c with
       | Str k s =>
           if existsb (kind_eqb k) (interesting_string_types (tag_name n)) then
             if strip_ then (match strip s with [] => [] | t => [t] end) else [s]
           else []
       | Tag _ _ _ _ => []
       end)
    (descendants n).

(** [n.get_text(separator=sep, strip=strip_)] *)
Definition get_text (sep : pystr) (strip_ : bool) (n : node) : pystr :=
  join sep (all_strings strip_ n).

Definition classes (n : node) : list pystr :=
  match n with Tag _ c _ _ => c | Str _ _ => [] end.

Fixpoint lookup {V} (k : pystr) (l : list (pystr * V)) : option V :=
  match l with
  | [] => None
  | (k', v) :: l' => if str_eqb k k' then Some v else lookup k l'
  end.

Definition attr (k : pystr) (n : node) : option pystr :=
  match n with
  | Tag _ _ a _ => lookup k a
  | Str _ _ => None
  end.

(** [n.get(k, default)] for an attribute other than [class] *)
Definition get_attr (k : pystr) (default : pystr) (n : node) : pystr :=
  match attr k n with Some v => v | None => default end.

Definition is_some {A} (o : option A) : bool :=
  match o with Some _ => true | None => false end.

(** [soup.find_all(attrs={"class": r})]: one class, or all of them joined
    by spaces, has a match of [r]. *)
Definition class_matches (r : regex) (n : node) : bool :=
  match n with
  | Tag _ c _ _ =>
      existsb (fun x => is_some (re_search r x)) c
      || is_some (re_search r (join (str " ") c))
  | Str _ _ => false
  end.

(** [soup.find_all(attrs={k: r})] for an attribute other than [class] *)
Definition attr_matches (k : pystr) (r : regex) (n : node) : bool :=
  match attr k n with
  | Some v => is_some (re_search r v)
  | None => false
  end.

End Soup.
Export Soup.

(* ------------------------------------------------------------------ *)
(** ** Decoded JSON *)

Inductive json :=
| JNull
| JBool (b : bool)
| JNum (nonzero : bool) (text : pystr)   (* its truth value and its [str()] *)
| JStr (s : pystr)
| JArr (items : list json)
| JObj (fields : list (pystr * json)).

(** What the interpreter supplies.  [json.loads] on a text that starts
    with a bracket returns the decoded array or raises: [ValueError] for
    [json.JSONDecodeError], [RecursionError] on a text nested too deep.
    [py_repr] is the text [str()] gives for an array or an object.
    [time.sleep] returns or raises: [ValueError] on a negative delay and
    on a NaN, [OverflowError] on a delay too large for its clock. *)
Record runtime := Runtime {
  json_loads : pystr -> result (list json);
  py_repr : json -> pystr;
  time_sleep : pyfloat -> result unit
}.

(** [bool(v)] *)
Definition truthy (v : json) : bool :=
  match v with
  | JNull => false
  | JBool b => b
  | JNum nz _ => nz
  | JStr s => match s with [] => false | _ => true end
  | JArr l => match l with [] => false | _ => true end
  | JObj f => match f with [] => false | _ => true end
  end.

(** [str(v)] *)
Definition py_str (rt : runtime) (v : json) : pystr :=
  match v with
  | JNull => str "None"
  | JBool true => str "True"
  | JBool false => str "False"
  | JNum _ t => t
  | JStr s => s
  | _ => py_repr rt v
  end.

(** [next((item[k] for k in keys if k in item), default)] *)
Fixpoint first_present (keys : list pystr) (item : list (pystr * json)) (default : json)
    : json :=
  match keys with
  | [] => default
  | k :: keys' =>
      match lookup k item with
      | Some v => v
      | None => first_present keys' item default
      end
  end.

(** [item.get(k, default)] *)
Definition dict_get (k : pystr) (item : list (pystr * json)) (default : json) : json :=
  match lookup k item with Some v => v | None => default end.

(* ------------------------------------------------------------------ *)
(** ** Reservation records and the extraction strategies *)

(** One row of the dataset, with the keys of the dictionaries the source
    builds.  [duration_hours] counts hundredths of an hour. *)
Record record := mk_record {
  date : pystr;
  day_of_week : pystr;
  start_time : pystr;
  end_time : pystr;
  duration_hours : Z;
  room_name : pystr;
  room_id : pystr;
  hour_of_day : Z;
  month : Z;
  week_of_year : Z;
  source : pystr
}.

(** [round(seconds / 3600, 2)], in hundredths.  The spans that occur are
    whole minutes; for those no tie arises and the nearest hundredth is
    the same under every rounding mode. *)
Definition round2_hours (seconds : Z) : Z := (seconds + 18) / 36.

(** [parse_time_string]: the formats are tried in order and the first that
    [strptime] accepts gives the hour and the minute. *)
Definition formats : list pystr :=
  List.map str
    ["%I:%M %p"; "%I:%M%p"; "%H:%M"; "%I %p";
     "%Y-%m-%dT%H:%M:%S"; "%Y-%m-%d %H:%M:%S"]%string.

Fixpoint try_formats (fmts : list pystr) (time_str : pystr) (base_date : datetime)
    : result datetime :=
  match fmts with
  | [] => Raise ValueError
  | fmt :: fmts' =>
      try_except
        (t <- strptime time_str fmt ;;
         replace_hm base_date (hour t) (minute t))
        (try_formats fmts' time_str base_date)
  end.

Definition parse_time_string (time_str : pystr) (base_date : datetime) : result datetime :=
  let time_str := strip time_str in
  try_formats formats time_str base_date.

(** *** Strategy 1: the grid table *)

(** [(\d{1,2}):(\d{2})\s*(AM|PM)?], ignoring case *)
Definition time_label_re : regex :=
  cat [Grp 1 (Rep true 1 (Some 2%nat) is_digit); lit ":";
       Grp 2 (Rep true 2 (Some 2%nat) is_digit); star is_space;
       opt (Grp 3 (alt [liti "AM"; liti "PM"]))].

Definition room_keywords : list pystr :=
  List.map str ["room"; "104"; "211"; "230"; "311"; "319"; "grover"; "lakeview"]%string.

Definition class_keywords : list pystr :=
  List.map str ["reserved"; "booked"; "unavailable"; "occupied"; "event"]%string.

Definition text_keywords : list pystr :=
  List.map str ["reserved"; "booked"; "unavailable"]%string.

Definition cell_tags : list pystr := List.map str ["td"; "th"]%string.

(** [is_reserved], from the classes and the text of a cell *)
Definition is_reserved (cell_classes cell_text : pystr) : bool :=
  let is_reserved := existsb (fun keyword => contains keyword (lower cell_classes))
                             class_keywords in
  is_reserved || existsb (fun keyword => contains keyword (lower cell_text)) text_keywords.

Definition nat_str (n : nat) : pystr := str (NilEmpty.string_of_uint (Nat.to_uint n)).

(** [for x in l: records.extend(f x)], stopping at the first exception *)
Fixpoint for_each {A B} (f : A -> result (list B)) (l : list A) : result (list B) :=
  match l with
  | [] => Ok []
  | x :: l' => rs <- f x ;; rs' <- for_each f l' ;; Ok (rs ++ rs')
  end.

(** [enumerate(l, start)] *)
Fixpoint enumerate {A} (start : nat) (l : list A) : list (nat * A) :=
  match l with
  | [] => []
  | x :: l' => (start, x) :: enumerate (S start) l'
  end.

Definition grid_cell (headers : list pystr) (date slot_time : datetime) (hour : Z)
    (ic : nat * node) : result (list record) :=
  let (col_idx, cell) := ic in
  let col_name :=
    if (col_idx <? List.length headers)%nat then nth col_idx headers []
    else str "Room_" ++ nat_str col_idx in
  let cell_classes := join (str " ") (classes cell) in
  let cell_text := get_text [] true cell in
  if is_reserved cell_classes cell_text then
    end_dt <- add_timedelta slot_time 0 (30 * 60) ;;
    Ok [ {| date := strftime_Ymd date;
            day_of_week := strftime_A date;
            start_time := strftime_HM slot_time;
            end_time := strftime_HM end_dt;
            duration_hours := 50;
            room_name := col_name;
            room_id := col_name;
            hour_of_day := hour;
            month := month_of date;
            week_of_year := iso_week date;
            source := str "grid_table" |} ]
  else Ok [].

Definition grid_row (headers : list pystr) (date : datetime) (row : node)
    : result (list record) :=
  match find_all cell_tags row with
  | [] => Ok []
  | cell0 :: rest =>
      let time_text := get_text [] true cell0 in
      match re_match time_label_re time_text with
      | None => Ok []
      | Some time_match =>
          let g i := match group i (groups time_match) with Some t => t | None => [] end in
          let hour := int_of_digits (g 1%N) in
          let minute := int_of_digits (g 2%N) in
          let meridiem := group 3 (groups time_match) in
          let is_ m t := match m with
                         | Some x => negb (str_eqb x []) && str_eqb (upper x) (str t)
                         | None => false
                         end in
          let hour :=
            if is_ meridiem "PM"%string && negb (hour =? 12) then hour + 12
            else if is_ meridiem "AM"%string && (hour =? 12) then 0
            else hour in
          slot_time <- replace_hm date hour minute ;;
          for_each (grid_cell headers date slot_time hour) (enumerate 1 rest)
      end
  end.

Definition grid_table (date : datetime) (table : node) : result (list record) :=
  let rows := find_all [str "tr"] table in
  if (List.length rows <? 3)%nat then Ok []
  else
    match rows with
    | [] => Ok []
    | header_row :: data_rows =>
        let headers := List.map (get_text [] true) (find_all (List.map str ["th"; "td"]%string) header_row) in
        if negb (existsb (fun room_keyword =>
                            contains room_keyword (lower (join (str " ") headers)))
                         room_keywords)
        then Ok []
        else for_each (grid_row headers date) data_rows
    end.

(** *** Strategy 2: JSON embedded in a script *)

Definition time_keys : list pystr :=
  List.map str ["startTime"; "start_time"; "StartTime"; "start"; "Begin"; "beginTime"]%string.
Definition end_keys : list pystr :=
  List.map str ["endTime"; "end_time"; "EndTime"; "end"; "End"; "endTime"]%string.
Definition room_keys : list pystr :=
  List.map str ["roomName"; "room_name"; "RoomName"; "room"; "Room"; "location"]%string.

Definition extract_from_json_item (rt : runtime) (item : list (pystr * json))
    (date : datetime) : result (option record) :=
  let start_val := first_present time_keys item JNull in
  let end_val := first_present end_keys item JNull in
  let room_val := first_present room_keys item (JStr (str "Unknown")) in
  if negb (truthy start_val) then Ok None
  else
    try_except
      (start_dt <- parse_time_string (py_str rt start_val) date ;;
       end_dt <- (if truthy end_val then parse_time_string (py_str rt end_val) date
                  else add_timedelta start_dt 0 3600) ;;
       let duration := sub_seconds end_dt start_dt in
       Ok (Some {| date := strftime_Ymd date;
                   day_of_week := strftime_A date;
                   start_time := strftime_HM start_dt;
                   end_time := strftime_HM end_dt;
                   duration_hours := round2_hours duration;
                   room_name := py_str rt room_val;
                   room_id := py_str rt (dict_get (str "roomId") item
                                           (dict_get (str "room_id") item (JStr [])));
                   hour_of_day := hour start_dt;
                   month := month_of date;
                   week_of_year := iso_week date;
                   source := str "json_embed" |}))
      (Ok None).

(** [(\[{.*?}\])] with [re.DOTALL] *)
Definition json_array_re : regex :=
  Grp 1 (cat [lit "[{"; Rep false O None any; lit "}]"]).

Definition option_list {A} (o : option A) : list A :=
  match o with Some a => [a] | None => [] end.

(** [try: data = json.loads(match) ... except (json.JSONDecodeError,
    ValueError): continue]: a [ValueError] of [json.loads] passes the
    match over, any other exception is raised on.  The handler also
    covers the loop over the items, which raises no [ValueError]. *)
Definition json_match (rt : runtime) (date : datetime) (m : match_obj)
    : result (list record) :=
  let text := match group 1 (groups m) with Some t => t | None => [] end in
  match json_loads rt text with
  | Raise ValueError => Ok []
  | Raise e => Raise e
  | Ok data =>
      for_each
        (fun item =>
           match item with
           | JObj fields =>
               record <- extract_from_json_item rt fields date ;;
               Ok (option_list record)
           | _ => Ok []
           end)
        data
  end.

Definition script_records (rt : runtime) (date : datetime) (script : node)
    : result (list record) :=
  let script_text := get_text [] false script in
  for_each (json_match rt date) (re_findall json_array_re script_text).

(** *** Strategy 3: elements that look like events *)

(** [(\d{1,2}:\d{2}\s*(?:AM|PM)?)\s*[-–to]+\s*(\d{1,2}:\d{2}\s*(?:AM|PM)?)],
    ignoring case *)
Definition clock_re : regex :=
  cat [Rep true 1 (Some 2%nat) is_digit; lit ":"; Rep true 2 (Some 2%nat) is_digit;
       star is_space; opt (alt [liti "AM"; liti "PM"])].

Definition en_dash : N := 8211.

Definition range_separator (c : N) : bool :=
  one (chr "-") c || one en_dash c || onei (chr "t") c || onei (chr "o") c.

Definition time_range_re : regex :=
  cat [Grp 1 clock_re; star is_space; plus range_separator; star is_space;
       Grp 2 clock_re].

(** [Room\s*(\d{3})|(\b(?:Grover|Lakeview|Van Houten|TWC)\b)], ignoring case *)
Definition room_re : regex :=
  Alt (cat [liti "Room"; star is_space; Grp 1 (Rep true 3 (Some 3%nat) is_digit)])
      (Grp 2 (cat [WordB;
                   alt [liti "Grover"; liti "Lakeview"; liti "Van Houten"; liti "TWC"];
                   WordB])).

Definition extract_from_element (element : node) (date : datetime)
    : result (option record) :=
  let text := get_text (str " ") true element in
  match re_search time_range_re text with
  | None => Ok None
  | Some time_pattern =>
      let g i := match group i (groups time_pattern) with Some t => t | None => [] end in
      try_except
        (start_dt <- parse_time_string (g 1%N) date ;;
         end_dt <- parse_time_string (g 2%N) date ;;
         let duration := sub_seconds end_dt start_dt in
         let room_name :=
           match re_search room_re text with
           | Some room_match => group0 room_match
           | None => get_attr (str "data-room") (str "Unknown") element
           end in
         Ok (Some {| date := strftime_Ymd date;
                     day_of_week := strftime_A date;
                     start_time := strftime_HM start_dt;
                     end_time := strftime_HM end_dt;
                     duration_hours := round2_hours duration;
                     room_name := room_name;
                     room_id := [];
                     hour_of_day := hour start_dt;
                     month := month_of date;
                     week_of_year := iso_week date;
                     source := str "html_element" |}))
        (Ok None)
  end.

(** [event|reservation|booking] and [reservation|event], ignoring case *)
Definition class_selector_re : regex := alt [liti "event"; liti "reservation"; liti "booking"].
Definition data_type_selector_re : regex := alt [liti "reservation"; liti "event"].

Definition event_selectors : list (node -> bool) :=
  [class_matches class_selector_re;
   attr_matches (str "data-type") data_type_selector_re].

Definition element_records (date : datetime) (element : node) : result (list record) :=
  record <- extract_from_element element date ;;
  Ok (option_list record).

(** *** [parse_time_slots]: the three strategies, one after the other

    The empty page, [if not html], has no records. *)

Definition strategy1 (html : soup) (date : datetime) : result (list record) :=
  for_each (grid_table date) (soup_find_all [str "table"] html).

Definition strategy2 (rt : runtime) (html : soup) (date : datetime) : result (list record) :=
  for_each (script_records rt date) (soup_find_all [str "script"] html).

Definition strategy3 (html : soup) (date : datetime) : result (list record) :=
  for_each
    (fun selector =>
       for_each (element_records date) (filter selector (soup_descendants html)))
    event_selectors.

Definition parse_time_slots (rt : runtime) (html : soup) (date : datetime)
    : result (list record) :=
  match html with
  | [] => Ok []
  | _ =>
      r1 <- strategy1 html date ;;
      r2 <- strategy2 rt html date ;;
      r3 <- strategy3 html date ;;
      Ok (r1 ++ r2 ++ r3)
  end.

(* ------------------------------------------------------------------ *)
(** ** Collection over a range of days *)

(** What the loop does to the outside: it asks for the page of a day and
    it sleeps. *)
Inductive event :=
| Fetch (day : datetime)
| Sleep (delay : pyfloat).

Definition record_eqb (a b : record) : bool :=
  str_eqb (date a) (date b) && str_eqb (day_of_week a) (day_of_week b)
  && str_eqb (start_time a) (start_time b) && str_eqb (end_time a) (end_time b)
  && (duration_hours a =? duration_hours b)
  && str_eqb (room_name a) (room_name b) && str_eqb (room_id a) (room_id b)
  && (hour_of_day a =? hour_of_day b) && (month a =? month b)
  && (week_of_year a =? week_of_year b) && str_eqb (source a) (source b).

(** [df.drop_duplicates()]: a row equal in every column to an earlier row
    is dropped. *)
Fixpoint drop_from (seen : list record) (l : list record) : list record :=
  match l with
  | [] => []
  | r :: l' =>
      if existsb (record_eqb r) seen then drop_from seen l'
      else r :: drop_from (r :: seen) l'
  end.

Definition drop_duplicates (l : list record) : list record := drop_from [] l.

(** The key of [df.sort_values(["date", "room_name", "start_time"])] *)
Definition key_leb (a b : record) : bool :=
  str_ltb (date a) (date b)
  || (str_eqb (date a) (date b)
      && (str_ltb (room_name a) (room_name b)
          || (str_eqb (room_name a) (room_name b)
              && negb (str_ltb (start_time b) (start_time a))))).

Fixpoint insert_sorted (r : record) (l : list record) : list record :=
  match l with
  | [] => [r]
  | x :: l' => if key_leb r x then r :: l else x :: insert_sorted r l'
  end.

(** A stable sort by the key. *)
Definition sort_values (l : list record) : list record :=
  fold_right insert_sorted [] l.

Section Collect.

Variable rt : runtime.
(** [fetch_availability_page(session, day)]: the page, or nothing. *)
Variable fetch : datetime -> option soup.
Variable delay : pyfloat.

(** The [while current <= end_date] loop.  [fuel] bounds the number of
    iterations; [collect_date_range] gives it one more than the days from
    [start_date] to [end_date], and it does not run out
    ([collect_loop_fuel]).  A day with no page, or with an empty one,
    [if html] being false, adds nothing.  [time.sleep(delay)] comes last
    in a turn; when it raises, the loop ends with its exception and the
    delay was not taken.  The log lines are left out. *)
Fixpoint collect_loop (fuel : nat) (current end_date : datetime)
    (all_records : list record) (trace : list event)
    : list event * result (list record) :=
  match fuel with
  | O => (trace, Ok all_records)
  | S fuel' =>
      if dt_leb current end_date then
        let trace := trace ++ [Fetch current] in
        let found :=
          match fetch current with
          | None | Some [] => Ok []
          | Some html => parse_time_slots rt html current
          end in
        match found with
        | Raise e => (trace, Raise e)
        | Ok records =>
            let all_records := all_records ++ records in
            match add_timedelta current 1 0 with
            | Raise e => (trace, Raise e)
            | Ok current =>
                match time_sleep rt delay with
                | Raise e => (trace, Raise e)
                | Ok _ =>
                    collect_loop fuel' current end_date all_records
                      (trace ++ [Sleep delay])
                end
            end
        end
      else (trace, Ok all_records)
  end.

Definition collect_date_range (start_date end_date : datetime)
    : list event * result (list record) :=
  let fuel := Z.to_nat (ordinal end_date - ordinal start_date + 2) in
  match collect_loop fuel start_date end_date [] [] with
  | (trace, Raise e) => (trace, Raise e)
  | (trace, Ok all_records) =>
      match all_records with
      | [] => (trace, Ok [])
      | _ => (trace, Ok (sort_values (drop_duplicates all_records)))
      end
  end.

End Collect.

(* ------------------------------------------------------------------ *)
(** ** Statements of the specification, and the inputs of the examples *)

(** [t] moved [k] days on, at the same time of day. *)
Definition plus_days (t : datetime) (k : Z) : datetime :=
  mkdt (ordinal t + k) (hour t) (minute t) (second t) (microsecond t).

(** The records a day contributes: none when the page is missing. *)
Definition day_records (rt : runtime) (fetch : datetime -> option soup) (day : datetime)
    : result (list record) :=
  match fetch day with
  | None | Some [] => Ok []
  | Some html => parse_time_slots rt html day
  end.

(** Two records book the same room for the same span of the same day. *)
Definition same_slot (a b : record) : Prop :=
  date a = date b /\ room_name a = room_name b
  /\ start_time a = start_time b /\ end_time a = end_time b.

(** At most one record for each (date, roomName, start, end). *)
Definition one_per_slot (l : list record) : Prop :=
  forall i j a b,
    nth_error l i = Some a -> nth_error l j = Some b -> same_slot a b -> i = j.

(** What [k in s] decides: [s] is some text, then [k], then some text. *)
Definition substring (k s : pystr) : Prop := exists pre post, s = pre ++ k ++ post.

(** Two characters are the same letter when they are one character, or a
    capital of the ASCII alphabet (65 to 90) and its small letter, 32
    further on. *)
Definition same_letter (x y : N) : Prop :=
  x = y
  \/ ((65 <= x <= 90)%N /\ y = (x + 32)%N)
  \/ ((65 <= y <= 90)%N /\ x = (y + 32)%N).

(** [k] occurs in [s] whatever the case of the ASCII letters: a piece of
    [s] reads as [k], letter by letter. *)
Definition occurs_ignoring_case (k s : pystr) : Prop :=
  exists pre mid post, s = pre ++ mid ++ post /\ Forall2 same_letter mid k.

(** One of the keywords occurs in [s]. *)
Definition mentions (keywords : list string) (s : pystr) : Prop :=
  exists k, In k keywords /\ occurs_ignoring_case (str k) s.

(** [s.isascii()] *)
Definition isascii (s : pystr) : bool := forallb (fun c => (c <? 128)%N) s.

(** The fields of a time of day are not negative; they are in range. *)
Definition time_nonneg (t : datetime) : Prop :=
  0 <= hour t /\ 0 <= minute t /\ 0 <= second t.

Definition valid_time_of_day (t : datetime) : Prop :=
  0 <= hour t <= 23 /\ 0 <= minute t <= 59 /\ 0 <= second t <= 59.

(** A time of day on the day [date]: what [parse_time_string] returns. *)
Definition on_day (date t : datetime) : Prop :=
  ordinal t = ordinal date /\ 0 <= hour t <= 23 /\ 0 <= minute t <= 59
  /\ second t = 0 /\ microsecond t = 0.

(** What holds of every record extracted from the page of [day]. *)
Definition record_facts (day : datetime) (r : record) : Prop :=
  date r = strftime_Ymd day
  /\ 0 <= duration_hours r
  /\ (0 < duration_hours r <-> start_time r <> end_time r)
  /\ ((source r = str "grid_table" /\ duration_hours r = 50 /\ room_id r = room_name r)
      \/ source r = str "json_embed"
      \/ (source r = str "html_element" /\ room_id r = [])).

(** The room id as the specification describes it: the first run of
    exactly three digits in the room name, and the whole name when there
    is none.  [digit_runs] lists the maximal runs of digits of a text. *)
Fixpoint digit_runs (cur : pystr) (s : pystr) : list pystr :=
  match s with
  | [] => match cur with [] => [] | _ => [rev cur] end
  | c :: s' =>
      if is_digit c then digit_runs (c :: cur) s'
      else match cur with
           | [] => digit_runs [] s'
           | _ => rev cur :: digit_runs [] s'
           end
  end.

Definition three_digit_token (name : pystr) : option pystr :=
  find (fun t => (List.length t =? 3)%nat) (digit_runs [] name).

Definition spec_room_id (name : pystr) : pystr :=
  match three_digit_token name with
  | Some t => t
  | None => name
  end.

(** The least number of characters a match of [r] takes. *)
Fixpoint min_len (r : regex) : nat :=
  match r with
  | Eps | WordB => 0
  | Chr _ => 1
  | Seq r1 r2 => min_len r1 + min_len r2
  | Alt r1 r2 => Nat.min (min_len r1) (min_len r2)
  | Rep _ lo _ _ => lo
  | Grp _ r1 => min_len r1
  end.

(** The start and the end a JSON object names, and the two ends of the
    time range in the text of an element. *)
Definition json_start (rt : runtime) (item : list (pystr * json)) : pystr :=
  py_str rt (first_present time_keys item JNull).
Definition json_end (rt : runtime) (item : list (pystr * json)) : pystr :=
  py_str rt (first_present end_keys item JNull).

Definition element_text (element : node) : pystr := get_text (str " ") true element.

Definition range_end (i : N) (element : node) : option pystr :=
  match re_search time_range_re (element_text element) with
  | Some m => Some (match group i (groups m) with Some t => t | None => [] end)
  | None => None
  end.

(** The span from [a] to [b] in minutes, taken within one day. *)
Definition span_minutes (a b : datetime) : Z :=
  (hour b * 60 + minute b - (hour a * 60 + minute a)) mod 1440.

(** Whether the grid strategy takes a cell for a reserved slot. *)
Definition cell_reserved (cell : node) : bool :=
  is_reserved (join (str " ") (classes cell)) (get_text [] true cell).

(** *** Time tokens

    One writer for each format [parse_time_string] supports: the hour of
    the day [h] and the minute [m] on a 12-hour clock with its meridiem
    ("2:30 PM", "02:30 pm", "2:30PM"), on a 24-hour clock ("14:30"), as a
    bare hour ("2 PM"), and inside an ISO date-time with either separator
    ("2024-01-01T14:30:00", "2024-01-01 14:30:00"). *)
Module Token.

Definition hour_text (pad : bool) (h : Z) : pystr :=
  if pad then two_digits h else small_int_str h.

Definition hour_12 (h : Z) : Z := if h mod 12 =? 0 then 12 else h mod 12.

Definition meridiem (low : bool) (h : Z) : pystr :=
  if h <? 12 then (if low then str "am" else str "AM")
  else (if low then str "pm" else str "PM").

Definition clock_12h (pad low tight : bool) (h m : Z) : pystr :=
  hour_text pad (hour_12 h) ++ str ":" ++ two_digits m
  ++ (if tight then [] else str " ") ++ meridiem low h.

Definition clock_24h (pad : bool) (h m : Z) : pystr :=
  hour_text pad h ++ str ":" ++ two_digits m.

Definition bare_hour (pad low : bool) (h : Z) : pystr :=
  hour_text pad (hour_12 h) ++ str " " ++ meridiem low h.

Definition iso (space : bool) (y mo d h m sec : Z) : pystr :=
  four_digits y ++ str "-" ++ two_digits mo ++ str "-" ++ two_digits d
  ++ (if space then str " " else str "T")
  ++ two_digits h ++ str ":" ++ two_digits m ++ str ":" ++ two_digits sec.

End Token.

(** The first format of the list that [strptime] accepts, and what it
    reads. *)
Fixpoint first_format (fmts : list pystr) (time_str : pystr) : option datetime :=
  match fmts with
  | [] => None
  | fmt :: fmts' =>
      match strptime time_str fmt with
      | Ok t => Some t
      | Raise _ => first_format fmts' time_str
      end
  end.

(** [time_str] is read as [h]:[m]. *)
Definition reads (time_str : pystr) (h m : Z) : bool :=
  match first_format formats (strip time_str) with
  | Some t => (hour t =? h) && (minute t =? m)
  | None => false
  end.

Definition upto (n : nat) : list Z := List.map Z.of_nat (seq 0 n).

Definition bools : list bool := [true; false].

(** The directive [%c] as a pattern. *)
Definition dre (c : ascii) : regex :=
  match directive (chr c) with Some r => r | None => Eps end.

(** The pattern of the two ISO formats, with [T] or with a space. *)
Definition iso_regex (space : bool) : regex :=
  cat [dre "Y"; Chr (onei (chr "-")); dre "m"; Chr (onei (chr "-")); dre "d";
       (if space then plus is_space else Chr (onei (chr "T")));
       dre "H"; Chr (onei (chr ":")); dre "M"; Chr (onei (chr ":")); dre "S"; Eps].

Module Ex.
Local Open Scope string_scope.

(** The longest delay [time.sleep] converts: 2^63 nanoseconds. *)
Definition longest_sleep : Q := 9223372036854775808 # 1000000000.

(** [time.sleep] for the examples.  It raises [ValueError] on a NaN,
    [OverflowError] on an infinity and on a delay beyond 2^63
    nanoseconds either way, [ValueError] on any other negative delay,
    and returns otherwise.  (CPython's does the same, but for the
    rounding of floats next to 2^63 nanoseconds and for the limit the
    platform may set on the length of a sleep.) *)
Definition sleep (d : pyfloat) : result unit :=
  match d with
  | NaN => Raise ValueError
  | Infinity _ => Raise OverflowError
  | Finite q =>
      if negb (Qle_bool (- longest_sleep) q && Qle_bool q longest_sleep)
      then Raise OverflowError
      else if negb (Qle_bool 0 q) then Raise ValueError
      else Ok tt
  end.

(** An interpreter whose [json.loads] rejects every text. *)
Definition rt0 : runtime := Runtime (fun _ => Raise ValueError) (fun _ => []) sleep.

Definition text (s : string) : node := Str NavigableString (str s).
Definition td (cls : list string) (children : list node) : node :=
  Tag (str "td") (List.map str cls) [] children.
Definition th (s : string) : node := Tag (str "th") [] [] [text s].
Definition tr (cells : list node) : node := Tag (str "tr") [] [] cells.
Definition table (rows : list node) : node := Tag (str "table") [] [] rows.
Definition div (cls : list string) (attrs : list (string * string)) (s : string) : node :=
  Tag (str "div") (List.map str cls)
      (List.map (fun kv => (str (fst kv), str (snd kv))) attrs) [text s].

(** Header [Time | Room 104 | Room 211]; a row at 9:00 AM whose second
    cell has class [reserved] and whose third has an empty class. *)
Definition header_row : node := tr [th "Time"; th "Room 104"; th "Room 211"].
Definition data_row : node := tr [td [] [text "9:00 AM"]; td ["reserved"] []; td [] []].

Definition page_three_rows : soup := [table [header_row; data_row; tr []]].


(** The same grid, and an event element that reports the same booking. *)
Definition page_two_signals : soup :=
  [table [header_row; data_row; tr []];
   div ["event"] [] "Room 104 9:00 AM - 9:30 AM"].

(** A grid whose first time label reads 24:00. *)
Definition page_bad_hour : soup :=
  [table [header_row; tr [td [] [text "24:00"]; td [] []; td [] []]; data_row]].

(** An event element from 9:00 AM to 9:00 AM, with an empty room
    attribute, and the page that holds it. *)
Definition empty_span : node := div ["event"] [("data-room", "")] "9:00 AM - 9:00 AM".
Definition page_empty_span : soup := [empty_span].

(** A cell with no class whose text reads "occupied". *)
Definition occupied_cell : node := td [] [text "occupied"].

(** A JSON object that ends an hour before it starts. *)
Definition backwards_item : list (pystr * json) :=
  [(str "start", JStr (str "11:00")); (str "end", JStr (str "10:00"))].

(** A JSON object with a room id of its own. *)
Definition item_with_id : list (pystr * json) :=
  [(str "startTime", JStr (str "10:00")); (str "endTime", JStr (str "11:00"));
   (str "roomName", JStr (str "Room 230")); (str "roomId", JStr (str "LMR"))].

(** 1, 2 and 3 March 2024 at midnight. *)
Definition march (d : Z) : datetime := mkdt (ymd2ord 2024 3 d) 0 0 0 0.

(** A script that holds an array, and an interpreter that decodes the
    array to the object above. *)
Definition page_script : soup :=
  [Tag (str "script") [] [] [Str Script (str "var reservations = [{...}];")]].
Definition rt_item : runtime :=
  Runtime (fun _ => Ok [JObj item_with_id]) (fun _ => []) sleep.

(** A site that has the grid for every day but 2 March. *)
Definition fetch_gap (day : datetime) : option soup :=
  if (ordinal day =? ordinal (march 2))%Z then None else Some page_three_rows.

End Ex.

(** *** Proof steps *)

(** Reduce the projections of a record that is written out. *)
Ltac fields :=
  cbn [date day_of_week start_time end_time duration_hours room_name room_id
       hour_of_day month week_of_year source].

(** One case for each value of [v] from [lo] to [hi]. *)
Ltac split_range v lo hi :=
  let H := fresh in
  assert (H : In v (List.map (fun n => lo + Z.of_nat n) (seq 0 (Z.to_nat (hi - lo + 1)))));
  [ apply in_map_iff; exists (Z.to_nat (v - lo)); split; [lia | apply in_seq; lia]
  | cbn in H; repeat (destruct H as [<- | H]); try contradiction ].

(* ------------------------------------------------------------------ *)
(** ** Further statements about the functions above *)

(** [a] comes no later than [b] in the order of
    [sort_values(["date", "room_name", "start_time"])]. *)
Definition key_le (a b : record) : Prop := key_leb a b = true.

(** The days of a run of [n] days from [start], and what the loop does
    to the outside on them: a page is asked for, then the delay is taken. *)
Definition days_from (start : datetime) (n : nat) : list datetime :=
  List.map (plus_days start) (upto n).

Definition run_trace (delay : pyfloat) (days : list datetime) : list event :=
  flat_map (fun d => [Fetch d; Sleep delay]) days.

(** A day of the range whose extraction returns the records [recs d]. *)
Definition good_day (rt : runtime) (fetch : datetime -> option soup) (end_date : datetime)
    (recs : datetime -> list record) (d : datetime) : Prop :=
  dt_leb d end_date = true /\ day_records rt fetch d = Ok (recs d).

(** The hour and the minute the grid strategy reads from a time label:
    the part of [parse_time_slots] between [re.match] and [date.replace]. *)
Definition label_time (time_text : pystr) : option (Z * Z) :=
  match re_match time_label_re time_text with
  | None => None
  | Some time_match =>
      let g i := match group i (groups time_match) with Some t => t | None => [] end in
      let hour := int_of_digits (g 1%N) in
      let minute := int_of_digits (g 2%N) in
      let meridiem := group 3 (groups time_match) in
      let is_ m t := match m with
                     | Some x => negb (str_eqb x []) && str_eqb (upper x) (str t)
                     | None => false
                     end in
      let hour :=
        if is_ meridiem "PM"%string && negb (hour =? 12) then hour + 12
        else if is_ meridiem "AM"%string && (hour =? 12) then 0
        else hour in
      Some (hour, minute)
  end.

(** A clock reading as [strftime("%H:%M")] writes it. *)
Definition clock (h m : Z) : pystr := two_digits h ++ str ":" ++ two_digits m.

(** The grid strategy reads [token] as [h]:[m]. *)
Definition label_agrees (token : pystr) (h m : Z) : bool :=
  match label_time token with
  | Some (h', m') => (h' =? h) && (m' =? m)
  | None => false
  end.


(** Further examples. *)
Module Cases.
Local Open Scope string_scope.

(** A grid whose only slot starts at 11:30 PM. *)
Definition page_late_slot : soup :=
  [Ex.table [Ex.header_row;
             Ex.tr [Ex.td [] [Ex.text "11:30 PM"]; Ex.td ["booked"] []; Ex.td [] []];
             Ex.tr []]].

(** A JSON object that names a start and no end. *)
Definition open_item : list (pystr * json) :=
  [(str "start", JStr (str "23:15")); (str "end", JNull)].

(** The last day [datetime] has, 31 December 9999. *)
Definition last_day : datetime := mkdt MAXORDINAL 0 0 0 0.


End Cases.


(* ------------------------------------------------------------------ *)
(** ** The availability page of a day

    [session.get] either returns a response or raises a
    [requests.RequestException]; what it answers is decided outside the
    program.  [fetch_availability_page] is given here the answers of the
    server and returns, with the page, the endpoints it has asked, in
    order. *)

Module Requests.

Record response := Response { status_code : Z; text : pystr }.

Inductive reply :=
| Got (resp : response)
| RequestException.

End Requests.

Definition BASE_URL : pystr := str "https://rollins.emscloudservice.com/web".

Definition endpoints : list pystr :=
  [BASE_URL ++ str "/BrowseAvailability.aspx";
   BASE_URL ++ str "/RoomRequest.aspx";
   BASE_URL ++ str "/Browse/BrowseAvailability"].

(** [date.strftime("%m/%d/%Y")] *)
Definition strftime_mdY (t : datetime) : pystr :=
  two_digits (month_of t) ++ str "/" ++ two_digits (day_of t) ++ str "/"
  ++ four_digits (year_of t).

Section Fetch.

Variable get : pystr -> list (pystr * pystr) -> Requests.reply.

(** [for endpoint in endpoints: ...], with the endpoints asked so far *)
Fixpoint try_endpoints (params : list (pystr * pystr)) (l : list pystr)
    (asked : list pystr) : list pystr * option pystr :=
  match l with
  | [] => (asked, None)
  | endpoint :: l' =>
      let asked := asked ++ [endpoint] in
      match get endpoint params with
      | Requests.Got resp =>
          if (Requests.status_code resp =? 200)
             && (500 <? Z.of_nat (List.length (Requests.text resp)))
          then (asked, Some (Requests.text resp))
          else try_endpoints params l' asked
      | Requests.RequestException => try_endpoints params l' asked
      end
  end.

Definition fetch_availability_page (date : datetime) : list pystr * option pystr :=
  let date_str := strftime_mdY date in
  let params := [(str "date", date_str); (str "view", str "day")] in
  try_endpoints params endpoints [].

End Fetch.

(** The answer to a request is a page that [fetch_availability_page]
    accepts. *)
Definition page_of (r : Requests.reply) : option pystr :=
  match r with
  | Requests.Got resp =>
      if (Requests.status_code resp =? 200)
         && (500 <? Z.of_nat (List.length (Requests.text resp)))
      then Some (Requests.text resp) else None
  | Requests.RequestException => None
  end.

(** The parameters of the request for a day. *)
Definition day_params (date : datetime) : list (pystr * pystr) :=
  [(str "date", strftime_mdY date); (str "view", str "day")].

(* ------------------------------------------------------------------ *)
(** ** The range of days [main] collects

    [main], from the arguments of the command line to the call of
    [collect_date_range].  The login that may come before the collection
    (its result is not used), the columns added afterwards and the file
    written are left out. *)

Module Args.

(** The options [--start], [--end], [--days] and [--delay]; an option
    that is not given is [None], and [--days] is 1. *)
Record t := Make {
  start : option pystr;
  end_ : option pystr;
  days : Z;
  delay : pyfloat
}.

End Args.

(** [if args.start]: the option is given and is not the empty string. *)
Definition given (o : option pystr) : bool :=
  match o with
  | Some (_ :: _) => true
  | _ => false
  end.

Definition option_text (o : option pystr) : pystr :=
  match o with Some s => s | None => [] end.

(** [timedelta(days=d)] *)
Definition timedelta_days (d : Z) : result Z :=
  if (-999999999 <=? d) && (d <=? 999999999) then Ok d else Raise OverflowError.

(** [datetime.today().replace(hour=0, minute=0, second=0, microsecond=0)]
    when [datetime.today()] is [now] *)
Definition midnight (now : datetime) : datetime := mkdt (ordinal now) 0 0 0 0.

Definition date_range (now : datetime) (args : Args.t) : result (datetime * datetime) :=
  let today := midnight now in
  if given (Args.start args) && given (Args.end_ args) then
    start_date <- strptime (option_text (Args.start args)) (str "%Y-%m-%d") ;;
    end_date <- strptime (option_text (Args.end_ args)) (str "%Y-%m-%d") ;;
    Ok (start_date, end_date)
  else if given (Args.start args) then
    start_date <- strptime (option_text (Args.start args)) (str "%Y-%m-%d") ;;
    let end_date := today in
    Ok (start_date, end_date)
  else
    let end_date := today in
    delta <- timedelta_days (Args.days args - 1) ;;
    start_date <- add_timedelta today (- delta) 0 ;;
    Ok (start_date, end_date).

Definition main_collect (rt : runtime) (fetch : datetime -> option soup) (now : datetime)
    (args : Args.t) : list event * result (list record) :=
  match date_range now args with
  | Raise e => ([], Raise e)
  | Ok (start_date, end_date) =>
      collect_date_range rt fetch (Args.delay args) start_date end_date
  end.

(** A date as [--start] and [--end] take it: [YYYY-MM-DD]. *)
Definition date_text (y m d : Z) : pystr :=
  four_digits y ++ str "-" ++ two_digits m ++ str "-" ++ two_digits d.

(** The pattern of the format [%Y-%m-%d]. *)
Definition date_regex : regex :=
  cat [dre "Y"; Chr (onei (chr "-")); dre "m"; Chr (onei (chr "-")); dre "d"; Eps].

(** A server whose first endpoint fails and whose second answers with a
    page of 600 characters. *)
Definition second_answers (endpoint : pystr) (params : list (pystr * pystr))
    : Requests.reply :=
  if str_eqb endpoint (BASE_URL ++ str "/BrowseAvailability.aspx")
  then Requests.RequestException
  else Requests.Got (Requests.Response 200 (repeat 120%N 600)).

(* ------------------------------------------------------------------ *)
(** ** The calendar, day by day *)

(** [(y, m, d)] is before [(y', m', d')]. *)
Definition date_ltb (a b : Z * Z * Z) : bool :=
  let '(y, m, d) := a in
  let '(y', m', d') := b in
  (y <? y') || ((y =? y') && ((m <? m') || ((m =? m') && (d <? d')))).

(** The date moved on by [q] periods of 400 years. *)
Definition later_by (q : Z) (a : Z * Z * Z) : Z * Z * Z :=
  let '(y, m, d) := a in (y + 400 * q, m, d).

(** What is checked of the day [n] of the first 400 years, given its
    date and the date of the day after: the date is one of the calendar,
    in a year up to 400 (up to 399 before the last 366 days), its
    ordinal is [n], and the date of the day after is later. *)
Definition cycle_day_ok (n : Z) (a b : Z * Z * Z) : bool :=
  let '(y, m, d) := a in
  (1 <=? y) && (y <=? 400) && (implb (n <=? 145731) (y <=? 399))
  && (1 <=? m) && (m <=? 12) && (1 <=? d) && (d <=? days_in_month y m)
  && (ymd2ord y m d =? n) && date_ltb a b.

(** [c i (h i) (h (i + 1))] for every [i] from [lo] on, [n] times; each
    [h i] is computed once. *)
Definition scan {A} (h : Z -> A) (c : Z -> A -> A -> bool) (lo : Z) (n : N) : bool :=
  snd (N.iter n
         (fun st : Z * A * bool =>
            let '(i, x, ok) := st in
            let y := h (i + 1) in
            (i + 1, y, ok && c i x y))
         (lo, h lo, true)).

(** [classify_semester] *)
Definition classify_semester (month : Z) : pystr :=
  if existsb (Z.eqb month) [8; 9; 10; 11; 12] then str "Fall"
  else if existsb (Z.eqb month) [1; 2; 3; 4; 5] then str "Spring"
  else str "Summer".

(** More examples. *)
Module Scripts.
Local Open Scope string_scope.

(** A script whose array holds an object with an array of objects. *)
Definition nested : pystr := str "var r = [{'a': [{'b': 1}]}];".

End Scripts.

(** An element that both selectors of the third strategy find. *)
Definition twice_found : node :=
  Ex.div ["event"%string] [("data-type", "reservation")]%string "Room 104 9:00 AM - 9:30 AM".

(* ------------------------------------------------------------------ *)
(** ** The login

    [login] asks for the login page, fills the form with the hidden
    fields of the page and the credentials, and posts it.  It is given
    the parser of [BeautifulSoup(text, "html.parser")] and the answers of
    the server, and returns with its result the requests it has made. *)







Section Login.

Variable parse : pystr -> soup.
Variable get : pystr -> list (pystr * pystr) -> Requests.reply.
Variable post : pystr -> list (pystr * pystr) -> Requests.reply.


End Login.


(** A login page with two hidden fields, one of them named as the field
    of the user name, an input that is not hidden and a hidden input
    with no value. *)
Module Pages.
Local Open Scope string_scope.



Definition ok (page : string) : Requests.reply := Requests.Got (Requests.Response 200 (str page)).

End Pages.

(* ------------------------------------------------------------------ *)
(** ** The synthetic data of [generate_sample_data.py]

    The generator draws its numbers from [random] and [numpy.random].
    Here the draws are given: for each room the list of its draws, one
    for each booking that is tried, so that a statement about every list
    of draws is a statement about every run.  The mean of the number of
    bookings, which the month and the weekend set, has no part in the
    model: the number of bookings tried is the length of the list. *)

Module Sample.

Definition ROOMS : list pystr :=
  List.map str
    ["Room 104 - Edwin O. Grover Classroom";
     "Room 211 - Lakeview/TWC Classroom";
     "Room 230 - Library Meeting Room";
     "Room 311 - Van Houten Conference Room";
     "Room 319 - General Classroom"]%string.

(** The opening and the closing hour of each day of the week, Monday
    first. *)
Definition LIBRARY_HOURS : list (Z * Z) :=
  [(8, 22); (8, 22); (8, 22); (8, 22); (8, 20); (10, 18); (12, 20)].

(** The durations of a booking, in hundredths of an hour. *)
Definition DURATION_OPTIONS : list Z := [50; 100; 100; 150; 150; 200; 200; 250; 300].

Definition holidays : list (Z * Z) :=
  [(1, 1); (7, 4); (11, 25); (12, 25); (12, 26); (12, 27); (12, 28); (12, 29);
   (12, 30); (12, 31)].

Definition is_holiday (date : datetime) : bool :=
  existsb (fun md => (month_of date =? fst md) && (day_of date =? snd md)) holidays.

(** [range(a, b)] *)
Definition py_range (a b : Z) : list Z :=
  List.map (fun k => a + Z.of_nat k) (seq 0 (Z.to_nat (b - a))).

(** One of the elements of [l], the one the draw [i] picks. *)
Definition choice {A} (l : list A) (i : nat) (default : A) : A :=
  nth (i mod List.length l) l default.

(** The three draws of a booking: for [random.choices(available_hours)],
    for [random.choice([0, 30])] and for [random.choice(DURATION_OPTIONS)]. *)
Record draw := Draw {
  pick_hour : nat;
  pick_minute : nat;
  pick_duration : nat
}.

(** [s.split(sep)] for a separator that is not empty; [skip] characters
    of a separator that was found are still to be passed. *)
Fixpoint split_from (sep : pystr) (skip : nat) (cur : pystr) (s : pystr) : list pystr :=
  match s with
  | [] => [rev cur]
  | c :: s' =>
      match skip with
      | S skip' => split_from sep skip' cur s'
      | O =>
          if startswith sep s
          then rev cur :: split_from sep (Nat.pred (List.length sep)) [] s'
          else split_from sep O (c :: cur) s'
      end
  end.

Definition split (sep s : pystr) : list pystr := split_from sep O [] s.

(** [date.replace(hour=h, minute=mi)] *)
Definition replace_hour_minute (t : datetime) (h mi : Z) : result datetime :=
  if (0 <=? h) && (h <=? 23) && (0 <=? mi) && (mi <=? 59)
  then Ok (mkdt (ordinal t) h mi (second t) (microsecond t))
  else Raise ValueError.

(** A row of the synthetic dataset: the columns of a reservation record
    and the two columns the generator adds. *)
Record sample := mk_sample {
  row : record;
  is_weekend : bool;
  academic_semester : pystr
}.

(** [x in booked]; [slots_needed & booked_slots] is not empty. *)
Definition mem (x : Z) (booked : list Z) : bool := existsb (Z.eqb x) booked.
Definition meets (slots booked : list Z) : bool := existsb (fun x => mem x booked) slots.

(** The bookings of one room: [for _ in range(n_bookings)], one turn for
    each draw. *)
Fixpoint room_bookings (date : datetime) (room : pystr) (open_hour close_hour : Z)
    (draws : list draw) (booked_slots : list Z) : result (list sample) :=
  match draws with
  | [] => Ok []
  | d :: draws' =>
      let dow := weekday date in
      let is_weekend := 5 <=? dow in
      let total_slots := (close_hour - open_hour) * 2 in
      let available_hours := py_range open_hour (close_hour - 1) in
      match available_hours with
      | [] => Ok []
      | _ =>
          let start_hour := choice available_hours (pick_hour d) 0 in
          let start_minute := choice [0; 30] (pick_minute d) 0 in
          let duration := choice DURATION_OPTIONS (pick_duration d) 0 in
          let start_slot :=
            (start_hour - open_hour) * 2 + (if start_minute =? 30 then 1 else 0) in
          let n_slots := duration * 2 / 100 in
          let slots_needed := py_range start_slot (start_slot + n_slots) in
          if meets slots_needed booked_slots then
            room_bookings date room open_hour close_hour draws' booked_slots
          else if total_slots <? start_slot + n_slots then
            room_bookings date room open_hour close_hour draws' booked_slots
          else
            let booked_slots := booked_slots ++ slots_needed in
            start_dt <- replace_hour_minute date start_hour start_minute ;;
            end_dt <- add_timedelta start_dt 0 (duration * 36) ;;
            rest <- room_bookings date room open_hour close_hour draws' booked_slots ;;
            Ok ({| row := {| date := strftime_Ymd date;
                             day_of_week := strftime_A date;
                             start_time := strftime_HM start_dt;
                             end_time := strftime_HM end_dt;
                             duration_hours := duration;
                             room_name := room;
                             room_id := hd [] (split (str " - ") room);
                             hour_of_day := start_hour;
                             month := month_of date;
                             week_of_year := iso_week date;
                             source := str "synthetic" |};
                   is_weekend := is_weekend;
                   academic_semester := classify_semester (month_of date) |} :: rest)
      end
  end.

(** [generate_day_reservations]; [rng] gives the draws of each room, by
    its place in [ROOMS]. *)
Definition generate_day_reservations (rng : nat -> list draw) (date : datetime)
    : result (list sample) :=
  let dow := weekday date in
  if is_holiday date then Ok []
  else
    let (open_hour, close_hour) := nth (Z.to_nat dow) LIBRARY_HOURS (0, 0) in
    for_each
      (fun ir => room_bookings date (snd ir) open_hour close_hour (rng (fst ir)) [])
      (enumerate 0 ROOMS).

(** The minute of the day that a clock reading [HH:MM] names. *)
Definition minute_of_day (t : pystr) : Z :=
  int_of_digits (firstn 2 t) * 60 + int_of_digits (skipn 3 t).

(** Two rows of one room take no minute in common. *)
Definition apart (a b : sample) : Prop :=
  room_name (row a) = room_name (row b) ->
  minute_of_day (end_time (row a)) <= minute_of_day (start_time (row b))
  \/ minute_of_day (end_time (row b)) <= minute_of_day (start_time (row a)).

End Sample.

(** What holds of a row of the room [room] made on the day [day], open
    from [open_hour] to [close_hour], when the slots [booked] were taken
    before it: it takes [n] half-hour slots from the slot [k] on, none of
    them taken before, within the opening hours. *)
Definition sample_row_ok (day : datetime) (room : pystr) (open_hour close_hour : Z)
    (booked : list Z) (r : Sample.sample) : Prop :=
  exists k n,
    0 <= k /\ 1 <= n /\ k + n <= (close_hour - open_hour) * 2
    /\ (forall j, k <= j < k + n -> ~ In j booked)
    /\ Sample.minute_of_day (start_time (Sample.row r)) = open_hour * 60 + 30 * k
    /\ Sample.minute_of_day (end_time (Sample.row r)) = open_hour * 60 + 30 * (k + n)
    /\ duration_hours (Sample.row r) = 50 * n
    /\ In (duration_hours (Sample.row r)) Sample.DURATION_OPTIONS
    /\ hour_of_day (Sample.row r) = open_hour + k / 2
    /\ room_name (Sample.row r) = room
    /\ date (Sample.row r) = strftime_Ymd day.

(** Draws for an example: the same hour drawn twice, then a later one. *)
Definition example_draws (room : nat) : list Sample.draw :=
  [Sample.Draw 0 0 1; Sample.Draw 0 0 0; Sample.Draw 3 1 5].

(* ------------------------------------------------------------------ *)
(** ** Properties *)

(** *** The model at work *)

Example strptime_12h :
  strptime (str "2:30 pm") (str "%I:%M %p") = Ok (mkdt (ymd2ord 1900 1 1) 14 30 0 0)
  /\ strptime (str "12:05AM") (str "%I:%M%p") = Ok (mkdt (ymd2ord 1900 1 1) 0 5 0 0)
  /\ strptime (str "2:30PM") (str "%I:%M %p") = Raise ValueError
  /\ strptime (str "14:30 PM") (str "%H:%M") = Raise ValueError.
Proof. repeat split. Qed.

Example strptime_iso_dates :
  strptime (str "2024-02-29T14:30:00") (str "%Y-%m-%dT%H:%M:%S")
  = Ok (mkdt (ymd2ord 2024 2 29) 14 30 0 0)
  /\ strptime (str "2023-02-29T14:30:00") (str "%Y-%m-%dT%H:%M:%S") = Raise ValueError
  /\ strptime (str "2024-03-01T14:30:60") (str "%Y-%m-%dT%H:%M:%S") = Raise ValueError.
Proof. repeat split. Qed.

Example calendar_of_1_march_2024 :
  ordinal (Ex.march 1) = 738946
  /\ ord2ymd (ordinal (Ex.march 1)) = (2024, 3, 1)
  /\ strftime_Ymd (Ex.march 1) = str "2024-03-01"
  /\ strftime_A (Ex.march 1) = str "Friday"
  /\ iso_week (Ex.march 1) = 9
  /\ iso_week (mkdt (ymd2ord 2021 1 1) 0 0 0 0) = 53
  /\ iso_week (mkdt (ymd2ord 2024 12 30) 0 0 0 0) = 1
  /\ ymd2ord 9999 12 31 = MAXORDINAL.
Proof. repeat split. Qed.

(** For three thousand days from July 2021 on, the date of an ordinal is
    a valid date, and it has that ordinal. *)
Example calendar_round_trip :
  forallb (fun k => let '(y, m, d) := ord2ymd (738000 + k) in
                    valid_date y m d && (ymd2ord y m d =? 738000 + k))
          (upto 3000) = true.
Proof. vm_compute. reflexivity. Qed.

Example time_label_groups :
  option_map groups (re_match time_label_re (str "9:00 AM"))
  = Some [(3%N, str "AM"); (2%N, str "00"); (1%N, str "9")]
  /\ option_map groups (re_match time_label_re (str "12:305 pm"))
     = Some [(2%N, str "30"); (1%N, str "12")]
  /\ re_match time_label_re (str "noon") = None.
Proof. repeat split. Qed.

Example time_range_groups :
  option_map group0 (re_search time_range_re (str "Study group 9:30 AM to 11:00 am, Room 230"))
  = Some (str "9:30 AM to 11:00 am")
  /\ option_map group0 (re_search room_re (str "Study group 9:30 AM to 11:00 am, Room 230"))
     = Some (str "Room 230")
  /\ option_map group0 (re_search room_re (str "the lakeview room")) = Some (str "lakeview")
  /\ re_search room_re (str "Lakeviews") = None.
Proof. repeat split. Qed.

Example json_arrays_found :
  List.map group0 (re_findall json_array_re (str "a = [{x}]; b = [{y}, {z}]; c = [{"))
  = [str "[{x}]"; str "[{y}, {z}]"].
Proof. reflexivity. Qed.

(** The array of a script, decoded to an object from 10:00 to 11:00 in
    Room 230, gives one record of one hour. *)
Example json_scenario :
  exists r,
    parse_time_slots Ex.rt_item Ex.page_script (Ex.march 1) = Ok [r]
    /\ date r = str "2024-03-01" /\ start_time r = str "10:00"
    /\ end_time r = str "11:00" /\ duration_hours r = 100
    /\ room_name r = str "Room 230" /\ source r = str "json_embed".
Proof. vm_compute. eexists. repeat split. Qed.

(** [grid_cell] adds a record exactly for the cells [cell_reserved] takes. *)
Lemma grid_cell_reserved (headers : list pystr) (date slot_time : datetime) (h : Z)
    (col_idx : nat) (cell : node) :
  cell_reserved cell = false ->
  grid_cell headers date slot_time h (col_idx, cell) = Ok [].
Proof. unfold grid_cell, cell_reserved. now intros ->. Qed.

(** *** Strings *)

Lemma str_eqb_eq (a b : pystr) : str_eqb a b = true <-> a = b.
Proof.
  revert b; induction a as [|x a IH]; intros [|y b]; simpl; split; intro H;
    try reflexivity; try discriminate.
  - apply andb_true_iff in H as [Hx Hab].
    apply N.eqb_eq in Hx. apply IH in Hab. now subst.
  - injection H as -> ->. apply andb_true_iff; split.
    + apply N.eqb_refl.
    + now apply IH.
Qed.

Lemma str_eqb_refl (a : pystr) : str_eqb a a = true.
Proof. now apply str_eqb_eq. Qed.

Lemma startswith_spec (p s : pystr) : startswith p s = true <-> exists post, s = p ++ post.
Proof.
  revert s; induction p as [|x p IH]; intros s; simpl.
  - split; [intros _; now exists s | reflexivity].
  - destruct s as [|y s].
    + split; [discriminate | intros [post H]; discriminate].
    + rewrite andb_true_iff, N.eqb_eq, IH. split.
      * intros [-> [post ->]]. now exists post.
      * intros [post H]. injection H as -> ->. split; [reflexivity | now exists post].
Qed.

Lemma contains_spec (k s : pystr) : contains k s = true <-> substring k s.
Proof.
  unfold substring. induction s as [|y s IH].
  - simpl. rewrite orb_false_r, startswith_spec. split.
    + intros [post H]. now exists [], post.
    + intros [pre [post H]]. destruct pre; [now exists post | discriminate].
  - simpl. rewrite orb_true_iff, startswith_spec, IH. split.
    + intros [[post H] | [pre [post H]]].
      * now exists [], post.
      * exists (y :: pre), post. simpl. now rewrite H.
    + intros [[|z pre] [post H]].
      * left. now exists post.
      * right. injection H as _ H. now exists pre, post.
Qed.

Lemma lower_cp_idem (c : N) : lower_cp (lower_cp c) = lower_cp c.
Proof.
  unfold lower_cp. destruct (is_upper c) eqn:E; [|now rewrite E].
  unfold is_upper in *. apply andb_true_iff in E as [E1 E2].
  apply N.leb_le in E1, E2.
  destruct ((65 <=? c + 32)%N && (c + 32 <=? 90)%N) eqn:E'; [|reflexivity].
  apply andb_true_iff in E' as [_ E'']. apply N.leb_le in E''. lia.
Qed.

Lemma lower_idem (s : pystr) : lower (lower s) = lower s.
Proof.
  unfold lower. rewrite map_map. apply map_ext. intro; apply lower_cp_idem.
Qed.

(** *** Results of loops *)

Lemma for_each_In {A B} (f : A -> result (list B)) (l : list A) (rs : list B) (r : B) :
  for_each f l = Ok rs -> In r rs ->
  exists x rs', In x l /\ f x = Ok rs' /\ In r rs'.
Proof.
  revert rs; induction l as [|x l IH]; simpl; intros rs H Hin.
  - injection H as <-. contradiction.
  - destruct (f x) as [rs1|] eqn:Ef; simpl in H; [|discriminate].
    destruct (for_each f l) as [rs2|] eqn:El; simpl in H; [|discriminate].
    injection H as <-. apply in_app_or in Hin as [Hin | Hin].
    + exists x, rs1. auto.
    + destruct (IH rs2 eq_refl Hin) as (x' & rs' & ? & ? & ?).
      exists x', rs'. auto.
Qed.

Lemma for_each_app {A B} (f : A -> result (list B)) (l1 l2 : list A) :
  for_each f (l1 ++ l2) =
  (rs <- for_each f l1 ;; rs' <- for_each f l2 ;; Ok (rs ++ rs')).
Proof.
  induction l1 as [|x l1 IH]; simpl.
  - destruct (for_each f l2); reflexivity.
  - destruct (f x); simpl; [|reflexivity]. rewrite IH.
    destruct (for_each f l1); simpl; [|reflexivity].
    destruct (for_each f l2); simpl; [|reflexivity].
    now rewrite app_assoc.
Qed.

(** *** Rows *)

Lemma record_eqb_eq (a b : record) : record_eqb a b = true <-> a = b.
Proof.
  unfold record_eqb. split.
  - intro H. repeat (apply andb_true_iff in H as [H ?]).
    repeat match goal with
           | E : str_eqb _ _ = true |- _ => apply str_eqb_eq in E
           | E : (_ =? _) = true |- _ => apply Z.eqb_eq in E
           end.
    destruct a, b; simpl in *; congruence.
  - intros ->. rewrite !str_eqb_refl, !Z.eqb_refl. reflexivity.
Qed.

Lemma existsb_record_In (r : record) (l : list record) :
  existsb (record_eqb r) l = true <-> In r l.
Proof.
  rewrite existsb_exists. split.
  - intros [x [Hin E]]. apply record_eqb_eq in E. now subst.
  - intro Hin. exists r. split; [assumption | now apply record_eqb_eq].
Qed.

Lemma drop_from_In (seen l : list record) (r : record) :
  In r (drop_from seen l) <-> In r l /\ ~ In r seen.
Proof.
  revert seen; induction l as [|x l IH]; intros seen; simpl.
  - tauto.
  - destruct (existsb (record_eqb x) seen) eqn:E.
    + apply existsb_record_In in E. rewrite IH. split.
      * tauto.
      * intros [[-> | H] Hn]; [contradiction | tauto].
    + assert (Hx : ~ In x seen).
      { intro Hc. apply existsb_record_In in Hc. congruence. }
      simpl. rewrite IH. simpl. split.
      * intros [-> | [H Hn]]; [tauto | tauto].
      * intros [[-> | H] Hn]; [tauto|].
        destruct (record_eqb x r) eqn:Exr.
        -- apply record_eqb_eq in Exr. tauto.
        -- right. split; [assumption|]. intros [-> | Hc]; [|contradiction].
           rewrite (proj2 (record_eqb_eq r r) eq_refl) in Exr. discriminate.
Qed.

Lemma drop_from_NoDup (seen l : list record) : NoDup (drop_from seen l).
Proof.
  revert seen; induction l as [|x l IH]; intros seen; simpl.
  - constructor.
  - destruct (existsb (record_eqb x) seen); [apply IH|].
    constructor; [|apply IH].
    rewrite drop_from_In. simpl. tauto.
Qed.

Lemma drop_duplicates_In (l : list record) (r : record) :
  In r (drop_duplicates l) <-> In r l.
Proof. unfold drop_duplicates. rewrite drop_from_In. simpl. tauto. Qed.

Lemma insert_sorted_perm (r : record) (l : list record) :
  Permutation (r :: l) (insert_sorted r l).
Proof.
  induction l as [|x l IH]; simpl.
  - apply Permutation_refl.
  - destruct (key_leb r x).
    + apply Permutation_refl.
    + eapply Permutation_trans; [apply perm_swap|]. now apply perm_skip.
Qed.

Lemma sort_values_perm (l : list record) : Permutation l (sort_values l).
Proof.
  induction l as [|x l IH]; simpl.
  - constructor.
  - eapply Permutation_trans; [|apply insert_sorted_perm]. now apply perm_skip.
Qed.

(** *** The collection loop *)

Lemma add_timedelta_ok (t t' : datetime) (dd ss : Z) :
  add_timedelta t dd ss = Ok t' ->
  ordinal t' = ordinal t + dd + ((hour t * 60 + minute t) * 60 + second t + ss) / 86400
  /\ valid_time_of_day t' /\ 1 <= ordinal t' <= MAXORDINAL
  /\ microsecond t' = microsecond t.
Proof.
  unfold add_timedelta. set (secs := (hour t * 60 + minute t) * 60 + second t + ss).
  destruct ((0 <? ordinal t + dd + secs / 86400)
            && (ordinal t + dd + secs / 86400 <=? MAXORDINAL)) eqn:E; [|discriminate].
  intro H; injection H as <-. simpl.
  apply andb_true_iff in E as [E1 E2]. apply Z.ltb_lt in E1. apply Z.leb_le in E2.
  unfold valid_time_of_day, MAXORDINAL in *; simpl.
  repeat split; try lia; Z.div_mod_to_equations; lia.
Qed.

(** A day later, for a time of day that is in range. *)
Lemma add_one_day (t : datetime) :
  valid_time_of_day t -> 0 < ordinal t + 1 <= MAXORDINAL ->
  add_timedelta t 1 0 = Ok (plus_days t 1).
Proof.
  intros (Hh & Hm & Hs) Ho. unfold add_timedelta, plus_days.
  set (secs := (hour t * 60 + minute t) * 60 + second t + 0).
  assert (Hsecs : 0 <= secs < 86400) by (unfold secs; lia).
  rewrite (Z.div_small secs 86400), (Z.mod_small secs 86400) by lia.
  rewrite Z.add_0_r.
  replace ((0 <? ordinal t + 1) && (ordinal t + 1 <=? MAXORDINAL)) with true
    by (symmetry; apply andb_true_iff; split; [apply Z.ltb_lt | apply Z.leb_le]; lia).
  f_equal.
  assert (E1 : secs / 3600 = hour t).
  { symmetry. apply (Z.div_unique secs 3600 (hour t) (minute t * 60 + second t));
      unfold secs; lia. }
  assert (E2 : secs mod 3600 = minute t * 60 + second t).
  { symmetry. apply (Z.mod_unique secs 3600 (hour t)); unfold secs; lia. }
  assert (E3 : secs mod 60 = second t).
  { symmetry. apply (Z.mod_unique secs 60 (hour t * 60 + minute t)); unfold secs; lia. }
  assert (E4 : (minute t * 60 + second t) / 60 = minute t).
  { symmetry. apply (Z.div_unique _ 60 (minute t) (second t)); lia. }
  rewrite E1, E2, E3, E4. reflexivity.
Qed.

Section CollectFacts.

Variable rt : runtime.
Variable fetch : datetime -> option soup.
Variable delay : pyfloat.

(** One turn of the loop for a day whose records are [records], when
    [time.sleep] returns. *)
Lemma collect_loop_step (fuel : nat) (current next end_date : datetime)
    (all_records records : list record) (trace : list event) :
  time_sleep rt delay = Ok tt ->
  dt_leb current end_date = true ->
  day_records rt fetch current = Ok records ->
  add_timedelta current 1 0 = Ok next ->
  collect_loop rt fetch delay (S fuel) current end_date all_records trace =
  collect_loop rt fetch delay fuel next end_date (all_records ++ records)
    ((trace ++ [Fetch current]) ++ [Sleep delay]).
Proof.
  intros Hsleep Hle Hrec Hadd. simpl. rewrite Hle.
  unfold day_records in Hrec. rewrite Hrec, Hadd, Hsleep. reflexivity.
Qed.

(** The turn in which [time.sleep] raises is the last. *)
Lemma collect_loop_sleep_raises (fuel : nat) (current next end_date : datetime)
    (all_records records : list record) (trace : list event) (e : exn) :
  time_sleep rt delay = Raise e ->
  dt_leb current end_date = true ->
  day_records rt fetch current = Ok records ->
  add_timedelta current 1 0 = Ok next ->
  collect_loop rt fetch delay (S fuel) current end_date all_records trace =
  (trace ++ [Fetch current], Raise e).
Proof.
  intros Hsleep Hle Hrec Hadd. simpl. rewrite Hle.
  unfold day_records in Hrec. rewrite Hrec, Hadd, Hsleep. reflexivity.
Qed.

Lemma collect_loop_exit (fuel : nat) (current end_date : datetime)
    (all_records : list record) (trace : list event) :
  dt_leb current end_date = false ->
  collect_loop rt fetch delay fuel current end_date all_records trace =
  (trace, Ok all_records).
Proof. intros Hle. destruct fuel; simpl; [|rewrite Hle]; reflexivity. Qed.

(** The fuel [collect_date_range] gives the loop is enough: any fuel from
    that amount on gives the same run. *)
Lemma collect_loop_fuel (n m : nat) :
  forall (current end_date : datetime) (all_records : list record) (trace : list event),
    time_nonneg current ->
    ordinal end_date - ordinal current + 2 <= Z.of_nat n ->
    ordinal end_date - ordinal current + 2 <= Z.of_nat m ->
    collect_loop rt fetch delay n current end_date all_records trace =
    collect_loop rt fetch delay m current end_date all_records trace.
Proof.
  revert m; induction n as [|n IH]; intros m current end_date all_records trace Ht Hn Hm.
  - destruct (dt_leb current end_date) eqn:Hle.
    + unfold dt_leb in Hle. apply orb_true_iff in Hle as [H | H].
      * apply Z.ltb_lt in H. simpl in Hn. lia.
      * apply andb_true_iff in H as [H _]. apply Z.eqb_eq in H. simpl in Hn. lia.
    + now rewrite !collect_loop_exit.
  - destruct (dt_leb current end_date) eqn:Hle; [|now rewrite !collect_loop_exit].
    destruct m as [|m].
    { unfold dt_leb in Hle. apply orb_true_iff in Hle as [H | H].
      - apply Z.ltb_lt in H. simpl in Hm. lia.
      - apply andb_true_iff in H as [H _]. apply Z.eqb_eq in H. simpl in Hm. lia. }
    simpl. rewrite Hle.
    destruct (match fetch current with
              | None | Some [] => Ok []
              | Some html => parse_time_slots rt html current
              end) as [records|]; [|reflexivity].
    destruct (add_timedelta current 1 0) as [next|] eqn:Hadd; [|reflexivity].
    destruct (time_sleep rt delay) as [[]|]; [|reflexivity].
    apply add_timedelta_ok in Hadd as (Ho & (Hh & Hmi & Hs) & _ & _).
    destruct Ht as (H1 & H2 & H3).
    assert (0 <= ((hour current * 60 + minute current) * 60 + second current + 0) / 86400)
      by (apply Z.div_pos; lia).
    apply IH; [unfold time_nonneg; lia | lia | lia].
Qed.

End CollectFacts.

(** *** Times of day *)

Lemma bind_ok {A B} (c : result A) (f : A -> result B) (b : B) :
  bind c f = Ok b -> exists a, c = Ok a /\ f a = Ok b.
Proof. destruct c as [a|e]; simpl; [now exists a | discriminate]. Qed.

Lemma try_except_ok {A} (body handler : result A) (a : A) :
  try_except body handler = Ok a -> body = Ok a \/ handler = Ok a.
Proof. destruct body as [x|[]]; simpl; auto; discriminate. Qed.

Lemma replace_hm_ok (date t : datetime) (h mi : Z) :
  replace_hm date h mi = Ok t ->
  t = mkdt (ordinal date) h mi 0 0 /\ 0 <= h <= 23 /\ 0 <= mi <= 59.
Proof.
  unfold replace_hm.
  destruct ((0 <=? h) && (h <=? 23) && (0 <=? mi) && (mi <=? 59)) eqn:E; [|discriminate].
  intro H; injection H as <-.
  repeat (apply andb_true_iff in E as [E ?]).
  repeat match goal with H : (_ <=? _) = true |- _ => apply Z.leb_le in H end.
  repeat split; lia.
Qed.

Lemma replace_hm_on_day (date t : datetime) (h mi : Z) :
  replace_hm date h mi = Ok t -> on_day date t.
Proof.
  intro H. apply replace_hm_ok in H as (-> & Hh & Hm). unfold on_day; simpl. lia.
Qed.

Lemma try_formats_ok (fmts : list pystr) (s : pystr) (date t : datetime) :
  try_formats fmts s date = Ok t -> on_day date t.
Proof.
  induction fmts as [|fmt fmts IH]; simpl; [discriminate|].
  intro H. apply try_except_ok in H as [H | H]; [|now apply IH].
  apply bind_ok in H as (t0 & _ & H). now apply replace_hm_on_day in H.
Qed.

Lemma parse_time_string_ok (s : pystr) (date t : datetime) :
  parse_time_string s date = Ok t -> on_day date t.
Proof. apply try_formats_ok. Qed.

(** [parse_time_string] raises nothing but [ValueError]. *)
Lemma try_formats_raises (fmts : list pystr) (s : pystr) (date : datetime) (e : exn) :
  try_formats fmts s date = Raise e -> e = ValueError.
Proof.
  induction fmts as [|fmt fmts IH]; simpl; [congruence|].
  unfold strptime, make_datetime, replace_hm.
  repeat match goal with
         | |- context [match ?x with _ => _ end] => destruct x; simpl; auto; try discriminate
         end.
Qed.

Lemma parse_time_string_raises (s : pystr) (date : datetime) (e : exn) :
  parse_time_string s date = Raise e -> e = ValueError.
Proof. apply try_formats_raises. Qed.

Lemma digit_cp_inj (a b : Z) : 0 <= a -> 0 <= b -> digit_cp a = digit_cp b -> a = b.
Proof. unfold digit_cp. intros Ha Hb H. apply Z2N.inj in H; lia. Qed.

Lemma two_digits_inj (a b : Z) :
  0 <= a <= 99 -> 0 <= b <= 99 -> two_digits a = two_digits b -> a = b.
Proof.
  unfold two_digits. intros Ha Hb H. injection H as H1 H2.
  apply digit_cp_inj in H1; [|apply Z.mod_pos_bound; lia|apply Z.mod_pos_bound; lia].
  apply digit_cp_inj in H2; [|apply Z.mod_pos_bound; lia|apply Z.mod_pos_bound; lia].
  Z.div_mod_to_equations. lia.
Qed.

Lemma strftime_HM_inj (a b : datetime) :
  0 <= hour a <= 23 -> 0 <= minute a <= 59 ->
  0 <= hour b <= 23 -> 0 <= minute b <= 59 ->
  strftime_HM a = strftime_HM b -> hour a = hour b /\ minute a = minute b.
Proof.
  unfold strftime_HM. intros Ha Hma Hb Hmb H.
  assert (E : two_digits (hour a) = two_digits (hour b)
              /\ two_digits (minute a) = two_digits (minute b)).
  { unfold two_digits in *. simpl in H. injection H as -> -> -> ->. auto. }
  destruct E as [E1 E2].
  apply two_digits_inj in E1; [|lia|lia]. apply two_digits_inj in E2; [|lia|lia]. auto.
Qed.

(** The span between two times of one day, as the source measures it. *)
Lemma sub_seconds_on_day {date a b : datetime} :
  on_day date a -> on_day date b ->
  sub_seconds a b = ((hour a * 60 + minute a - (hour b * 60 + minute b)) mod 1440) * 60.
Proof.
  intros (_ & Ha & Hma & Hsa & Hua) (_ & Hb & Hmb & Hsb & Hub).
  unfold sub_seconds, time_key. rewrite Hsa, Hua, Hsb, Hub.
  Z.div_mod_to_equations. lia.
Qed.

Lemma round2_hours_minutes {n : Z} :
  0 <= n -> 0 <= round2_hours (n * 60) /\ (0 < round2_hours (n * 60) <-> 0 < n).
Proof. unfold round2_hours. intro H. Z.div_mod_to_equations. lia. Qed.

(** The duration of a record with both ends parsed: never negative, and
    zero exactly when the two clock readings are the same. *)
Lemma span_duration {date a b : datetime} :
  on_day date a -> on_day date b ->
  0 <= round2_hours (sub_seconds b a)
  /\ (0 < round2_hours (sub_seconds b a) <-> strftime_HM a <> strftime_HM b).
Proof.
  intros Ha Hb. rewrite (sub_seconds_on_day Hb Ha).
  set (n := (hour b * 60 + minute b - (hour a * 60 + minute a)) mod 1440).
  assert (Hn : 0 <= n < 1440) by (apply Z.mod_pos_bound; lia).
  destruct (round2_hours_minutes (n := n)) as [H0 H1]; [lia|].
  split; [assumption|]. rewrite H1.
  destruct Ha as (_ & Ha & Hma & _), Hb as (_ & Hb & Hmb & _).
  split.
  - intros Hpos Heq. apply strftime_HM_inj in Heq as [E1 E2]; try lia.
    unfold n in Hpos. rewrite E1, E2, Z.sub_diag, Z.mod_0_l in Hpos; lia.
  - intros Hne.
    assert (n <> 0); [|lia].
    intro Hz. apply Hne. unfold strftime_HM.
    assert (hour a = hour b /\ minute a = minute b) as [-> ->]; [|reflexivity].
    unfold n in Hz. Z.div_mod_to_equations. lia.
Qed.

(** Moving a time on by whole minutes, less than a day: the two clock
    readings differ. *)
Lemma add_minutes_differs {date a b : datetime} {mins : Z} :
  on_day date a -> 0 < mins < 1440 ->
  add_timedelta a 0 (mins * 60) = Ok b ->
  strftime_HM a <> strftime_HM b /\ sub_seconds b a = mins * 60.
Proof.
  intros (_ & Ha & Hma & Hsa & Hua) Hmins Hadd.
  pose proof (add_timedelta_ok _ _ _ _ Hadd) as (_ & (Hb & Hmb & Hsb) & _ & Hub).
  unfold add_timedelta in Hadd.
  destruct ((0 <? _) && _) in Hadd; [|discriminate].
  injection Hadd as <-. simpl in *. rewrite Hsa in *.
  split.
  - intro Heq. apply strftime_HM_inj in Heq as [E1 E2]; simpl; try lia.
    simpl in E1, E2. clear Hb Hmb Hsb. Z.div_mod_to_equations. lia.
  - unfold sub_seconds, time_key. simpl. rewrite Hsa, Hua.
    clear Hb Hmb Hsb. Z.div_mod_to_equations. lia.
Qed.

(** *** Every extracted record *)

Lemma grid_cell_facts (headers : list pystr) (day slot_time : datetime) (h : Z)
    (ic : nat * node) (rs : list record) (r : record) :
  on_day day slot_time ->
  grid_cell headers day slot_time h ic = Ok rs -> In r rs -> record_facts day r.
Proof.
  intros Hslot H Hin. unfold grid_cell in H. destruct ic as [col_idx cell].
  destruct (is_reserved _ _); [|injection H as <-; contradiction].
  apply bind_ok in H as (end_dt & Hadd & H). injection H as <-.
  destruct Hin as [<- | []].
  destruct (add_minutes_differs (mins := 30) Hslot ltac:(lia) Hadd) as [Hne _].
  unfold record_facts; fields. repeat split; try lia; auto.
Qed.

Lemma grid_row_facts (headers : list pystr) (day : datetime) (row : node)
    (rs : list record) (r : record) :
  grid_row headers day row = Ok rs -> In r rs -> record_facts day r.
Proof.
  unfold grid_row. intros H Hin.
  destruct (find_all cell_tags row) as [|cell0 rest]; [injection H as <-; contradiction|].
  destruct (re_match time_label_re _) as [time_match|]; [|injection H as <-; contradiction].
  apply bind_ok in H as (slot_time & Hslot & H).
  apply replace_hm_on_day in Hslot.
  destruct (for_each_In _ _ _ _ H Hin) as (ic & rs' & _ & Hc & Hin').
  eapply grid_cell_facts; eauto.
Qed.

Lemma grid_table_facts (day : datetime) (table : node) (rs : list record) (r : record) :
  grid_table day table = Ok rs -> In r rs -> record_facts day r.
Proof.
  unfold grid_table. intros H Hin.
  destruct (_ <? 3)%nat; [injection H as <-; contradiction|].
  destruct (find_all [str "tr"] table) as [|header_row data_rows];
    [injection H as <-; contradiction|].
  destruct (negb _); [injection H as <-; contradiction|].
  destruct (for_each_In _ _ _ _ H Hin) as (row & rs' & _ & Hr & Hin').
  eapply grid_row_facts; eauto.
Qed.

(** A record of the second strategy: its facts, and where its room name
    and room id come from. *)
Lemma json_item_facts (rt : runtime) (item : list (pystr * json)) (day : datetime)
    (r : record) :
  extract_from_json_item rt item day = Ok (Some r) ->
  record_facts day r
  /\ room_name r = py_str rt (first_present room_keys item (JStr (str "Unknown")))
  /\ room_id r = py_str rt (dict_get (str "roomId") item
                              (dict_get (str "room_id") item (JStr [])))
  /\ source r = str "json_embed".
Proof.
  unfold extract_from_json_item. intro H.
  destruct (negb (truthy _)); [discriminate|].
  apply try_except_ok in H as [H | H]; [|discriminate].
  apply bind_ok in H as (start_dt & Hs & H).
  apply bind_ok in H as (end_dt & He & H).
  injection H as <-. apply parse_time_string_ok in Hs.
  unfold record_facts; fields.
  destruct (truthy (first_present end_keys item JNull)).
  - apply parse_time_string_ok in He.
    destruct (span_duration Hs He) as [H0 H1]. repeat split; auto; apply H1.
  - destruct (add_minutes_differs (mins := 60) Hs ltac:(lia) He) as [Hne Hsub].
    change 3600 with (60 * 60) in *. rewrite Hsub.
    change (round2_hours (60 * 60)) with 100.
    repeat split; auto; lia.
Qed.

Lemma element_facts (element : node) (day : datetime) (r : record) :
  extract_from_element element day = Ok (Some r) ->
  record_facts day r
  /\ room_name r =
     match re_search room_re (get_text (str " ") true element) with
     | Some room_match => group0 room_match
     | None => get_attr (str "data-room") (str "Unknown") element
     end
  /\ room_id r = [] /\ source r = str "html_element".
Proof.
  unfold extract_from_element. intro H.
  destruct (re_search time_range_re _) as [time_pattern|]; [|discriminate].
  apply try_except_ok in H as [H | H]; [|discriminate].
  apply bind_ok in H as (start_dt & Hs & H).
  apply bind_ok in H as (end_dt & He & H).
  injection H as <-.
  apply parse_time_string_ok in Hs, He.
  destruct (span_duration Hs He) as [H0 H1].
  unfold record_facts; fields. repeat split; auto; apply H1.
Qed.

Lemma option_list_In {A} (o : option A) (a : A) : In a (option_list o) -> o = Some a.
Proof. destruct o; simpl; [intros [-> | []]; reflexivity | intros []]. Qed.

Lemma strategy1_facts (html : soup) (day : datetime) (rs : list record) (r : record) :
  strategy1 html day = Ok rs -> In r rs -> record_facts day r.
Proof.
  unfold strategy1. intros H Hin.
  destruct (for_each_In _ _ _ _ H Hin) as (t & rs' & _ & Ht & Hin').
  eapply grid_table_facts; eauto.
Qed.

Lemma strategy2_facts (rt : runtime) (html : soup) (day : datetime)
    (rs : list record) (r : record) :
  strategy2 rt html day = Ok rs -> In r rs ->
  record_facts day r /\ source r = str "json_embed".
Proof.
  unfold strategy2. intros H Hin.
  destruct (for_each_In _ _ _ _ H Hin) as (script & rs1 & _ & H1 & Hin1).
  unfold script_records in H1.
  destruct (for_each_In _ _ _ _ H1 Hin1) as (m & rs2 & _ & H2 & Hin2).
  unfold json_match in H2.
  destruct (json_loads rt _) as [data|[]];
    try discriminate H2; try (injection H2 as <-; contradiction).
  destruct (for_each_In _ _ _ _ H2 Hin2) as (item & rs3 & _ & H3 & Hin3).
  destruct item; try (injection H3 as <-; contradiction).
  apply bind_ok in H3 as (o & Ho & H3). injection H3 as <-.
  apply option_list_In in Hin3 as ->.
  apply json_item_facts in Ho. tauto.
Qed.

Lemma strategy3_facts (html : soup) (day : datetime) (rs : list record) (r : record) :
  strategy3 html day = Ok rs -> In r rs ->
  record_facts day r /\ source r = str "html_element".
Proof.
  unfold strategy3. intros H Hin.
  destruct (for_each_In _ _ _ _ H Hin) as (sel & rs1 & _ & H1 & Hin1).
  destruct (for_each_In _ _ _ _ H1 Hin1) as (el & rs2 & _ & H2 & Hin2).
  unfold element_records in H2.
  apply bind_ok in H2 as (o & Ho & H2). injection H2 as <-.
  apply option_list_In in Hin2 as ->.
  apply element_facts in Ho. tauto.
Qed.

Lemma parse_time_slots_facts (rt : runtime) (html : soup) (day : datetime)
    (rs : list record) (r : record) :
  parse_time_slots rt html day = Ok rs -> In r rs -> record_facts day r.
Proof.
  unfold parse_time_slots. intros H Hin.
  destruct html as [|n html]; [injection H as <-; contradiction|].
  apply bind_ok in H as (r1 & H1 & H). apply bind_ok in H as (r2 & H2 & H).
  apply bind_ok in H as (r3 & H3 & H). injection H as <-.
  apply in_app_or in Hin as [Hin | Hin]; [eapply strategy1_facts; eauto|].
  apply in_app_or in Hin as [Hin | Hin].
  - eapply strategy2_facts; eauto.
  - eapply strategy3_facts; eauto.
Qed.

(* ------------------------------------------------------------------ *)
(** ** The collection orchestrator *)

Lemma collect_date_range_result (rt : runtime) (fetch : datetime -> option soup)
    (delay : pyfloat) (start_date end_date : datetime) (rs : list record) :
  snd (collect_date_range rt fetch delay start_date end_date) = Ok rs ->
  exists all_records,
    snd (collect_loop rt fetch delay
           (Z.to_nat (ordinal end_date - ordinal start_date + 2))
           start_date end_date [] []) = Ok all_records
    /\ Permutation (drop_duplicates all_records) rs.
Proof.
  unfold collect_date_range.
  destruct (collect_loop _ _ _ _ _ _ _ _) as [trace [all_records|e]]; simpl;
    [|discriminate].
  intro H. exists all_records. split; [reflexivity|].
  destruct all_records as [|r0 l]; injection H as <-.
  - apply Permutation_refl.
  - apply sort_values_perm.
Qed.

(** C1, as the code has it: the rows of the final dataset are pairwise
    different, a row being all eleven columns.  Every accumulated record
    is in the dataset, and nothing else is; two accumulated records are
    collapsed to one only when they agree in every column, the source tag
    and the room id included. *)
Theorem C1_rows_are_distinct (rt : runtime) (fetch : datetime -> option soup)
    (delay : pyfloat) (start_date end_date : datetime) (rs : list record) :
  snd (collect_date_range rt fetch delay start_date end_date) = Ok rs ->
  NoDup rs
  /\ exists all_records,
       snd (collect_loop rt fetch delay
              (Z.to_nat (ordinal end_date - ordinal start_date + 2))
              start_date end_date [] []) = Ok all_records
       /\ forall r, In r rs <-> In r all_records.
Proof.
  intro H. apply collect_date_range_result in H as (all_records & Hall & Hperm).
  split.
  - eapply Permutation_NoDup; [exact Hperm | apply drop_from_NoDup].
  - exists all_records. split; [assumption|]. intro r.
    rewrite <- (drop_duplicates_In all_records). split.
    + apply Permutation_in. now apply Permutation_sym.
    + now apply Permutation_in.
Qed.

Lemma C1_rows_are_distinct_witness :
  exists rs,
    snd (collect_date_range Ex.rt0 (fun _ => Some Ex.page_two_signals) (Finite (3 # 2))
           (Ex.march 1) (Ex.march 1)) = Ok rs
    /\ NoDup rs.
Proof.
  eexists. split; [vm_compute; reflexivity|].
  exact (proj1 (C1_rows_are_distinct Ex.rt0 (fun _ => Some Ex.page_two_signals) (Finite (3 # 2))
                  (Ex.march 1) (Ex.march 1) _ eq_refl)).
Defined.

(** C1 as stated fails: a grid cell and an event element that report the
    same booking give two rows for one (date, roomName, start, end); they
    differ in [source] and [room_id], and both stay. *)
Lemma C1_counterexample :
  ~ (forall rt fetch delay start_date end_date rs,
       snd (collect_date_range rt fetch delay start_date end_date) = Ok rs ->
       one_per_slot rs).
Proof.
  intro H.
  assert (E : exists a b,
             snd (collect_date_range Ex.rt0 (fun _ => Some Ex.page_two_signals) (Finite (3 # 2))
                    (Ex.march 1) (Ex.march 1)) = Ok [a; b]
             /\ same_slot a b).
  { vm_compute. eexists _, _. split; [reflexivity|]. repeat split. }
  destruct E as (a & b & E & Hs).
  specialize (H _ _ _ _ _ _ E 0%nat 1%nat a b eq_refl eq_refl Hs). discriminate H.
Qed.

(** C2, as the code has it: a range whose start is after its end is not
    an error.  The loop body never runs: no page is fetched, no delay is
    taken, and the result is the empty dataset. *)
Theorem C2_reversed_range_is_empty (rt : runtime) (fetch : datetime -> option soup)
    (delay : pyfloat) (start_date end_date : datetime) :
  dt_ltb end_date start_date = true ->
  collect_date_range rt fetch delay start_date end_date = ([], Ok []).
Proof.
  unfold dt_ltb. intro H. apply negb_true_iff in H.
  unfold collect_date_range. now rewrite collect_loop_exit.
Qed.

Lemma C2_reversed_range_is_empty_witness :
  collect_date_range Ex.rt0 (fun _ => Some Ex.page_three_rows) (Finite (3 # 2))
    (Ex.march 2) (Ex.march 1) = ([], Ok []).
Proof.
  apply (C2_reversed_range_is_empty Ex.rt0 (fun _ => Some Ex.page_three_rows) (Finite (3 # 2))
           (Ex.march 2) (Ex.march 1)).
  reflexivity.
Defined.

(** C2 as stated fails: from 2 March back to 1 March the collection
    returns, it does not fail. *)
Lemma C2_counterexample :
  ~ (forall rt fetch delay start_date end_date,
       dt_ltb end_date start_date = true ->
       exists trace e,
         collect_date_range rt fetch delay start_date end_date = (trace, Raise e)).
Proof.
  intro H.
  destruct (H Ex.rt0 (fun _ => Some Ex.page_three_rows) (Finite (3 # 2)) (Ex.march 2) (Ex.march 1)
              eq_refl) as (trace & e & E).
  vm_compute in E. discriminate.
Qed.

(** C10, as the code has it: over a range of three days on whose second
    day nothing is fetched, when [time.sleep] accepts the delay the
    collection returns without an error; its records are those of the
    first and the third day, each dated with its own day; and the delay
    is taken after the attempt of each of the three days, the second like
    the others.  When [time.sleep] raises on the delay, the collection
    ends after the first day's page with that exception, and returns no
    record. *)
Theorem C10_missing_day_is_skipped (rt : runtime) (fetch : datetime -> option soup)
    (delay : pyfloat) (start_date end_date : datetime) {r1 r3 : list record} :
  valid_time_of_day start_date ->
  1 <= ordinal start_date -> ordinal start_date + 3 <= MAXORDINAL ->
  dt_leb (plus_days start_date 2) end_date = true ->
  dt_leb (plus_days start_date 3) end_date = false ->
  day_records rt fetch start_date = Ok r1 ->
  fetch (plus_days start_date 1) = None ->
  day_records rt fetch (plus_days start_date 2) = Ok r3 ->
  (time_sleep rt delay = Ok tt ->
   exists rs,
     collect_date_range rt fetch delay start_date end_date =
       ([Fetch start_date; Sleep delay;
         Fetch (plus_days start_date 1); Sleep delay;
         Fetch (plus_days start_date 2); Sleep delay], Ok rs)
     /\ (forall r, In r rs <-> In r (r1 ++ r3))
     /\ (forall r, In r rs ->
           date r = strftime_Ymd start_date
           \/ date r = strftime_Ymd (plus_days start_date 2)))
  /\ (forall e, time_sleep rt delay = Raise e ->
        collect_date_range rt fetch delay start_date end_date =
          ([Fetch start_date], Raise e)).
Proof.
  intros Hv Hlo Hhi H2 H3 Hr1 Hf2 Hr3.
  assert (Hmax : MAXORDINAL = 3652059) by reflexivity.
  pose (d1 := plus_days start_date 1). pose (d2 := plus_days start_date 2).
  pose (d3 := plus_days start_date 3).
  assert (Hv' : forall k, valid_time_of_day (plus_days start_date k)) by (intro; exact Hv).
  assert (Ha0 : add_timedelta start_date 1 0 = Ok d1).
  { apply add_one_day; [assumption | lia]. }
  assert (Hplus : forall k, 0 <= k -> k + 1 <= 3 ->
             add_timedelta (plus_days start_date k) 1 0 = Ok (plus_days start_date (k + 1))).
  { intros k Hk0 Hk3. rewrite add_one_day; [|apply Hv'|cbn [plus_days ordinal]; lia].
    unfold plus_days; cbn [ordinal hour minute second microsecond].
    now rewrite Z.add_assoc. }
  assert (Ha1 : add_timedelta d1 1 0 = Ok d2) by (apply (Hplus 1); lia).
  assert (Ha2 : add_timedelta d2 1 0 = Ok d3) by (apply (Hplus 2); lia).
  assert (Hord : ordinal start_date + 2 <= ordinal end_date <= ordinal start_date + 3).
  { unfold dt_leb in H2, H3. simpl in H2, H3.
    apply orb_false_iff in H3 as [H3 _]. apply Z.ltb_ge in H3.
    apply orb_true_iff in H2 as [H2 | H2].
    - apply Z.ltb_lt in H2. lia.
    - apply andb_true_iff in H2 as [H2 _]. apply Z.eqb_eq in H2. lia. }
  assert (Hle : forall t, ordinal t < ordinal end_date -> dt_leb t end_date = true).
  { intros t Ht. unfold dt_leb. apply orb_true_iff; left. now apply Z.ltb_lt. }
  assert (Hrec2 : day_records rt fetch d1 = Ok []).
  { unfold day_records, d1. now rewrite Hf2. }
  assert (Hfuel : exists fuel,
             Z.to_nat (ordinal end_date - ordinal start_date + 2) = S (S (S (S fuel)))).
  { assert (E : ordinal end_date - ordinal start_date + 2 = 4
                \/ ordinal end_date - ordinal start_date + 2 = 5) by lia.
    destruct E as [-> | ->]; [exists 0%nat | exists 1%nat]; reflexivity. }
  destruct Hfuel as (fuel & Hfuel).
  split.
  - intro Hsleep.
    assert (Hrun : collect_loop rt fetch delay
                     (Z.to_nat (ordinal end_date - ordinal start_date + 2))
                     start_date end_date [] [] =
                   ([Fetch start_date; Sleep delay; Fetch d1; Sleep delay;
                     Fetch d2; Sleep delay], Ok (r1 ++ r3))).
    { rewrite Hfuel.
      rewrite (collect_loop_step rt fetch delay _ start_date d1 end_date [] r1 []);
        [|assumption|apply Hle; lia|assumption|assumption].
      rewrite (collect_loop_step rt fetch delay _ d1 d2 end_date _ [] _);
        [|assumption|apply Hle; simpl; lia|assumption|assumption].
      rewrite (collect_loop_step rt fetch delay _ d2 d3 end_date _ r3 _);
        [|assumption|exact H2|assumption|assumption].
      rewrite collect_loop_exit by exact H3.
      simpl. now rewrite app_nil_r. }
    assert (Hdates : forall r, In r (r1 ++ r3) ->
               date r = strftime_Ymd start_date \/ date r = strftime_Ymd d2).
    { intros r Hin. apply in_app_or in Hin as [Hin | Hin].
      - left. unfold day_records in Hr1.
        destruct (fetch start_date) as [[|n html]|];
          try (injection Hr1 as <-; contradiction).
        now apply (parse_time_slots_facts _ _ _ _ _ Hr1 Hin).
      - right. unfold day_records in Hr3. fold d2 in Hr3.
        destruct (fetch d2) as [[|n html]|];
          try (injection Hr3 as <-; contradiction).
        now apply (parse_time_slots_facts _ _ _ _ _ Hr3 Hin). }
    unfold collect_date_range. rewrite Hrun. fold d1 d2.
    destruct (r1 ++ r3) as [|r0 l] eqn:Eall.
    + exists []. repeat split; auto; contradiction.
    + exists (sort_values (drop_duplicates (r0 :: l))).
      assert (Hmem : forall r, In r (sort_values (drop_duplicates (r0 :: l)))
                               <-> In r (r0 :: l)).
      { intro r. rewrite <- (drop_duplicates_In (r0 :: l)). split.
        - apply Permutation_in, Permutation_sym, sort_values_perm.
        - apply Permutation_in, sort_values_perm. }
      split; [reflexivity|]. split; [exact Hmem|].
      intros r Hin. apply Hdates. now apply Hmem.
  - intros e Hsleep. unfold collect_date_range. rewrite Hfuel.
    rewrite (collect_loop_sleep_raises rt fetch delay _ start_date d1 end_date [] r1 [] e);
      [reflexivity|assumption|apply Hle; lia|assumption|assumption].
Qed.

Lemma C10_missing_day_is_skipped_witness :
  (exists rs,
     collect_date_range Ex.rt0 Ex.fetch_gap (Finite (3 # 2)) (Ex.march 1) (Ex.march 3) =
       ([Fetch (Ex.march 1); Sleep (Finite (3 # 2));
         Fetch (plus_days (Ex.march 1) 1); Sleep (Finite (3 # 2));
         Fetch (plus_days (Ex.march 1) 2); Sleep (Finite (3 # 2))], Ok rs)
     /\ (forall r, In r rs ->
           date r = strftime_Ymd (Ex.march 1)
           \/ date r = strftime_Ymd (plus_days (Ex.march 1) 2)))
  /\ collect_date_range Ex.rt0 Ex.fetch_gap (Finite (-1 # 2)) (Ex.march 1) (Ex.march 3) =
       ([Fetch (Ex.march 1)], Raise ValueError).
Proof.
  split.
  - destruct (C10_missing_day_is_skipped Ex.rt0 Ex.fetch_gap (Finite (3 # 2))
                (Ex.march 1) (Ex.march 3)
                (r1 := match day_records Ex.rt0 Ex.fetch_gap (Ex.march 1) with
                       | Ok l => l | Raise _ => [] end)
                (r3 := match day_records Ex.rt0 Ex.fetch_gap (plus_days (Ex.march 1) 2) with
                       | Ok l => l | Raise _ => [] end))
      as (Hok & _).
    + unfold valid_time_of_day; simpl; lia.
    + apply Z.leb_le; reflexivity.
    + apply Z.leb_le; reflexivity.
    + reflexivity.
    + reflexivity.
    + vm_compute; reflexivity.
    + reflexivity.
    + vm_compute; reflexivity.
    + destruct (Hok eq_refl) as (rs & E & _ & Hd).
      exists rs. split; [exact E | exact Hd].
  - destruct (C10_missing_day_is_skipped Ex.rt0 Ex.fetch_gap (Finite (-1 # 2))
                (Ex.march 1) (Ex.march 3)
                (r1 := match day_records Ex.rt0 Ex.fetch_gap (Ex.march 1) with
                       | Ok l => l | Raise _ => [] end)
                (r3 := match day_records Ex.rt0 Ex.fetch_gap (plus_days (Ex.march 1) 2) with
                       | Ok l => l | Raise _ => [] end))
      as (_ & Hraise).
    + unfold valid_time_of_day; simpl; lia.
    + apply Z.leb_le; reflexivity.
    + apply Z.leb_le; reflexivity.
    + reflexivity.
    + reflexivity.
    + vm_compute; reflexivity.
    + reflexivity.
    + vm_compute; reflexivity.
    + exact (Hraise ValueError eq_refl).
Defined.

(** C10 as stated fails: with a delay of 10^19 seconds [time.sleep]
    raises [OverflowError] after the first day's page, so the collection
    over 1 to 3 March, on whose second day nothing is fetched, raises an
    error and returns no record. *)
Lemma C10_counterexample :
  ~ (forall rt fetch delay start_date end_date,
       valid_time_of_day start_date ->
       1 <= ordinal start_date -> ordinal start_date + 3 <= MAXORDINAL ->
       dt_leb (plus_days start_date 2) end_date = true ->
       dt_leb (plus_days start_date 3) end_date = false ->
       fetch (plus_days start_date 1) = None ->
       exists trace rs,
         collect_date_range rt fetch delay start_date end_date = (trace, Ok rs)).
Proof.
  intro H.
  destruct (H Ex.rt0 Ex.fetch_gap (Finite (10000000000000000000 # 1))
              (Ex.march 1) (Ex.march 3)) as (trace & rs & E).
  - unfold valid_time_of_day; simpl; lia.
  - apply Z.leb_le; reflexivity.
  - apply Z.leb_le; reflexivity.
  - reflexivity.
  - reflexivity.
  - reflexivity.
  - vm_compute in E. discriminate E.
Qed.

(* ------------------------------------------------------------------ *)
(** ** Matches *)

Lemma rep_consumes {X} (g : bool) (p : N -> bool) (s : pystr) :
  forall (lo : nat) (hi : option nat) (prev : option N)
         (k : option N -> pystr -> pystr -> option X) (x : X),
    rep g p lo hi prev s k = Some x ->
    exists prev' t s',
      s = t ++ s' /\ (lo <= List.length t)%nat /\ k prev' t s' = Some x.
Proof.
  induction s as [|a s IH]; intros lo hi prev k x H; simpl in H.
  - destruct lo; [|discriminate]. exists prev, [], []. auto.
  - assert (Hstop : match lo with O => k prev [] (a :: s) | S _ => None end = Some x ->
                    exists prev' t s',
                      a :: s = t ++ s' /\ (lo <= List.length t)%nat
                      /\ k prev' t s' = Some x).
    { destruct lo; [|discriminate]. intro Hk. exists prev, [], (a :: s). auto. }
    assert (Hmore : rep g p (Nat.pred lo) (hi_pred hi) (Some a) s
                      (fun prev' t s'' => k prev' (a :: t) s'') = Some x ->
                    exists prev' t s',
                      a :: s = t ++ s' /\ (lo <= List.length t)%nat
                      /\ k prev' t s' = Some x).
    { intro E. apply IH in E as (prev' & t & s' & -> & Hl & Hk).
      exists prev', (a :: t), s'. simpl. repeat split; [lia | assumption]. }
    destruct (p a && hi_open hi); [|now apply Hstop].
    destruct g.
    + destruct (rep true p (Nat.pred lo) (hi_pred hi) (Some a) s _) eqn:E.
      * injection H as ->. now apply Hmore.
      * now apply Hstop.
    + destruct (match lo with O => k prev [] (a :: s) | S _ => None end) eqn:E.
      * injection H as ->. now apply Hstop.
      * now apply Hmore.
Qed.

(** A successful run hands its continuation the text it took, at least
    [min_len r] characters, and the rest of the subject. *)
Lemma run_consumes {X} (r : regex) :
  forall (prev : option N) (s : pystr) (c : caps)
         (k : option N -> pystr -> pystr -> caps -> option X) (x : X),
    run r prev s c k = Some x ->
    exists prev' t s' c',
      s = t ++ s' /\ (min_len r <= List.length t)%nat /\ k prev' t s' c' = Some x.
Proof.
  induction r as [|p|r1 IH1 r2 IH2|r1 IH1 r2 IH2|g lo hi p|i r1 IH1|];
    intros prev s c k x H; simpl in H.
  - exists prev, [], s, c. auto.
  - destruct s as [|a s]; [discriminate|]. destruct (p a); [|discriminate].
    exists (Some a), [a], s, c. auto.
  - apply IH1 in H as (prev1 & t1 & s1 & c1 & -> & Hl1 & H).
    apply IH2 in H as (prev2 & t2 & s2 & c2 & -> & Hl2 & H).
    exists prev2, (t1 ++ t2), s2, c2. rewrite app_assoc, length_app. simpl.
    repeat split; [lia | assumption].
  - destruct (run r1 prev s c k) eqn:E.
    + injection H as ->. apply IH1 in E as (prev' & t & s' & c' & -> & Hl & Hk).
      exists prev', t, s', c'. simpl. repeat split; [lia | assumption].
    + apply IH2 in H as (prev' & t & s' & c' & -> & Hl & Hk).
      exists prev', t, s', c'. simpl. repeat split; [lia | assumption].
  - apply rep_consumes in H as (prev' & t & s' & -> & Hl & Hk).
    exists prev', t, s', c. auto.
  - apply IH1 in H as (prev' & t & s' & c' & -> & Hl & Hk).
    eexists prev', t, s', _. simpl. repeat split; [assumption | exact Hk].
  - destruct (xorb _ _); [|discriminate]. exists prev, [], s, c. auto.
Qed.

Lemma match_at_group0 (r : regex) (prev : option N) (s : pystr) (m : match_obj) :
  match_at r prev s = Some m ->
  s = group0 m ++ m_rest m /\ (min_len r <= List.length (group0 m))%nat.
Proof.
  unfold match_at. intro H.
  apply run_consumes in H as (prev' & t & s' & c' & -> & Hl & H).
  injection H as <-. simpl. auto.
Qed.

(** [re.search] finds a piece of the subject, no shorter than the
    pattern's least match. *)
Lemma search_from_group0 (r : regex) (s : pystr) :
  forall (prev : option N) (m : match_obj),
    search_from r prev s = Some m ->
    substring (group0 m) s /\ (min_len r <= List.length (group0 m))%nat.
Proof.
  induction s as [|a s IH]; intros prev m H; simpl in H.
  - destruct (match_at r prev []) eqn:E; [|discriminate]. injection H as ->.
    apply match_at_group0 in E as [E Hl]. split; [|assumption].
    exists [], (m_rest m). exact E.
  - destruct (match_at r prev (a :: s)) eqn:E.
    + injection H as ->. apply match_at_group0 in E as [E Hl]. split; [|assumption].
      exists [], (m_rest m). exact E.
    + apply IH in H as [(pre & post & ->) Hl]. split; [|assumption].
      exists (a :: pre), post. reflexivity.
Qed.

(* ------------------------------------------------------------------ *)
(** ** The extraction engine *)















(** C5 fails on the code: a grid whose time label reads 24:00 makes the
    extraction raise [ValueError], for any day, and the collection over a
    range that meets such a page is aborted by it. *)
Theorem C5_out_of_range_label_raises (rt : runtime) (day : datetime) :
  parse_time_slots rt Ex.page_bad_hour day = Raise ValueError
  /\ snd (collect_date_range rt (fun _ => Some Ex.page_bad_hour) (Finite (3 # 2))
            (Ex.march 1) (Ex.march 3)) = Raise ValueError.
Proof.
  assert (E : forall d, parse_time_slots rt Ex.page_bad_hour d = Raise ValueError)
    by reflexivity.
  split; [apply E|].
  unfold collect_date_range.
  change (Z.to_nat (ordinal (Ex.march 3) - ordinal (Ex.march 1) + 2)) with 4%nat.
  cbn [collect_loop]. change (dt_leb (Ex.march 1) (Ex.march 3)) with true. cbv iota.
  change (match Ex.page_bad_hour with [] => _ | _ => _ end)
    with (parse_time_slots rt Ex.page_bad_hour (Ex.march 1)).
  rewrite E. reflexivity.
Qed.

Lemma source_tags_differ :
  str "json_embed" <> str "grid_table" /\ str "html_element" <> str "grid_table"
  /\ str "json_embed" <> str "html_element".
Proof. repeat split; discriminate. Qed.

(** C7, as the code has it.  Every record of the three strategies has a
    duration that is not negative, and positive exactly when its end
    differs from its start; a grid record lasts half an hour.  The room
    name is the placeholder "Unknown" when a JSON object has none of the
    room keys and when an element has neither a room pattern in its text
    nor a [data-room] attribute; it is not empty when the text of the
    element has a room pattern.  A room label that is present is used as
    found: the text under the first room key of a JSON object, the room
    pattern in the text of an element, else its [data-room] attribute. *)
Theorem C7_record_invariants :
  (forall rt html day rs r,
      parse_time_slots rt html day = Ok rs -> In r rs ->
      0 <= duration_hours r
      /\ (0 < duration_hours r <-> start_time r <> end_time r)
      /\ (source r = str "grid_table" -> duration_hours r = 50))
  /\ (forall rt item day r,
        extract_from_json_item rt item day = Ok (Some r) ->
        (forall k, In k room_keys -> lookup k item = None) ->
        room_name r = str "Unknown")
  /\ (forall element day r,
        extract_from_element element day = Ok (Some r) ->
        (is_some (re_search room_re (element_text element)) = true -> room_name r <> [])
        /\ (re_search room_re (element_text element) = None ->
            attr (str "data-room") element = None ->
            room_name r = str "Unknown"))
  /\ (forall rt item day r label,
        extract_from_json_item rt item day = Ok (Some r) ->
        first_present room_keys item (JStr (str "Unknown")) = JStr label ->
        room_name r = label)
  /\ (forall element day r,
        extract_from_element element day = Ok (Some r) ->
        (forall room_match,
            re_search room_re (element_text element) = Some room_match ->
            room_name r = group0 room_match)
        /\ (forall label,
              re_search room_re (element_text element) = None ->
              attr (str "data-room") element = Some label ->
              room_name r = label)).
Proof.
  split; [|split; [|split; [|split]]].
  - intros rt html day rs r H Hin.
    destruct (parse_time_slots_facts _ _ _ _ _ H Hin) as (_ & H0 & H1 & Hsrc).
    repeat split; try assumption; try apply H1.
    intro Hg. destruct Hsrc as [(_ & Hd & _) | [Hj | (He & _)]]; [assumption | |].
    + rewrite Hg in Hj. symmetry in Hj. now apply source_tags_differ in Hj.
    + rewrite Hg in He. symmetry in He. now apply source_tags_differ in He.
  - intros rt item day r H Hnone.
    apply json_item_facts in H as (_ & -> & _).
    assert (E : forall keys, (forall k, In k keys -> lookup k item = None) ->
                first_present keys item (JStr (str "Unknown")) = JStr (str "Unknown")).
    { induction keys as [|k keys IH]; intro Hk; simpl; [reflexivity|].
      rewrite (Hk k (or_introl eq_refl)). apply IH. intros k' Hin. apply Hk. now right. }
    now rewrite (E room_keys Hnone).
  - intros element day r H. apply element_facts in H as (_ & -> & _ & _).
    unfold element_text. split.
    + destruct (re_search room_re _) as [m|] eqn:E; [|discriminate]. intros _.
      apply search_from_group0 in E as [_ Hl].
      destruct (group0 m); [simpl in Hl; lia | discriminate].
    + intros -> Ha. unfold get_attr. now rewrite Ha.
  - intros rt item day r label H Hlabel.
    apply json_item_facts in H as (_ & -> & _). now rewrite Hlabel.
  - intros element day r H. apply element_facts in H as (_ & -> & _ & _).
    unfold element_text. split.
    + now intros room_match ->.
    + intros label -> Ha. unfold get_attr. now rewrite Ha.
Qed.

Lemma C7_record_invariants_witness :
  exists rs r,
    parse_time_slots Ex.rt0 Ex.page_two_signals (Ex.march 1) = Ok rs /\ In r rs
    /\ 0 <= duration_hours r
    /\ (0 < duration_hours r <-> start_time r <> end_time r)
    /\ (source r = str "grid_table" -> duration_hours r = 50).
Proof.
  eexists _, _. split; [vm_compute; reflexivity|]. split; [left; reflexivity|].
  apply (proj1 C7_record_invariants Ex.rt0 Ex.page_two_signals (Ex.march 1) _ _ eq_refl).
  left; reflexivity.
Defined.

(** C7 as stated fails: an event element from 9:00 AM to 9:00 AM whose
    [data-room] attribute is empty gives a record with an empty room name
    and a duration of zero. *)
Lemma C7_counterexample :
  ~ (forall rt html day rs r,
       parse_time_slots rt html day = Ok rs -> In r rs ->
       room_name r <> [] /\ 0 < duration_hours r).
Proof.
  intro H.
  assert (E : exists r,
             parse_time_slots Ex.rt0 Ex.page_empty_span (Ex.march 1) = Ok [r]
             /\ room_name r = [] /\ duration_hours r = 0).
  { vm_compute. eexists. split; [reflexivity|]. split; reflexivity. }
  destruct E as (r & E & Hn & Hd).
  destruct (H _ _ _ _ r E (or_introl eq_refl)) as [Hne _]. now apply Hne.
Qed.

(** C8, as the code has it: no strategy takes the room id out of the room
    name.  A grid record has the whole room name, the column header, as
    its room id; a record from JSON has the object's [roomId], else its
    [room_id], else the empty string; a record from an element has the
    empty string. *)
Theorem C8_room_id :
  (forall rt html day rs r,
      parse_time_slots rt html day = Ok rs -> In r rs ->
      (source r = str "grid_table" /\ room_id r = room_name r)
      \/ source r = str "json_embed"
      \/ (source r = str "html_element" /\ room_id r = []))
  /\ (forall rt item day r,
        extract_from_json_item rt item day = Ok (Some r) ->
        room_id r = py_str rt (dict_get (str "roomId") item
                                 (dict_get (str "room_id") item (JStr []))))
  /\ (forall element day r,
        extract_from_element element day = Ok (Some r) -> room_id r = []).
Proof.
  split; [|split].
  - intros rt html day rs r H Hin.
    destruct (parse_time_slots_facts _ _ _ _ _ H Hin) as (_ & _ & _ & Hsrc).
    destruct Hsrc as [(Hg & _ & Hid) | [Hj | He]]; auto.
  - intros rt item day r H. now apply json_item_facts in H.
  - intros element day r H. now apply element_facts in H.
Qed.

Lemma C8_room_id_witness :
  exists r,
    extract_from_json_item Ex.rt0 Ex.item_with_id (Ex.march 1) = Ok (Some r)
    /\ room_name r = str "Room 230" /\ room_id r = str "LMR".
Proof.
  eexists. split; [vm_compute; reflexivity|]. split; [reflexivity|].
  exact (proj1 (proj2 C8_room_id) Ex.rt0 Ex.item_with_id (Ex.march 1) _ eq_refl).
Defined.

(** C8 as stated fails: the grid record for the column "Room 104" has the
    room id "Room 104", not the three-digit token "104". *)
Lemma C8_counterexample :
  ~ (forall rt html day rs r,
       parse_time_slots rt html day = Ok rs -> In r rs ->
       room_id r = spec_room_id (room_name r)).
Proof.
  intro H.
  assert (E : exists r,
             parse_time_slots Ex.rt0 Ex.page_three_rows (Ex.march 1) = Ok [r]
             /\ room_id r = str "Room 104"
             /\ spec_room_id (room_name r) = str "104").
  { vm_compute. eexists. split; [reflexivity|]. split; reflexivity. }
  destruct E as (r & E & Hid & Hspec).
  specialize (H _ _ _ _ r E (or_introl eq_refl)).
  rewrite Hid, Hspec in H. discriminate H.
Qed.

Lemma span_minutes_backwards {day s e : datetime} :
  on_day day s -> on_day day e -> dt_leb e s = true ->
  span_minutes s e =
  if (hour e =? hour s) && (minute e =? minute s) then 0
  else 1440 - (hour s * 60 + minute s - (hour e * 60 + minute e)).
Proof.
  intros (Hos & Hs & Hms & Hss & Hus) (Hoe & He & Hme & Hse & Hue) Hle.
  assert (Hm : hour e * 60 + minute e <= hour s * 60 + minute s).
  { unfold dt_leb in Hle. rewrite Hos, Hoe, Z.ltb_irrefl, Z.eqb_refl in Hle.
    simpl in Hle. apply Z.leb_le in Hle. unfold time_key in Hle.
    rewrite Hss, Hus, Hse, Hue in Hle. lia. }
  unfold span_minutes.
  destruct ((hour e =? hour s) && (minute e =? minute s)) eqn:E.
  - apply andb_true_iff in E as [E1 E2]. apply Z.eqb_eq in E1, E2.
    rewrite E1, E2, Z.sub_diag. reflexivity.
  - assert (hour e * 60 + minute e < hour s * 60 + minute s).
    { apply andb_false_iff in E as [E | E]; apply Z.eqb_neq in E; lia. }
    Z.div_mod_to_equations. lia.
Qed.

(** C4, as the code has it: an item whose end is not after its start is
    not discarded.  No error is raised and a record is produced; its
    duration is the span from start to end taken within one day, which is
    zero when the two are equal and twenty-four hours less the gap when
    the end is before the start. *)
Theorem C4_backwards_span_is_kept :
  (forall rt item day s e,
      truthy (first_present time_keys item JNull) = true ->
      truthy (first_present end_keys item JNull) = true ->
      parse_time_string (json_start rt item) day = Ok s ->
      parse_time_string (json_end rt item) day = Ok e ->
      dt_leb e s = true ->
      exists r,
        extract_from_json_item rt item day = Ok (Some r)
        /\ start_time r = strftime_HM s /\ end_time r = strftime_HM e
        /\ duration_hours r = round2_hours (span_minutes s e * 60)
        /\ span_minutes s e =
           if (hour e =? hour s) && (minute e =? minute s) then 0
           else 1440 - (hour s * 60 + minute s - (hour e * 60 + minute e)))
  /\ (forall element day g1 g2 s e,
        range_end 1 element = Some g1 -> range_end 2 element = Some g2 ->
        parse_time_string g1 day = Ok s ->
        parse_time_string g2 day = Ok e ->
        dt_leb e s = true ->
        exists r,
          extract_from_element element day = Ok (Some r)
          /\ start_time r = strftime_HM s /\ end_time r = strftime_HM e
          /\ duration_hours r = round2_hours (span_minutes s e * 60)
          /\ span_minutes s e =
             if (hour e =? hour s) && (minute e =? minute s) then 0
             else 1440 - (hour s * 60 + minute s - (hour e * 60 + minute e))).
Proof.
  split.
  - intros rt item day s e Hts Hte Hs He Hle.
    unfold extract_from_json_item. fold (json_start rt item) (json_end rt item).
    rewrite Hts, Hte. cbn [negb]. rewrite Hs, He. cbn [bind try_except].
    eexists. split; [reflexivity|]. fields.
    apply parse_time_string_ok in Hs, He.
    rewrite (sub_seconds_on_day He Hs). fold (span_minutes s e).
    repeat split. now apply (span_minutes_backwards Hs He).
  - intros element day g1 g2 s e Hg1 Hg2 Hs He Hle.
    unfold range_end, element_text in Hg1, Hg2. unfold extract_from_element.
    destruct (re_search time_range_re _) as [m|]; [|discriminate].
    injection Hg1 as Hg1. injection Hg2 as Hg2. rewrite Hg1, Hg2, Hs, He.
    cbn [bind try_except]. eexists. split; [reflexivity|]. fields.
    apply parse_time_string_ok in Hs, He.
    rewrite (sub_seconds_on_day He Hs). fold (span_minutes s e).
    repeat split. now apply (span_minutes_backwards Hs He).
Qed.

Lemma C4_backwards_span_is_kept_witness :
  exists r,
    extract_from_json_item Ex.rt0 Ex.backwards_item (Ex.march 1) = Ok (Some r)
    /\ start_time r = str "11:00" /\ end_time r = str "10:00"
    /\ duration_hours r = 2300.
Proof.
  destruct (proj1 C4_backwards_span_is_kept Ex.rt0 Ex.backwards_item (Ex.march 1)
              (mkdt (ordinal (Ex.march 1)) 11 0 0 0)
              (mkdt (ordinal (Ex.march 1)) 10 0 0 0)
              eq_refl eq_refl eq_refl eq_refl eq_refl)
    as (r & E & Hs & He & Hd & _).
  exists r. split; [exact E|]. split; [exact Hs|]. split; [exact He | exact Hd].
Defined.

(** C4 as stated fails: a JSON object from 11:00 to 10:00 and an element
    from 9:00 AM to 9:00 AM each give a record. *)
Lemma C4_counterexample :
  ~ (forall rt item day s e,
       parse_time_string (json_start rt item) day = Ok s ->
       parse_time_string (json_end rt item) day = Ok e ->
       dt_leb e s = true ->
       extract_from_json_item rt item day = Ok None)
  /\ ~ (forall element day g1 g2 s e,
          range_end 1 element = Some g1 -> range_end 2 element = Some g2 ->
          parse_time_string g1 day = Ok s ->
          parse_time_string g2 day = Ok e ->
          dt_leb e s = true ->
          extract_from_element element day = Ok None).
Proof.
  split; intro H.
  - specialize (H Ex.rt0 Ex.backwards_item (Ex.march 1)
                  (mkdt (ordinal (Ex.march 1)) 11 0 0 0)
                  (mkdt (ordinal (Ex.march 1)) 10 0 0 0) eq_refl eq_refl eq_refl).
    vm_compute in H. discriminate.
  - specialize (H Ex.empty_span (Ex.march 1) (str "9:00 AM") (str "9:00 AM")
                  (mkdt (ordinal (Ex.march 1)) 9 0 0 0)
                  (mkdt (ordinal (Ex.march 1)) 9 0 0 0)
                  eq_refl eq_refl eq_refl eq_refl eq_refl).
    vm_compute in H. discriminate.
Qed.

Lemma existsb_contains (kws : list pystr) (s : pystr) :
  existsb (fun keyword => contains keyword s) kws = true
  <-> exists k, In k kws /\ substring k s.
Proof.
  rewrite existsb_exists. split; intros (k & Hin & H); exists k; split; auto;
    now apply contains_spec.
Qed.

Lemma same_letter_lower (x y : N) : same_letter x y <-> lower_cp x = lower_cp y.
Proof.
  unfold same_letter, lower_cp, is_upper.
  destruct (N.leb_spec 65 x), (N.leb_spec x 90), (N.leb_spec 65 y), (N.leb_spec y 90);
    simpl; lia.
Qed.

Lemma Forall2_same_letter (a b : pystr) : Forall2 same_letter a b <-> lower a = lower b.
Proof.
  split.
  - induction 1 as [|x y a b Hxy _ IH]; simpl; [reflexivity|].
    apply same_letter_lower in Hxy. now rewrite Hxy, IH.
  - revert b. induction a as [|x a IH]; intros [|y b] H; simpl in H;
      try discriminate; constructor.
    + apply same_letter_lower. now injection H.
    + apply IH. now injection H.
Qed.

(** A keyword in small letters occurs in [s], whatever the case, when it
    is a substring of [s] lowered. *)
Lemma occurs_ignoring_case_spec (k s : pystr) :
  lower k = k ->
  occurs_ignoring_case k s <-> substring k (lower s).
Proof.
  intro Hk. split.
  - intros (pre & mid & post & -> & H). apply Forall2_same_letter in H.
    exists (lower pre), (lower post). unfold lower in *.
    now rewrite !map_app, H, Hk.
  - intros (pre & post & H). unfold lower in H.
    apply map_eq_app in H as (pre' & rest & -> & _ & H).
    apply map_eq_app in H as (mid & post' & -> & H & _).
    exists pre', mid, post'. split; [reflexivity|].
    apply Forall2_same_letter. fold (lower mid) in H. now rewrite H, Hk.
Qed.

Lemma mentions_spec (keywords : list string) (s : pystr) :
  Forall (fun k => lower (str k) = str k) keywords ->
  mentions keywords s <->
  existsb (fun keyword => contains keyword (lower s)) (List.map str keywords) = true.
Proof.
  intro Hk. rewrite existsb_exists. rewrite Forall_forall in Hk. split.
  - intros (k & Hin & H). exists (str k). split; [now apply in_map|].
    apply contains_spec. now apply occurs_ignoring_case_spec; [apply Hk|].
  - intros (k' & Hin & H). apply in_map_iff in Hin as (k & <- & Hin).
    exists k. split; [assumption|].
    apply occurs_ignoring_case_spec; [now apply Hk|]. now apply contains_spec.
Qed.

(** The cells the grid strategy takes for reserved. *)
Lemma cell_reserved_spec (cell : node) :
  cell_reserved cell = true <->
  mentions ["reserved"; "booked"; "unavailable"; "occupied"; "event"]%string
    (join (str " ") (classes cell))
  \/ mentions ["reserved"; "booked"; "unavailable"]%string (get_text [] true cell).
Proof.
  unfold cell_reserved, is_reserved.
  rewrite orb_true_iff, mentions_spec, mentions_spec by (repeat constructor).
  reflexivity.
Qed.

(** C6, as the code has it.  A cell is taken for reserved when one of
    "reserved", "booked", "unavailable", "occupied" and "event" occurs in
    its classes joined by spaces, or one of "reserved", "booked" and
    "unavailable" occurs in its text, in either case of the ASCII
    letters; and a cell whose classes and text are ASCII is taken for
    reserved in no other case.  (On text outside ASCII Python lowers
    further letters, the Kelvin sign to k among them; the converse is
    stated for ASCII, where [lower] is Python's.)  Cells that differ in
    the case of ASCII letters only are classified alike: the class
    "Reserved" is detected as "reserved" is. *)
Theorem C6_reserved_keywords :
  (forall cell,
      mentions ["reserved"; "booked"; "unavailable"; "occupied"; "event"]%string
        (join (str " ") (classes cell))
      \/ mentions ["reserved"; "booked"; "unavailable"]%string (get_text [] true cell) ->
      cell_reserved cell = true)
  /\ (forall cell,
        isascii (join (str " ") (classes cell)) = true ->
        isascii (get_text [] true cell) = true ->
        cell_reserved cell = true ->
        mentions ["reserved"; "booked"; "unavailable"; "occupied"; "event"]%string
          (join (str " ") (classes cell))
        \/ mentions ["reserved"; "booked"; "unavailable"]%string (get_text [] true cell))
  /\ (forall cls cls' txt txt',
        Forall2 same_letter cls cls' -> Forall2 same_letter txt txt' ->
        is_reserved cls txt = is_reserved cls' txt')
  /\ (forall children,
        cell_reserved (Ex.td ["Reserved"%string] children) = true
        /\ cell_reserved (Ex.td ["reserved"%string] children) = true).
Proof.
  split; [|split; [|split]].
  - intros cell H. now apply cell_reserved_spec.
  - intros cell _ _ H. now apply cell_reserved_spec.
  - intros cls cls' txt txt' Hc Ht. apply Forall2_same_letter in Hc, Ht.
    unfold is_reserved. now rewrite Hc, Ht.
  - intro children. split; reflexivity.
Qed.

Lemma C6_reserved_keywords_witness :
  cell_reserved (Ex.td ["slot Booked"%string] []) = true
  /\ (mentions ["reserved"; "booked"; "unavailable"; "occupied"; "event"]%string
        (join (str " ") (classes (Ex.td ["EVENT"%string] [])))
      \/ mentions ["reserved"; "booked"; "unavailable"]%string
           (get_text [] true (Ex.td ["EVENT"%string] [])))
  /\ is_reserved (str "Occupied") (str "free") = is_reserved (str "occupied") (str "Free").
Proof.
  split; [|split].
  - apply (proj1 C6_reserved_keywords (Ex.td ["slot Booked"%string] [])).
    left. exists "booked"%string. split; [simpl; auto|].
    exists (str "slot "), (str "Booked"), []. split; [reflexivity|].
    unfold same_letter. repeat constructor; vm_compute; intuition congruence.
  - apply (proj1 (proj2 C6_reserved_keywords) (Ex.td ["EVENT"%string] []));
      reflexivity.
  - apply (proj1 (proj2 (proj2 C6_reserved_keywords)));
      unfold same_letter; repeat constructor; vm_compute; intuition congruence.
Defined.

(** C6 as stated fails: a cell with no class whose text reads "occupied"
    is not taken for reserved, although "occupied" is one of the five
    keywords. *)
Lemma C6_counterexample :
  ~ (forall cell,
       cell_reserved cell = true <->
       mentions ["reserved"; "booked"; "unavailable"; "occupied"; "event"]%string
         (join (str " ") (classes cell))
       \/ mentions ["reserved"; "booked"; "unavailable"; "occupied"; "event"]%string
            (get_text [] true cell)).
Proof.
  intro H. destruct (H Ex.occupied_cell) as [_ H2].
  assert (E : cell_reserved Ex.occupied_cell = true).
  { apply H2. right. exists "occupied"%string. split; [simpl; auto 6|].
    exists [], (str "occupied"), []. split; [reflexivity|].
    repeat constructor; now left. }
  vm_compute in E. discriminate.
Qed.

(* ------------------------------------------------------------------ *)
(** ** The time normalizer *)

Lemma strptime_ok (s fmt : pystr) (t : datetime) :
  strptime s fmt = Ok t -> 0 <= hour t <= 23 /\ 0 <= minute t <= 59.
Proof.
  unfold strptime, make_datetime.
  destruct (pattern fmt); [|discriminate].
  destruct (re_match _ _) as [m|]; [|discriminate].
  destruct (m_rest m); [|discriminate].
  set (h := match group (chr "I") (groups m) with Some _ => _ | None => _ end).
  set (mi := field "M" 0 (groups m)).
  destruct (valid_date _ _ _ && valid_time _ _ _) eqn:E; [|discriminate].
  intro H; injection H as <-. cbn [hour minute].
  apply andb_true_iff in E as [_ E]. unfold valid_time in E.
  repeat (apply andb_true_iff in E as [E ?]).
  repeat match goal with H : (_ <=? _) = true |- _ => apply Z.leb_le in H end.
  lia.
Qed.

Lemma strptime_raises (s fmt : pystr) (e : exn) :
  strptime s fmt = Raise e -> e = ValueError.
Proof.
  unfold strptime, make_datetime.
  repeat match goal with
         | |- context [match ?x with _ => _ end] => destruct x; try congruence
         end.
Qed.

(** [parse_time_string] puts on the base date the hour and the minute
    that the first accepted format reads. *)
Lemma try_formats_first (fmts : list pystr) (s : pystr) (base_date : datetime) :
  try_formats fmts s base_date =
  match first_format fmts s with
  | Some t => Ok (mkdt (ordinal base_date) (hour t) (minute t) 0 0)
  | None => Raise ValueError
  end.
Proof.
  induction fmts as [|fmt fmts IH]; simpl; [reflexivity|].
  destruct (strptime s fmt) as [t|e] eqn:E; simpl.
  - apply strptime_ok in E as [Hh Hm]. unfold replace_hm.
    replace ((0 <=? hour t) && (hour t <=? 23) && (0 <=? minute t) && (minute t <=? 59))
      with true; [reflexivity|].
    symmetry. repeat (apply andb_true_iff; split); apply Z.leb_le; lia.
  - apply strptime_raises in E as ->. exact IH.
Qed.

Lemma reads_parse (s : pystr) (h m : Z) (base_date : datetime) :
  reads s h m = true ->
  parse_time_string s base_date = Ok (mkdt (ordinal base_date) h m 0 0).
Proof.
  unfold reads, parse_time_string. rewrite try_formats_first.
  destruct (first_format formats (strip s)) as [t|]; [|discriminate].
  intro H. apply andb_true_iff in H as [H1 H2].
  apply Z.eqb_eq in H1, H2. now subst.
Qed.

Lemma In_upto (n : nat) (z : Z) : 0 <= z < Z.of_nat n -> In z (upto n).
Proof.
  intro H. unfold upto. apply in_map_iff. exists (Z.to_nat z).
  split; [lia|]. apply in_seq. lia.
Qed.

Lemma In_bools (b : bool) : In b bools.
Proof. destruct b; simpl; auto. Qed.

(** Every clock reading, in every way of writing it, is read back. *)
Lemma clocks_read :
  forallb (fun h => forallb (fun m =>
    forallb (fun pad =>
      reads (Token.clock_24h pad h m) h m
      && forallb (fun low =>
           forallb (fun tight => reads (Token.clock_12h pad low tight h m) h m) bools
           && (negb (m =? 0) || reads (Token.bare_hour pad low h) h 0))
         bools)
      bools) (upto 60)) (upto 24) = true.
Proof. vm_compute. reflexivity. Qed.

Lemma digit_cases (a : N) : is_digit a = true ->
  In a [48;49;50;51;52;53;54;55;56;57]%N.
Proof.
  unfold is_digit. intro H. apply andb_true_iff in H as [H1 H2].
  apply N.leb_le in H1, H2. simpl.
  assert (a = 48 \/ a = 49 \/ a = 50 \/ a = 51 \/ a = 52 \/ a = 53 \/ a = 54 \/ a = 55 \/ a = 56 \/ a = 57)%N by lia.
  intuition.
Qed.

Lemma digit_cp_is_digit (v : Z) : 0 <= v <= 9 -> is_digit (digit_cp v) = true.
Proof.
  intro H. unfold is_digit, digit_cp. apply andb_true_iff. split; apply N.leb_le; lia.
Qed.

Lemma mod10 (v : Z) : 0 <= v mod 10 <= 9.
Proof. pose proof (Z.mod_pos_bound v 10). lia. Qed.

(** *** Matching an ISO date-time, directive by directive *)

Lemma run_year {X} (a b c e : N) (prev : option N) (rest : pystr) (cs : caps)
    (k : option N -> pystr -> pystr -> caps -> option X) :
  is_digit a = true -> is_digit b = true -> is_digit c = true -> is_digit e = true ->
  run (dre "Y") prev (a :: b :: c :: e :: rest) cs k =
  k (Some e) [a; b; c; e] rest ((chr "Y", [a; b; c; e]) :: cs).
Proof.
  intros Ha Hb Hc He. cbn. rewrite Ha, Hb, Hc, He. reflexivity.
Qed.

Lemma run_month {X} (mo : Z) (prev : option N) (rest : pystr) (cs : caps)
    (k : option N -> pystr -> pystr -> caps -> option X) (x : X) :
  1 <= mo <= 12 ->
  k (Some (digit_cp (mo mod 10))) (two_digits mo) rest ((chr "m", two_digits mo) :: cs) = Some x ->
  run (dre "m") prev (two_digits mo ++ rest) cs k = Some x.
Proof.
  intros Hmo H. split_range mo 1 12; vm_compute in H |- *; rewrite H; reflexivity.
Qed.

Lemma run_day {X} (d : Z) (prev : option N) (rest : pystr) (cs : caps)
    (k : option N -> pystr -> pystr -> caps -> option X) (x : X) :
  1 <= d <= 31 ->
  k (Some (digit_cp (d mod 10))) (two_digits d) rest ((chr "d", two_digits d) :: cs) = Some x ->
  run (dre "d") prev (two_digits d ++ rest) cs k = Some x.
Proof.
  intros Hd H. split_range d 1 31; vm_compute in H |- *; rewrite H; reflexivity.
Qed.

Lemma run_hour {X} (h : Z) (prev : option N) (rest : pystr) (cs : caps)
    (k : option N -> pystr -> pystr -> caps -> option X) (x : X) :
  0 <= h <= 23 ->
  k (Some (digit_cp (h mod 10))) (two_digits h) rest ((chr "H", two_digits h) :: cs) = Some x ->
  run (dre "H") prev (two_digits h ++ rest) cs k = Some x.
Proof.
  intros Hh H. split_range h 0 23; vm_compute in H |- *; rewrite H; reflexivity.
Qed.

Lemma run_minute {X} (m : Z) (prev : option N) (rest : pystr) (cs : caps)
    (k : option N -> pystr -> pystr -> caps -> option X) (x : X) :
  0 <= m <= 59 ->
  k (Some (digit_cp (m mod 10))) (two_digits m) rest ((chr "M", two_digits m) :: cs) = Some x ->
  run (dre "M") prev (two_digits m ++ rest) cs k = Some x.
Proof.
  intros Hm H. split_range m 0 59; vm_compute in H |- *; rewrite H; reflexivity.
Qed.

Lemma run_second {X} (sec : Z) (prev : option N) (rest : pystr) (cs : caps)
    (k : option N -> pystr -> pystr -> caps -> option X) (x : X) :
  0 <= sec <= 59 ->
  k (Some (digit_cp (sec mod 10))) (two_digits sec) rest ((chr "S", two_digits sec) :: cs)
  = Some x ->
  run (dre "S") prev (two_digits sec ++ rest) cs k = Some x.
Proof.
  intros Hs H. split_range sec 0 59; vm_compute in H |- *; rewrite H; reflexivity.
Qed.

Lemma run_seq {X} (r1 r2 : regex) (prev : option N) (s : pystr) (cs : caps)
    (k : option N -> pystr -> pystr -> caps -> option X) (x : X) :
  run r1 prev s cs
    (fun p1 t1 s1 c1 => run r2 p1 s1 c1 (fun p2 t2 s2 c2 => k p2 (t1 ++ t2) s2 c2)) = Some x ->
  run (Seq r1 r2) prev s cs k = Some x.
Proof. exact (fun H => H). Qed.

Lemma run_chr {X} (p : N -> bool) (a : N) (prev : option N) (s : pystr) (cs : caps)
    (k : option N -> pystr -> pystr -> caps -> option X) (x : X) :
  p a = true -> k (Some a) [a] s cs = Some x -> run (Chr p) prev (a :: s) cs k = Some x.
Proof. intros Hp H. simpl. now rewrite Hp. Qed.

Lemma pattern_iso (space : bool) :
  pattern (nth (if space then 5 else 4) formats []) = Some (iso_regex space).
Proof. destruct space; reflexivity. Qed.

Lemma iso_cons (space : bool) (y mo d h m sec : Z) :
  Token.iso space y mo d h m sec =
  four_digits y ++ 45%N :: two_digits mo ++ 45%N :: two_digits d
  ++ (if space then 32%N else 84%N) :: two_digits h ++ 58%N :: two_digits m
  ++ 58%N :: two_digits sec ++ [].
Proof. destruct space; reflexivity. Qed.

Lemma digit_cp_not_space (v : Z) : 0 <= v <= 9 -> is_space (digit_cp v) = false.
Proof.
  intro H. assert (E : In v (upto 10)) by (apply In_upto; lia).
  cbn in E. repeat (destruct E as [<- | E]); try contradiction; reflexivity.
Qed.

Lemma run_space {X} (a : N) (prev : option N) (s : pystr) (cs : caps)
    (k : option N -> pystr -> pystr -> caps -> option X) (x : X) :
  is_space a = false ->
  k (Some 32%N) [32%N] (a :: s) cs = Some x ->
  run (plus is_space) prev (32%N :: a :: s) cs k = Some x.
Proof. intros Ha H. cbn. rewrite Ha. cbn. now rewrite H. Qed.

Lemma iso_match (space : bool) (y mo d h m sec : Z) :
  1 <= mo <= 12 -> 1 <= d <= 31 -> 0 <= h <= 23 -> 0 <= m <= 59 -> 0 <= sec <= 59 ->
  exists t last,
  re_match (iso_regex space) (Token.iso space y mo d h m sec) =
  Some (MatchObj t
          [(chr "S", two_digits sec); (chr "M", two_digits m); (chr "H", two_digits h);
           (chr "d", two_digits d); (chr "m", two_digits mo); (chr "Y", four_digits y)]
          last []).
Proof.
  intros Hmo Hd Hh Hm Hs. eexists _, _.
  rewrite iso_cons. unfold re_match, match_at, iso_regex. cbn [cat].
  apply run_seq. unfold four_digits at 1. cbn [app].
  rewrite run_year by (apply digit_cp_is_digit, mod10).
  apply run_seq, run_chr; [reflexivity|].
  apply run_seq, run_month; [assumption|].
  apply run_seq, run_chr; [reflexivity|].
  apply run_seq, run_day; [assumption|].
  apply run_seq.
  assert (Hsep : forall (k : option N -> pystr -> pystr -> caps -> option match_obj) prev rest cs x,
             k (Some (if space then 32 else 84)%N) [(if space then 32 else 84)%N]
               (two_digits h ++ rest) cs = Some x ->
             run (if space then plus is_space else Chr (onei (chr "T"))) prev
               ((if space then 32 else 84)%N :: two_digits h ++ rest) cs k = Some x).
  { intros k prev rest cs x Hk. destruct space.
    - unfold two_digits in *. cbn [app] in *. apply run_space; [|exact Hk].
      apply digit_cp_not_space, mod10.
    - apply run_chr; [reflexivity | exact Hk]. }
  apply Hsep.
  apply run_seq, run_hour; [assumption|].
  apply run_seq, run_chr; [reflexivity|].
  apply run_seq, run_minute; [assumption|].
  apply run_seq, run_chr; [reflexivity|].
  apply run_seq, run_second; [assumption|].
  cbn [run]. reflexivity.
Qed.

Lemma py_int_two_digits (v : Z) : 0 <= v <= 99 -> py_int (two_digits v) = v.
Proof.
  intro H. assert (E : forallb (fun v => py_int (two_digits v) =? v) (upto 100) = true)
    by (vm_compute; reflexivity).
  rewrite forallb_forall in E. apply Z.eqb_eq, E, In_upto. lia.
Qed.

Lemma py_int_four_digits (v : Z) : 0 <= v <= 9999 -> py_int (four_digits v) = v.
Proof.
  intro H. assert (E : forallb (fun v => py_int (four_digits v) =? v)
                          (upto (Z.to_nat 10000)) = true)
    by (vm_compute; reflexivity).
  rewrite forallb_forall in E. apply Z.eqb_eq, E, In_upto. lia.
Qed.

Lemma strptime_iso (space : bool) (y mo d h m sec : Z) :
  0 <= y <= 9999 -> 1 <= mo <= 12 -> 1 <= d <= 31 -> 0 <= h <= 23 -> 0 <= m <= 59 ->
  0 <= sec <= 59 ->
  strptime (Token.iso space y mo d h m sec) (nth (if space then 5 else 4) formats [])
  = make_datetime y mo d h m sec.
Proof.
  intros Hy Hmo Hd Hh Hm Hs. unfold strptime. rewrite pattern_iso.
  destruct (iso_match space y mo d h m sec Hmo Hd Hh Hm Hs) as (t & last & ->).
  cbn [m_rest groups]. 
  change (group (chr "I") _) with (@None pystr). cbv iota.
  unfold field.
  change (group (chr "Y") _) with (Some (four_digits y)).
  change (group (chr "m") _) with (Some (two_digits mo)).
  change (group (chr "d") _) with (Some (two_digits d)).
  change (group (chr "H") _) with (Some (two_digits h)).
  change (group (chr "M") _) with (Some (two_digits m)).
  change (group (chr "S") _) with (Some (two_digits sec)).
  cbv iota. rewrite py_int_four_digits, !py_int_two_digits by lia.
  reflexivity.
Qed.

Lemma valid_date_range (y mo d : Z) :
  valid_date y mo d = true -> 0 <= y <= 9999 /\ 1 <= mo <= 12 /\ 1 <= d <= 31.
Proof.
  unfold valid_date, days_in_month. intro H.
  repeat (apply andb_true_iff in H as [H ?]).
  repeat match goal with H : (_ <=? _) = true |- _ => apply Z.leb_le in H end.
  repeat split; try lia.
  repeat match goal with H : _ <= (if ?c then _ else _) |- _ => destruct c end; lia.
Qed.

Lemma first_four_fail (a b c : N) (rest : pystr) :
  is_digit a = true -> is_digit b = true -> is_digit c = true ->
  forall fmt, In fmt (firstn 4 formats) ->
  strptime (a :: b :: c :: rest) fmt = Raise ValueError.
Proof.
  intros Ha Hb Hc fmt Hf.
  apply digit_cases in Ha, Hb, Hc. simpl in Hf.
  repeat (destruct Hf as [<- | Hf]); try contradiction;
    repeat (destruct Ha as [<- | Ha]); try contradiction;
    repeat (destruct Hb as [<- | Hb]); try contradiction;
    repeat (destruct Hc as [<- | Hc]); try contradiction;
    vm_compute; reflexivity.
Qed.

(** The format with the letter T does not take a token with a space. *)
Lemma T_format_fails (y mo d h m sec : Z) :
  1 <= mo <= 12 -> 1 <= d <= 31 ->
  strptime (Token.iso true y mo d h m sec) (nth 4 formats []) = Raise ValueError.
Proof.
  intros Hmo Hd. unfold strptime. rewrite (pattern_iso false).
  rewrite iso_cons. unfold re_match, match_at, iso_regex. cbn [cat].
  assert (E : forall R (k : option N -> pystr -> pystr -> caps -> option match_obj)
                    cs p rest,
             run (Seq (Chr (onei (chr "-")))
                    (Seq (dre "m")
                       (Seq (Chr (onei (chr "-")))
                          (Seq (dre "d") (Seq (Chr (onei (chr "T"))) R)))))
               p (45%N :: two_digits mo ++ 45%N :: two_digits d ++ 32%N :: rest) cs k = None).
  { intros R k cs p rest.
    split_range mo 1 12; split_range d 1 31; vm_compute; reflexivity. }
  unfold four_digits. cbn [app].
  change (run (Seq ?r1 ?r2) ?p ?s ?c ?k)
    with (run r1 p s c (fun p1 t1 s1 c1 => run r2 p1 s1 c1 (fun p2 t2 s2 c2 => k p2 (t1 ++ t2) s2 c2))) at 1.
  rewrite run_year by (apply digit_cp_is_digit, mod10).
  rewrite E. reflexivity.
Qed.

Lemma iso_strip (space : bool) (y mo d h m sec : Z) :
  strip (Token.iso space y mo d h m sec) = Token.iso space y mo d h m sec.
Proof.
  rewrite iso_cons. unfold strip, rstrip, four_digits, two_digits, lstrip at 2.
  cbn [app]. rewrite digit_cp_not_space by apply mod10.
  cbn [rev app]. unfold lstrip. rewrite digit_cp_not_space by apply mod10.
  reflexivity.
Qed.

Lemma make_datetime_ok (y mo d h m sec : Z) :
  valid_date y mo d = true -> 0 <= h <= 23 -> 0 <= m <= 59 -> 0 <= sec <= 59 ->
  make_datetime y mo d h m sec = Ok (mkdt (ymd2ord y mo d) h m sec 0).
Proof.
  intros Hv Hh Hm Hs. unfold make_datetime, valid_time. rewrite Hv.
  replace ((0 <=? h) && (h <=? 23) && (0 <=? m) && (m <=? 59) && (0 <=? sec) && (sec <=? 59))
    with true; [reflexivity|].
  symmetry. repeat (apply andb_true_iff; split); apply Z.leb_le; lia.
Qed.

(** An ISO date-time with a valid date is read as its hour and minute. *)
Lemma iso_reads (space : bool) (y mo d h m sec : Z) :
  valid_date y mo d = true -> 0 <= h <= 23 -> 0 <= m <= 59 -> 0 <= sec <= 59 ->
  reads (Token.iso space y mo d h m sec) h m = true.
Proof.
  intros Hv Hh Hm Hs. pose proof (valid_date_range _ _ _ Hv) as (Hy & Hmo & Hd).
  unfold reads. rewrite iso_strip.
  change formats with [nth 0 formats []; nth 1 formats []; nth 2 formats [];
                       nth 3 formats []; nth 4 formats []; nth 5 formats []]%nat.
  assert (Hfail : forall fmt, In fmt (firstn 4 formats) ->
            strptime (Token.iso space y mo d h m sec) fmt = Raise ValueError).
  { intros fmt Hf. rewrite iso_cons. unfold four_digits. cbn [app].
    apply first_four_fail; try assumption; apply digit_cp_is_digit, mod10. }
  cbn [first_format].
  rewrite !Hfail by (simpl; auto).
  destruct space.
  - rewrite T_format_fails by assumption.
    rewrite (strptime_iso true) by assumption.
    rewrite make_datetime_ok by assumption. cbn [hour minute].
    now rewrite !Z.eqb_refl.
  - rewrite (strptime_iso false) by assumption.
    rewrite make_datetime_ok by assumption. cbn [hour minute].
    now rewrite !Z.eqb_refl.
Qed.

(** C9: an hour and a minute of the day are read the same from every
    supported format: from a 12-hour clock with its meridiem, with or
    without a leading zero, in either case, with or without the space;
    from a 24-hour clock; from a bare hour when the minute is zero; and
    from an ISO date-time with any valid date, any second and either
    separator.  Each gives that hour and minute on the anchor day. *)
Theorem C9_formats_agree (day : datetime) (h m : Z) :
  0 <= h <= 23 -> 0 <= m <= 59 ->
  (forall pad low tight,
      parse_time_string (Token.clock_12h pad low tight h m) day
      = Ok (mkdt (ordinal day) h m 0 0))
  /\ (forall pad,
        parse_time_string (Token.clock_24h pad h m) day
        = Ok (mkdt (ordinal day) h m 0 0))
  /\ (m = 0 ->
      forall pad low,
        parse_time_string (Token.bare_hour pad low h) day
        = Ok (mkdt (ordinal day) h m 0 0))
  /\ (forall space y mo d sec,
        valid_date y mo d = true -> 0 <= sec <= 59 ->
        parse_time_string (Token.iso space y mo d h m sec) day
        = Ok (mkdt (ordinal day) h m 0 0)).
Proof.
  intros Hh Hm.
  pose proof clocks_read as E. rewrite forallb_forall in E.
  specialize (E h (In_upto 24 h ltac:(lia))). rewrite forallb_forall in E.
  specialize (E m (In_upto 60 m ltac:(lia))). rewrite forallb_forall in E.
  repeat split.
  - intros pad low tight. apply reads_parse.
    specialize (E pad (In_bools pad)). apply andb_true_iff in E as [_ E].
    rewrite forallb_forall in E. specialize (E low (In_bools low)).
    apply andb_true_iff in E as [E _]. rewrite forallb_forall in E.
    exact (E tight (In_bools tight)).
  - intro pad. apply reads_parse.
    specialize (E pad (In_bools pad)). now apply andb_true_iff in E as [E _].
  - intros -> pad low. apply reads_parse.
    specialize (E pad (In_bools pad)). apply andb_true_iff in E as [_ E].
    rewrite forallb_forall in E. specialize (E low (In_bools low)).
    apply andb_true_iff in E as [_ E]. exact E.
  - intros space y mo d sec Hv Hs. apply reads_parse. now apply iso_reads.
Qed.

Lemma C9_formats_agree_witness :
  parse_time_string (str "2:30 PM") (Ex.march 1) = Ok (mkdt (ordinal (Ex.march 1)) 14 30 0 0)
  /\ parse_time_string (str "14:30") (Ex.march 1) = Ok (mkdt (ordinal (Ex.march 1)) 14 30 0 0)
  /\ parse_time_string (str "2024-01-01T14:30:00") (Ex.march 1)
     = Ok (mkdt (ordinal (Ex.march 1)) 14 30 0 0).
Proof.
  destruct (C9_formats_agree (Ex.march 1) 14 30 ltac:(lia) ltac:(lia))
    as (H12 & H24 & _ & Hiso).
  split; [exact (H12 false false false)|].
  split; [exact (H24 true)|].
  exact (Hiso false 2024 1 1 0 eq_refl ltac:(lia)).
Defined.

(* ------------------------------------------------------------------ *)
(** ** Further properties *)

(* ------------------------------------------------------------------ *)
(** ** More on the collection orchestrator *)

(** *** The order of strings *)

Lemma str_ltb_irrefl (a : pystr) : str_ltb a a = false.
Proof.
  induction a as [|x a IH]; simpl; [reflexivity|].
  now rewrite N.ltb_irrefl, N.eqb_refl, IH.
Qed.

Lemma str_ltb_trans (a : pystr) :
  forall b c, str_ltb a b = true -> str_ltb b c = true -> str_ltb a c = true.
Proof.
  induction a as [|x a IH]; intros [|y b] [|z c]; simpl; try discriminate; auto.
  intros H1 H2.
  apply orb_true_iff in H1 as [H1 | H1]; apply orb_true_iff in H2 as [H2 | H2];
    apply orb_true_iff.
  - left. apply N.ltb_lt in H1, H2. apply N.ltb_lt. lia.
  - apply andb_true_iff in H2 as [H2 _]. apply N.eqb_eq in H2. subst. now left.
  - apply andb_true_iff in H1 as [H1 _]. apply N.eqb_eq in H1. subst. now left.
  - apply andb_true_iff in H1 as [E1 H1]. apply andb_true_iff in H2 as [E2 H2].
    apply N.eqb_eq in E1, E2. subst. right. rewrite N.eqb_refl. simpl.
    now apply (IH b c).
Qed.

(** Of two strings one is less than the other, or they are the same. *)
Lemma str_ltb_total (a : pystr) :
  forall b, str_ltb a b = false -> str_eqb a b = true \/ str_ltb b a = true.
Proof.
  induction a as [|x a IH]; intros [|y b]; simpl; auto; try discriminate.
  intro H. apply orb_false_iff in H as [H1 H2]. apply N.ltb_ge in H1.
  destruct (N.eqb x y) eqn:E.
  - apply N.eqb_eq in E. subst. simpl in H2. rewrite N.eqb_refl, N.ltb_irrefl. simpl.
    now apply IH.
  - right. apply N.eqb_neq in E. apply orb_true_iff. left. apply N.ltb_lt. lia.
Qed.

Lemma str_ltb_asym (a b : pystr) : str_ltb a b = true -> str_ltb b a = false.
Proof.
  intro H. destruct (str_ltb b a) eqn:E; [|reflexivity].
  pose proof (str_ltb_trans _ _ _ H E) as Hc. now rewrite str_ltb_irrefl in Hc.
Qed.

Lemma str_ltb_neq (a b : pystr) : str_ltb a b = true -> str_eqb a b = false.
Proof.
  intro H. destruct (str_eqb a b) eqn:E; [|reflexivity].
  apply str_eqb_eq in E. subst. now rewrite str_ltb_irrefl in H.
Qed.

(** *** The sort key *)

Lemma key_le_total (a b : record) : key_leb a b = false -> key_le b a.
Proof.
  unfold key_le, key_leb. intro H.
  apply orb_false_iff in H as [Hd H].
  apply str_ltb_total in Hd as [Ed | Hd]; [|now rewrite Hd].
  rewrite Ed in H. simpl in H. apply str_eqb_eq in Ed. rewrite <- Ed, str_eqb_refl. simpl.
  apply orb_false_iff in H as [Hr H].
  apply str_ltb_total in Hr as [Er | Hr];
    [|rewrite Hr; simpl; now rewrite orb_true_r].
  rewrite Er in H. simpl in H. apply str_eqb_eq in Er. rewrite <- Er, str_eqb_refl. simpl.
  apply negb_false_iff in H. rewrite (str_ltb_asym _ _ H). simpl.
  now rewrite !orb_true_r.
Qed.

Lemma key_le_trans (a b c : record) : key_le a b -> key_le b c -> key_le a c.
Proof.
  unfold key_le, key_leb. intros H1 H2.
  apply orb_true_iff in H1 as [H1 | H1]; apply orb_true_iff in H2 as [H2 | H2].
  - now rewrite (str_ltb_trans _ _ _ H1 H2).
  - apply andb_true_iff in H2 as [E2 _]. apply str_eqb_eq in E2. rewrite <- E2.
    now rewrite H1.
  - apply andb_true_iff in H1 as [E1 _]. apply str_eqb_eq in E1. rewrite E1.
    now rewrite H2.
  - apply andb_true_iff in H1 as [E1 H1]. apply andb_true_iff in H2 as [E2 H2].
    apply str_eqb_eq in E1, E2. rewrite E1, E2, str_eqb_refl. simpl.
    apply orb_true_iff. right.
    apply orb_true_iff in H1 as [H1 | H1]; apply orb_true_iff in H2 as [H2 | H2].
    + now rewrite (str_ltb_trans _ _ _ H1 H2).
    + apply andb_true_iff in H2 as [E2' _]. apply str_eqb_eq in E2'. rewrite <- E2'.
      now rewrite H1.
    + apply andb_true_iff in H1 as [E1' _]. apply str_eqb_eq in E1'. rewrite E1'.
      now rewrite H2.
    + apply andb_true_iff in H1 as [E1' H1]. apply andb_true_iff in H2 as [E2' H2].
      apply str_eqb_eq in E1', E2'. rewrite E1', E2', str_eqb_refl. simpl.
      apply orb_true_iff. right. apply negb_true_iff.
      apply negb_true_iff in H1, H2.
      destruct (str_ltb (start_time c) (start_time a)) eqn:E; [|reflexivity].
      apply str_ltb_total in H1 as [H1 | H1].
      * apply str_eqb_eq in H1. rewrite H1 in H2. congruence.
      * pose proof (str_ltb_trans _ _ _ E H1) as Hc. congruence.
Qed.

Lemma insert_sorted_HdRel (r x : record) (l : list record) :
  key_le x r -> HdRel key_le x l -> HdRel key_le x (insert_sorted r l).
Proof.
  intros Hxr Hl. destruct l as [|y l]; simpl.
  - now constructor.
  - destruct (key_leb r y); constructor; [assumption|]. now inversion Hl.
Qed.

Lemma insert_sorted_Sorted (r : record) (l : list record) :
  Sorted key_le l -> Sorted key_le (insert_sorted r l).
Proof.
  induction 1 as [|x l Hs IH Hhd]; simpl.
  - repeat constructor.
  - destruct (key_leb r x) eqn:E.
    + constructor; [now constructor | now constructor].
    + constructor; [assumption|].
      apply insert_sorted_HdRel; [|assumption]. now apply key_le_total.
Qed.

Lemma sort_values_Sorted (l : list record) : Sorted key_le (sort_values l).
Proof.
  induction l as [|x l IH]; simpl; [constructor|]. now apply insert_sorted_Sorted.
Qed.

(** A list that is in order is left as it is. *)
Lemma sort_values_sorted_id (l : list record) : Sorted key_le l -> sort_values l = l.
Proof.
  induction 1 as [|x l Hs IH Hhd]; [reflexivity|].
  change (sort_values (x :: l)) with (insert_sorted x (sort_values l)). rewrite IH.
  destruct Hhd as [|y l' Hxy]; simpl; [reflexivity|]. now rewrite Hxy.
Qed.

Lemma drop_from_id (l : list record) :
  forall seen, NoDup l -> (forall x, In x l -> ~ In x seen) -> drop_from seen l = l.
Proof.
  induction l as [|x l IH]; intros seen Hnd Hdis; simpl; [reflexivity|].
  inversion Hnd as [|? ? Hx Hnd']; subst.
  destruct (existsb (record_eqb x) seen) eqn:E.
  - apply existsb_record_In in E. exfalso. apply (Hdis x); simpl; auto.
  - f_equal. apply IH; [assumption|].
    intros y Hy [-> | Hin]; [contradiction|]. apply (Hdis y); simpl; auto.
Qed.

(** The dataset of [collect_date_range] is in order and has no row
    twice. *)
Lemma collect_date_range_sorted (rt : runtime) (fetch : datetime -> option soup)
    (delay : pyfloat) (start_date end_date : datetime) (rs : list record) :
  snd (collect_date_range rt fetch delay start_date end_date) = Ok rs ->
  Sorted key_le rs /\ NoDup rs.
Proof.
  unfold collect_date_range.
  destruct (collect_loop _ _ _ _ _ _ _ _) as [trace [all_records|e]]; simpl;
    [|discriminate].
  intro H. destruct all_records as [|r0 l]; injection H as <-.
  - split; constructor.
  - split; [apply (sort_values_Sorted (drop_duplicates (r0 :: l)))|].
    eapply Permutation_NoDup;
      [apply (sort_values_perm (drop_duplicates (r0 :: l))) | apply drop_from_NoDup].
Qed.

(** X1.  [collect_date_range]: the dataset it returns is in
    non-decreasing order of date, then room name, then start time: any
    row comes no later in that order than every row after it. *)
Theorem collect_result_sorted (rt : runtime) (fetch : datetime -> option soup)
    (delay : pyfloat) (start_date end_date : datetime) (rs : list record) :
  snd (collect_date_range rt fetch delay start_date end_date) = Ok rs ->
  StronglySorted key_le rs.
Proof.
  intro H. apply Sorted_StronglySorted; [exact key_le_trans|].
  now apply collect_date_range_sorted in H.
Qed.

Lemma collect_result_sorted_witness :
  exists rs,
    snd (collect_date_range Ex.rt0 (fun _ => Some Ex.page_two_signals) (Finite (3 # 2))
           (Ex.march 1) (Ex.march 3)) = Ok rs
    /\ StronglySorted key_le rs.
Proof.
  eexists. split; [vm_compute; reflexivity|].
  exact (collect_result_sorted Ex.rt0 (fun _ => Some Ex.page_two_signals) (Finite (3 # 2))
           (Ex.march 1) (Ex.march 3) _ eq_refl).
Defined.

(** X2.  [drop_duplicates] and [sort_values] in [collect_date_range]:
    dropping duplicates twice is dropping them once, and the dataset the
    collection returns is a fixed point of its own post-processing:
    dropping duplicates from it and sorting it again gives it back. *)
Theorem postprocessing_idempotent :
  (forall l, drop_duplicates (drop_duplicates l) = drop_duplicates l)
  /\ (forall rt fetch delay start_date end_date rs,
        snd (collect_date_range rt fetch delay start_date end_date) = Ok rs ->
        sort_values (drop_duplicates rs) = rs).
Proof.
  split.
  - intro l. unfold drop_duplicates at 1.
    apply drop_from_id; [apply drop_from_NoDup | auto].
  - intros rt fetch delay start_date end_date rs H.
    apply collect_date_range_sorted in H as [Hs Hnd].
    unfold drop_duplicates. rewrite drop_from_id by auto.
    now apply sort_values_sorted_id.
Qed.

Lemma postprocessing_idempotent_witness :
  exists rs,
    snd (collect_date_range Ex.rt0 (fun _ => Some Ex.page_two_signals) (Finite (3 # 2))
           (Ex.march 1) (Ex.march 3)) = Ok rs
    /\ sort_values (drop_duplicates rs) = rs.
Proof.
  eexists. split; [vm_compute; reflexivity|].
  exact (proj2 postprocessing_idempotent Ex.rt0 (fun _ => Some Ex.page_two_signals)
           (Finite (3 # 2)) (Ex.march 1) (Ex.march 3) _ eq_refl).
Defined.

(** *** The run of the loop, day by day *)

Lemma plus_days_0 (t : datetime) : plus_days t 0 = t.
Proof. destruct t. unfold plus_days. simpl. now rewrite Z.add_0_r. Qed.

Lemma plus_days_plus (t : datetime) (a b : Z) :
  plus_days (plus_days t a) b = plus_days t (a + b).
Proof. unfold plus_days. simpl. now rewrite Z.add_assoc. Qed.

Lemma days_from_S (start : datetime) (n : nat) :
  days_from start (S n) = start :: days_from (plus_days start 1) n.
Proof.
  unfold days_from, upto. change (seq 0 (S n)) with (0%nat :: seq 1 n).
  rewrite <- seq_shift. cbn [List.map]. rewrite !map_map.
  change (Z.of_nat 0) with 0. rewrite plus_days_0. f_equal. apply map_ext. intro k.
  rewrite plus_days_plus. f_equal. lia.
Qed.

Lemma In_days_from (start : datetime) (n : nat) (d : datetime) :
  In d (days_from start n) <-> exists k, 0 <= k < Z.of_nat n /\ d = plus_days start k.
Proof.
  unfold days_from, upto. rewrite map_map, in_map_iff. split.
  - intros (k & <- & Hk). apply in_seq in Hk. exists (Z.of_nat k). split; [lia | reflexivity].
  - intros (k & Hk & ->). exists (Z.to_nat k). split.
    + f_equal. lia.
    + apply in_seq. lia.
Qed.

Section Run.

Variable rt : runtime.
Variable fetch : datetime -> option soup.
Variable delay : pyfloat.
Variable end_date : datetime.
(** The records of each day. *)
Variable recs : datetime -> list record.

(** [j] turns of the loop over [j] days whose extraction returns and
    after which [time.sleep] returns. *)
Lemma collect_loop_days (j : nat) :
  ((0 < j)%nat -> time_sleep rt delay = Ok tt) ->
  forall (fuel : nat) (start : datetime) (all_records : list record) (trace : list event),
    valid_time_of_day start -> 1 <= ordinal start ->
    ordinal start + Z.of_nat j <= MAXORDINAL ->
    (forall d, In d (days_from start j) -> good_day rt fetch end_date recs d) ->
    collect_loop rt fetch delay (j + fuel) start end_date all_records trace =
    collect_loop rt fetch delay fuel (plus_days start (Z.of_nat j)) end_date
      (all_records ++ flat_map recs (days_from start j))
      (trace ++ run_trace delay (days_from start j)).
Proof.
  induction j as [|j IH]; intros Hsleep fuel start all_records trace Hv Hlo Hhi Hgood.
  - simpl. now rewrite plus_days_0, !app_nil_r.
  - rewrite days_from_S in *.
    destruct (Hgood start (or_introl eq_refl)) as [Hle Hrec].
    pose proof (Hsleep (Nat.lt_0_succ j)) as Hs.
    change (S j + fuel)%nat with (S (j + fuel)).
    rewrite (collect_loop_step rt fetch delay _ start (plus_days start 1) end_date
               all_records (recs start) trace Hs Hle Hrec);
      [|apply add_one_day; [assumption | lia]].
    rewrite IH; [| intros _; exact Hs | exact Hv | simpl; lia | simpl; lia
                 | intros d Hd; apply Hgood; now right].
    rewrite plus_days_plus. replace (1 + Z.of_nat j) with (Z.of_nat (S j)) by lia.
    simpl. now rewrite <- !app_assoc.
Qed.

End Run.

Lemma dt_leb_ordinal (a b : datetime) : dt_leb a b = true -> ordinal a <= ordinal b.
Proof.
  unfold dt_leb. intro H. apply orb_true_iff in H as [H | H].
  - apply Z.ltb_lt in H. lia.
  - apply andb_true_iff in H as [H _]. apply Z.eqb_eq in H. lia.
Qed.

Lemma sorted_dedup_In (l : list record) (r : record) :
  In r (sort_values (drop_duplicates l)) <-> In r l.
Proof.
  rewrite <- (drop_duplicates_In l). split.
  - apply Permutation_in, Permutation_sym, sort_values_perm.
  - apply Permutation_in, sort_values_perm.
Qed.

(** The loop over a range of [n] days whose extraction returns. *)
Lemma collect_loop_range (rt : runtime) (fetch : datetime -> option soup)
    (delay : pyfloat) (start_date end_date : datetime) (n : nat)
    (recs : datetime -> list record) :
  ((0 < n)%nat -> time_sleep rt delay = Ok tt) ->
  valid_time_of_day start_date ->
  1 <= ordinal start_date -> ordinal start_date + Z.of_nat n <= MAXORDINAL ->
  (forall d, In d (days_from start_date n) -> good_day rt fetch end_date recs d) ->
  dt_leb (plus_days start_date (Z.of_nat n)) end_date = false ->
  collect_loop rt fetch delay (Z.to_nat (ordinal end_date - ordinal start_date + 2))
    start_date end_date [] [] =
  (run_trace delay (days_from start_date n), Ok (flat_map recs (days_from start_date n))).
Proof.
  intros Hsleep Hv Hlo Hhi Hgood Hend. destruct n as [|n].
  - simpl in Hend. rewrite plus_days_0 in Hend. now rewrite collect_loop_exit.
  - assert (Hlast : dt_leb (plus_days start_date (Z.of_nat n)) end_date = true).
    { apply Hgood, In_days_from. exists (Z.of_nat n). split; [lia | reflexivity]. }
    apply dt_leb_ordinal in Hlast. simpl in Hlast.
    replace (Z.to_nat (ordinal end_date - ordinal start_date + 2))
      with (S n + Z.to_nat (ordinal end_date - ordinal start_date + 2 - Z.of_nat (S n)))%nat
      by lia.
    rewrite (collect_loop_days rt fetch delay end_date recs); try assumption.
    now rewrite collect_loop_exit.
Qed.

(** X3.  [collect_date_range] over a range of [n] days, with a delay
    that [time.sleep] accepts (it raises on a negative delay, on a NaN
    and on a delay too large for its clock): when the extraction of
    every page returns, the loop asks for the page of each day from the
    first to the last, once, in ascending order, and takes the delay
    after each; the dataset holds exactly the records of those days. *)
Theorem collect_visits_every_day (rt : runtime) (fetch : datetime -> option soup)
    (delay : pyfloat) (start_date end_date : datetime) (n : nat)
    (recs : datetime -> list record) :
  ((0 < n)%nat -> time_sleep rt delay = Ok tt) ->
  valid_time_of_day start_date ->
  1 <= ordinal start_date -> ordinal start_date + Z.of_nat n <= MAXORDINAL ->
  (forall d, In d (days_from start_date n) ->
             dt_leb d end_date = true /\ day_records rt fetch d = Ok (recs d)) ->
  dt_leb (plus_days start_date (Z.of_nat n)) end_date = false ->
  exists rs,
    collect_date_range rt fetch delay start_date end_date =
      (run_trace delay (days_from start_date n), Ok rs)
    /\ (forall r, In r rs <-> exists d, In d (days_from start_date n) /\ In r (recs d)).
Proof.
  intros Hsleep Hv Hlo Hhi Hgood Hend.
  unfold collect_date_range.
  rewrite (collect_loop_range rt fetch delay start_date end_date n recs
             Hsleep Hv Hlo Hhi Hgood Hend).
  destruct (flat_map recs (days_from start_date n)) as [|r0 l] eqn:E.
  - exists []. split; [reflexivity|]. intro r. split; [contradiction|].
    intros (d & Hd & Hr). assert (Hin : In r (flat_map recs (days_from start_date n))).
    { apply in_flat_map. eauto. }
    now rewrite E in Hin.
  - exists (sort_values (drop_duplicates (r0 :: l))). split; [reflexivity|].
    intro r. rewrite sorted_dedup_In, <- E, in_flat_map. reflexivity.
Qed.

Lemma collect_visits_every_day_witness :
  exists rs,
    collect_date_range Ex.rt0 (fun _ => Some Ex.page_three_rows) (Finite (3 # 2))
      (Ex.march 1) (Ex.march 3) =
      ([Fetch (Ex.march 1); Sleep (Finite (3 # 2)); Fetch (Ex.march 2); Sleep (Finite (3 # 2));
        Fetch (Ex.march 3); Sleep (Finite (3 # 2))], Ok rs).
Proof.
  destruct (collect_visits_every_day Ex.rt0 (fun _ => Some Ex.page_three_rows) (Finite (3 # 2))
              (Ex.march 1) (Ex.march 3) 3
              (fun d => match parse_time_slots Ex.rt0 Ex.page_three_rows d with
                        | Ok l => l | Raise _ => [] end))
    as (rs & E & _).
  - reflexivity.
  - unfold valid_time_of_day; simpl; lia.
  - apply Z.leb_le; reflexivity.
  - apply Z.leb_le; reflexivity.
  - intros d Hd. simpl in Hd.
    destruct Hd as [<- | [<- | [<- | []]]]; split; vm_compute; reflexivity.
  - reflexivity.
  - exists rs. exact E.
Defined.

(** X4.  [collect_date_range] has no handler around the extraction: when
    the extraction of the page of a day raises, after [j] days whose
    extraction returned and whose delay [time.sleep] took, the
    collection raises the same exception.  That day's page was asked
    for; no delay follows it, no later day is asked for, and the records
    of the days before are lost with it. *)
Theorem collect_stops_at_first_error (rt : runtime) (fetch : datetime -> option soup)
    (delay : pyfloat) (start_date end_date : datetime) (j : nat)
    (recs : datetime -> list record) (e : exn) :
  ((0 < j)%nat -> time_sleep rt delay = Ok tt) ->
  valid_time_of_day start_date ->
  1 <= ordinal start_date -> ordinal start_date + Z.of_nat j <= MAXORDINAL ->
  (forall d, In d (days_from start_date j) ->
             dt_leb d end_date = true /\ day_records rt fetch d = Ok (recs d)) ->
  dt_leb (plus_days start_date (Z.of_nat j)) end_date = true ->
  day_records rt fetch (plus_days start_date (Z.of_nat j)) = Raise e ->
  collect_date_range rt fetch delay start_date end_date =
    (run_trace delay (days_from start_date j) ++ [Fetch (plus_days start_date (Z.of_nat j))],
     Raise e).
Proof.
  intros Hsleep Hv Hlo Hhi Hgood Hle Hraise.
  pose proof (dt_leb_ordinal _ _ Hle) as Hord. simpl in Hord.
  unfold collect_date_range.
  replace (Z.to_nat (ordinal end_date - ordinal start_date + 2))
    with (j + S (Z.to_nat (ordinal end_date - ordinal start_date + 1 - Z.of_nat j)))%nat
    by lia.
  rewrite (collect_loop_days rt fetch delay end_date recs); try assumption.
  simpl. rewrite Hle. unfold day_records in Hraise. now rewrite Hraise.
Qed.

Lemma collect_stops_at_first_error_witness :
  collect_date_range Ex.rt0
    (fun d => if ordinal d =? ordinal (Ex.march 2) then Some Ex.page_bad_hour
              else Some Ex.page_three_rows)
    (Finite (3 # 2)) (Ex.march 1) (Ex.march 3) =
  ([Fetch (Ex.march 1); Sleep (Finite (3 # 2)); Fetch (Ex.march 2)], Raise ValueError).
Proof.
  apply (collect_stops_at_first_error Ex.rt0
           (fun d => if ordinal d =? ordinal (Ex.march 2) then Some Ex.page_bad_hour
                     else Some Ex.page_three_rows)
           (Finite (3 # 2)) (Ex.march 1) (Ex.march 3) 1
           (fun d => match parse_time_slots Ex.rt0 Ex.page_three_rows d with
                     | Ok l => l | Raise _ => [] end)).
  - reflexivity.
  - unfold valid_time_of_day; simpl; lia.
  - apply Z.leb_le; reflexivity.
  - apply Z.leb_le; reflexivity.
  - intros d Hd. simpl in Hd. destruct Hd as [<- | []]. split; vm_compute; reflexivity.
  - reflexivity.
  - vm_compute; reflexivity.
Defined.

(** X5.  [collect_date_range] on the last day of the calendar, with a
    delay that [time.sleep] took on the days before: when the loop
    reaches 9999-12-31, [current += timedelta(days=1)] raises
    [OverflowError] after that day's page was asked for and extracted,
    before the delay, and no dataset is returned. *)
Theorem collect_overflows_on_last_day (rt : runtime) (fetch : datetime -> option soup)
    (delay : pyfloat) (start_date end_date : datetime) (j : nat)
    (recs : datetime -> list record) :
  ((0 < j)%nat -> time_sleep rt delay = Ok tt) ->
  valid_time_of_day start_date ->
  1 <= ordinal start_date -> ordinal start_date + Z.of_nat j = MAXORDINAL ->
  (forall d, In d (days_from start_date (S j)) ->
             dt_leb d end_date = true /\ day_records rt fetch d = Ok (recs d)) ->
  collect_date_range rt fetch delay start_date end_date =
    (run_trace delay (days_from start_date j) ++ [Fetch (plus_days start_date (Z.of_nat j))],
     Raise OverflowError).
Proof.
  intros Hsleep Hv Hlo Hhi Hgood.
  assert (Hlast : good_day rt fetch end_date recs (plus_days start_date (Z.of_nat j))).
  { apply Hgood, In_days_from. exists (Z.of_nat j). split; [lia | reflexivity]. }
  destruct Hlast as [Hle Hrec].
  pose proof (dt_leb_ordinal _ _ Hle) as Hord. simpl in Hord.
  unfold collect_date_range.
  replace (Z.to_nat (ordinal end_date - ordinal start_date + 2))
    with (j + S (Z.to_nat (ordinal end_date - ordinal start_date + 1 - Z.of_nat j)))%nat
    by lia.
  rewrite (collect_loop_days rt fetch delay end_date recs); try assumption; try lia.
  - simpl. rewrite Hle. unfold day_records in Hrec. rewrite Hrec.
    unfold add_timedelta. cbn [plus_days ordinal hour minute second].
    destruct Hv as (Hh & Hm & Hs).
    rewrite (Z.div_small _ 86400) by lia.
    replace (ordinal start_date + Z.of_nat j + 1 + 0 <=? MAXORDINAL) with false
      by (symmetry; apply Z.leb_gt; lia).
    now rewrite andb_false_r.
  - intros d Hd. apply Hgood. apply In_days_from in Hd as (k & Hk & ->).
    apply In_days_from. exists k. split; [lia | reflexivity].
Qed.

Lemma collect_overflows_on_last_day_witness :
  collect_date_range Ex.rt0 (fun _ => None) (Finite (3 # 2))
    (mkdt (MAXORDINAL - 1) 0 0 0 0) (mkdt MAXORDINAL 0 0 0 0) =
  ([Fetch (mkdt (MAXORDINAL - 1) 0 0 0 0); Sleep (Finite (3 # 2)); Fetch (mkdt MAXORDINAL 0 0 0 0)],
   Raise OverflowError).
Proof.
  apply (collect_overflows_on_last_day Ex.rt0 (fun _ => None) (Finite (3 # 2))
           (mkdt (MAXORDINAL - 1) 0 0 0 0) (mkdt MAXORDINAL 0 0 0 0) 1 (fun _ => [])).
  - reflexivity.
  - unfold valid_time_of_day; simpl; lia.
  - apply Z.leb_le; reflexivity.
  - reflexivity.
  - intros d Hd. simpl in Hd. destruct Hd as [<- | [<- | []]]; split; reflexivity.
Defined.

(* ------------------------------------------------------------------ *)
(** ** More on the time normalizer and the extraction engine *)

Lemma try_formats_base (fmts : list pystr) (s : pystr) (b1 b2 : datetime) :
  try_formats fmts s b2 =
  match try_formats fmts s b1 with
  | Ok t => Ok (mkdt (ordinal b2) (hour t) (minute t) 0 0)
  | Raise e => Raise e
  end.
Proof. rewrite !try_formats_first. now destruct (first_format fmts s). Qed.

(** X6.  [parse_time_string]: a token that is parsed gives a time on the
    base date, with the hour and the minute in range and the second and
    the microsecond zero; a token that is not parsed raises [ValueError]
    and nothing else; and whether and how a token is parsed does not
    depend on the base date, which only gives the date of the result. *)
Theorem parse_time_string_result :
  (forall s base_date t,
      parse_time_string s base_date = Ok t ->
      ordinal t = ordinal base_date /\ 0 <= hour t <= 23 /\ 0 <= minute t <= 59
      /\ second t = 0 /\ microsecond t = 0)
  /\ (forall s base_date e, parse_time_string s base_date = Raise e -> e = ValueError)
  /\ (forall s b1 b2,
        parse_time_string s b2 =
        match parse_time_string s b1 with
        | Ok t => Ok (mkdt (ordinal b2) (hour t) (minute t) 0 0)
        | Raise e => Raise e
        end).
Proof.
  split; [|split].
  - intros s base_date t H. now apply parse_time_string_ok in H.
  - intros s base_date e H. now apply parse_time_string_raises in H.
  - intros s b1 b2. apply try_formats_base.
Qed.

Lemma parse_time_string_result_witness :
  parse_time_string (str " 2:30 PM ") (mkdt 738946 17 45 12 99) = Ok (mkdt 738946 14 30 0 0)
  /\ ordinal (mkdt 738946 14 30 0 0) = ordinal (mkdt 738946 17 45 12 99).
Proof.
  split; [reflexivity|].
  exact (proj1 (proj1 parse_time_string_result (str " 2:30 PM ") (mkdt 738946 17 45 12 99)
                  (mkdt 738946 14 30 0 0) eq_refl)).
Defined.

(** The grid strategy reads its labels with [label_time]. *)
Lemma grid_row_label (headers : list pystr) (date : datetime) (row : node) :
  grid_row headers date row =
  match find_all cell_tags row with
  | [] => Ok []
  | cell0 :: rest =>
      match label_time (get_text [] true cell0) with
      | None => Ok []
      | Some (hour, minute) =>
          slot_time <- replace_hm date hour minute ;;
          for_each (grid_cell headers date slot_time hour) (enumerate 1 rest)
      end
  end.
Proof.
  unfold grid_row, label_time. destruct (find_all cell_tags row); [reflexivity|].
  now destruct (re_match time_label_re _).
Qed.

Lemma labels_read :
  forallb (fun h => forallb (fun m =>
    forallb (fun pad =>
      label_agrees (Token.clock_24h pad h m) h m
      && forallb (fun low =>
           forallb (fun tight => label_agrees (Token.clock_12h pad low tight h m) h m) bools
           && match label_time (Token.bare_hour pad low h) with
              | None => true | Some _ => false end)
         bools)
      bools) (upto 60)) (upto 24) = true.
Proof. vm_compute. reflexivity. Qed.

Lemma label_agrees_spec (token : pystr) (h m : Z) :
  label_agrees token h m = true -> label_time token = Some (h, m).
Proof.
  unfold label_agrees. destruct (label_time token) as [[h' m']|]; [|discriminate].
  intro H. apply andb_true_iff in H as [H1 H2]. apply Z.eqb_eq in H1, H2. now subst.
Qed.

(** X7.  The grid strategy of [parse_time_slots] reads its time labels
    with a pattern of its own, [parse_time_string] with [strptime]; on
    every clock reading, 12-hour with its meridiem or 24-hour, the two
    find the same hour and minute.  They differ on a bare hour such as
    "2 PM": [parse_time_string] reads it, the grid has no label in it and
    passes the row over. *)
Theorem grid_label_agrees_with_parse_time_string (day : datetime) (h m : Z) :
  0 <= h <= 23 -> 0 <= m <= 59 ->
  (forall pad low tight,
      label_time (Token.clock_12h pad low tight h m) = Some (h, m)
      /\ parse_time_string (Token.clock_12h pad low tight h m) day = replace_hm day h m)
  /\ (forall pad,
        label_time (Token.clock_24h pad h m) = Some (h, m)
        /\ parse_time_string (Token.clock_24h pad h m) day = replace_hm day h m)
  /\ (forall pad low,
        label_time (Token.bare_hour pad low h) = None
        /\ parse_time_string (Token.bare_hour pad low h) day = replace_hm day h 0).
Proof.
  intros Hh Hm.
  assert (Hrep : forall mi, 0 <= mi <= 59 ->
            replace_hm day h mi = Ok (mkdt (ordinal day) h mi 0 0)).
  { intros mi Hmi. unfold replace_hm.
    replace ((0 <=? h) && (h <=? 23) && (0 <=? mi) && (mi <=? 59)) with true; [reflexivity|].
    symmetry. repeat (apply andb_true_iff; split); apply Z.leb_le; lia. }
  pose proof labels_read as L. rewrite forallb_forall in L.
  specialize (L h (In_upto 24 h ltac:(lia))). rewrite forallb_forall in L.
  pose proof (L 0 (In_upto 60 0 ltac:(lia))) as L0.
  specialize (L m (In_upto 60 m ltac:(lia))). rewrite forallb_forall in L, L0.
  pose proof clocks_read as E. rewrite forallb_forall in E.
  specialize (E h (In_upto 24 h ltac:(lia))). rewrite forallb_forall in E.
  pose proof (E 0 (In_upto 60 0 ltac:(lia))) as E0.
  specialize (E m (In_upto 60 m ltac:(lia))). rewrite forallb_forall in E, E0.
  split; [|split].
  - intros pad low tight.
    specialize (L pad (In_bools pad)). apply andb_true_iff in L as [_ L].
    rewrite forallb_forall in L. specialize (L low (In_bools low)).
    apply andb_true_iff in L as [L _]. rewrite forallb_forall in L.
    specialize (E pad (In_bools pad)). apply andb_true_iff in E as [_ E].
    rewrite forallb_forall in E. specialize (E low (In_bools low)).
    apply andb_true_iff in E as [E _]. rewrite forallb_forall in E.
    split; [apply label_agrees_spec, L, In_bools|].
    rewrite Hrep by assumption. apply reads_parse, E, In_bools.
  - intro pad.
    specialize (L pad (In_bools pad)). apply andb_true_iff in L as [L _].
    specialize (E pad (In_bools pad)). apply andb_true_iff in E as [E _].
    split; [now apply label_agrees_spec|].
    rewrite Hrep by assumption. now apply reads_parse.
  - intros pad low.
    specialize (L pad (In_bools pad)). apply andb_true_iff in L as [_ L].
    rewrite forallb_forall in L. specialize (L low (In_bools low)).
    apply andb_true_iff in L as [_ L].
    specialize (E0 pad (In_bools pad)). apply andb_true_iff in E0 as [_ E0].
    rewrite forallb_forall in E0. specialize (E0 low (In_bools low)).
    apply andb_true_iff in E0 as [_ E0]. simpl in E0.
    split.
    + now destruct (label_time (Token.bare_hour pad low h)).
    + rewrite Hrep by lia. now apply reads_parse.
Qed.

Lemma grid_label_agrees_with_parse_time_string_witness :
  label_time (str "2:30 PM") = Some (14, 30)
  /\ parse_time_string (str "2:30 PM") (Ex.march 1) = replace_hm (Ex.march 1) 14 30.
Proof.
  exact (proj1 (grid_label_agrees_with_parse_time_string (Ex.march 1) 14 30
                  ltac:(lia) ltac:(lia)) false false false).
Defined.

(** *** Every record, strategy by strategy *)

(** What holds of the records of a reserved cell, of a JSON object and of
    an element holds of every record of the page. *)
Lemma parse_time_slots_records (rt : runtime) (day : datetime) (P : record -> Prop) :
  (forall headers h mi slot_time ic rs r,
      replace_hm day h mi = Ok slot_time ->
      grid_cell headers day slot_time h ic = Ok rs -> In r rs -> P r) ->
  (forall item r, extract_from_json_item rt item day = Ok (Some r) -> P r) ->
  (forall element r, extract_from_element element day = Ok (Some r) -> P r) ->
  forall html rs r, parse_time_slots rt html day = Ok rs -> In r rs -> P r.
Proof.
  intros Hgrid Hjson Helem html rs r H Hin. unfold parse_time_slots in H.
  destruct html as [|n html]; [injection H as <-; contradiction|].
  apply bind_ok in H as (r1 & H1 & H). apply bind_ok in H as (r2 & H2 & H).
  apply bind_ok in H as (r3 & H3 & H). injection H as <-.
  apply in_app_or in Hin as [Hin | Hin]; [|apply in_app_or in Hin as [Hin | Hin]].
  - unfold strategy1 in H1.
    destruct (for_each_In _ _ _ _ H1 Hin) as (t & rs1 & _ & Ht & Hin1).
    unfold grid_table in Ht. destruct (_ <? 3)%nat; [injection Ht as <-; contradiction|].
    destruct (find_all [str "tr"] t) as [|header_row data_rows];
      [injection Ht as <-; contradiction|].
    destruct (negb _); [injection Ht as <-; contradiction|].
    destruct (for_each_In _ _ _ _ Ht Hin1) as (row & rs2 & _ & Hr & Hin2).
    rewrite grid_row_label in Hr.
    destruct (find_all cell_tags row) as [|cell0 rest]; [injection Hr as <-; contradiction|].
    destruct (label_time _) as [[h mi]|]; [|injection Hr as <-; contradiction].
    apply bind_ok in Hr as (slot_time & Hslot & Hr).
    destruct (for_each_In _ _ _ _ Hr Hin2) as (ic & rs3 & _ & Hc & Hin3).
    eapply Hgrid; eauto.
  - unfold strategy2 in H2.
    destruct (for_each_In _ _ _ _ H2 Hin) as (script & rs1 & _ & Hs & Hin1).
    unfold script_records in Hs.
    destruct (for_each_In _ _ _ _ Hs Hin1) as (m & rs2 & _ & Hm & Hin2).
    unfold json_match in Hm.
    destruct (json_loads rt _) as [data|[]];
      try discriminate Hm; try (injection Hm as <-; contradiction).
    destruct (for_each_In _ _ _ _ Hm Hin2) as (item & rs3 & _ & Hi & Hin3).
    destruct item; try (injection Hi as <-; contradiction).
    apply bind_ok in Hi as (o & Ho & Hi). injection Hi as <-.
    apply option_list_In in Hin3 as ->. eapply Hjson; eauto.
  - unfold strategy3 in H3.
    destruct (for_each_In _ _ _ _ H3 Hin) as (sel & rs1 & _ & Hs & Hin1).
    destruct (for_each_In _ _ _ _ Hs Hin1) as (el & rs2 & _ & He & Hin2).
    unfold element_records in He.
    apply bind_ok in He as (o & Ho & He). injection He as <-.
    apply option_list_In in Hin2 as ->. eapply Helem; eauto.
Qed.

Lemma strftime_HM_clock (t : datetime) : strftime_HM t = clock (hour t) (minute t).
Proof. reflexivity. Qed.

(** X8.  Every record [parse_time_slots] returns has the calendar columns
    of the day it was called with (weekday name, month and ISO week), an
    hour of day from 0 to 23, and a start time that is that hour with a
    minute from 0 to 59, written HH:MM. *)
Theorem record_columns_consistent (rt : runtime) (html : soup) (day : datetime)
    (rs : list record) (r : record) :
  parse_time_slots rt html day = Ok rs -> In r rs ->
  date r = strftime_Ymd day /\ day_of_week r = strftime_A day
  /\ month r = month_of day /\ week_of_year r = iso_week day
  /\ 0 <= hour_of_day r <= 23
  /\ exists m, 0 <= m <= 59 /\ start_time r = clock (hour_of_day r) m.
Proof.
  apply (parse_time_slots_records rt day
           (fun r => date r = strftime_Ymd day /\ day_of_week r = strftime_A day
                     /\ month r = month_of day /\ week_of_year r = iso_week day
                     /\ 0 <= hour_of_day r <= 23
                     /\ exists m, 0 <= m <= 59 /\ start_time r = clock (hour_of_day r) m)).
  - intros headers h mi slot_time [col_idx cell] rs0 r0 Hslot Hc Hin.
    apply replace_hm_ok in Hslot as (-> & Hh & Hmi).
    unfold grid_cell in Hc. destruct (is_reserved _ _); [|injection Hc as <-; contradiction].
    apply bind_ok in Hc as (end_dt & _ & Hc). injection Hc as <-.
    destruct Hin as [<- | []]. fields. repeat split; try lia.
    exists mi. split; [lia | reflexivity].
  - intros item r0 H. unfold extract_from_json_item in H.
    destruct (negb _); [discriminate|].
    apply try_except_ok in H as [H | H]; [|discriminate].
    apply bind_ok in H as (s & Hs & H). apply bind_ok in H as (e & _ & H).
    injection H as <-. apply parse_time_string_ok in Hs as (_ & Hh & Hm & _).
    fields. repeat split; try lia. exists (minute s). split; [lia | reflexivity].
  - intros element r0 H. unfold extract_from_element in H.
    destruct (re_search time_range_re _); [|discriminate].
    apply try_except_ok in H as [H | H]; [|discriminate].
    apply bind_ok in H as (s & Hs & H). apply bind_ok in H as (e & _ & H).
    injection H as <-. apply parse_time_string_ok in Hs as (_ & Hh & Hm & _).
    fields. repeat split; try lia. exists (minute s). split; [lia | reflexivity].
Qed.

Lemma record_columns_consistent_witness :
  exists rs r,
    parse_time_slots Ex.rt0 Ex.page_two_signals (Ex.march 1) = Ok rs /\ In r rs
    /\ 0 <= hour_of_day r <= 23
    /\ exists m, 0 <= m <= 59 /\ start_time r = clock (hour_of_day r) m.
Proof.
  eexists _, _. split; [vm_compute; reflexivity|]. split; [left; reflexivity|].
  apply (record_columns_consistent Ex.rt0 Ex.page_two_signals (Ex.march 1) _ _ eq_refl).
  left; reflexivity.
Defined.

(** X9.  A record of the grid strategy ends half an hour after it
    starts, on the clock: a slot that starts at 23:30 or later ends after
    midnight, at 00:00 or later, on a record that keeps the date of the
    day. *)
Theorem grid_record_span (rt : runtime) (html : soup) (day : datetime)
    (rs : list record) (r : record) :
  parse_time_slots rt html day = Ok rs -> In r rs ->
  source r = str "grid_table" ->
  exists h m,
    0 <= h <= 23 /\ 0 <= m <= 59
    /\ start_time r = clock h m
    /\ end_time r = clock ((h * 60 + m + 30) mod 1440 / 60) ((h * 60 + m + 30) mod 60)
    /\ duration_hours r = 50 /\ date r = strftime_Ymd day.
Proof.
  apply (parse_time_slots_records rt day
           (fun r => source r = str "grid_table" ->
              exists h m,
                0 <= h <= 23 /\ 0 <= m <= 59
                /\ start_time r = clock h m
                /\ end_time r = clock ((h * 60 + m + 30) mod 1440 / 60)
                                      ((h * 60 + m + 30) mod 60)
                /\ duration_hours r = 50 /\ date r = strftime_Ymd day)).
  - intros headers h mi slot_time [col_idx cell] rs0 r0 Hslot Hc Hin _.
    apply replace_hm_ok in Hslot as (-> & Hh & Hmi).
    unfold grid_cell in Hc. destruct (is_reserved _ _); [|injection Hc as <-; contradiction].
    apply bind_ok in Hc as (end_dt & Hadd & Hc). injection Hc as <-.
    destruct Hin as [<- | []]. fields. exists h, mi.
    repeat split; try lia.
    unfold add_timedelta in Hadd. cbn [ordinal hour minute second microsecond] in Hadd.
    destruct ((0 <? _) && _) in Hadd; [|discriminate]. injection Hadd as <-.
    unfold strftime_HM, clock. cbn [hour minute].
    replace (((h * 60 + mi) * 60 + 0 + 1800) mod 86400 / 3600)
      with ((h * 60 + mi + 30) mod 1440 / 60) by (Z.div_mod_to_equations; lia).
    replace (((h * 60 + mi) * 60 + 0 + 1800) mod 86400 mod 3600 / 60)
      with ((h * 60 + mi + 30) mod 60) by (Z.div_mod_to_equations; lia).
    reflexivity.
  - intros item r0 H Hsrc. apply json_item_facts in H as (_ & _ & _ & Hj).
    rewrite Hj in Hsrc. discriminate.
  - intros element r0 H Hsrc. apply element_facts in H as (_ & _ & _ & He).
    rewrite He in Hsrc. discriminate.
Qed.

Lemma grid_record_span_witness :
  exists r,
    parse_time_slots Ex.rt0 Cases.page_late_slot (Ex.march 1) = Ok [r]
    /\ exists h m,
        0 <= h <= 23 /\ 0 <= m <= 59
        /\ start_time r = clock h m
        /\ end_time r = clock ((h * 60 + m + 30) mod 1440 / 60) ((h * 60 + m + 30) mod 60)
        /\ duration_hours r = 50 /\ date r = strftime_Ymd (Ex.march 1).
Proof.
  eexists. split; [vm_compute; reflexivity|].
  apply (grid_record_span Ex.rt0 Cases.page_late_slot (Ex.march 1) _ _ eq_refl);
    [left|]; reflexivity.
Defined.

(** *** Where the extraction can raise *)










(** X11.  A JSON object with a start and no end, or a null, empty or
    zero end, is given an end one hour after its start, on the clock: a
    start at 23:15 gives 23:15 to 00:15, with a duration of one hour.  On
    the last day of the calendar a start in the hour of 23 makes
    [extract_from_json_item] raise [OverflowError], which its handler
    does not catch. *)
Theorem json_item_without_end (rt : runtime) (item : list (pystr * json))
    (day s : datetime) :
  1 <= ordinal day <= MAXORDINAL ->
  truthy (first_present time_keys item JNull) = true ->
  truthy (first_present end_keys item JNull) = false ->
  parse_time_string (json_start rt item) day = Ok s ->
  if (ordinal day =? MAXORDINAL) && (hour s =? 23)
  then extract_from_json_item rt item day = Raise OverflowError
  else exists r,
      extract_from_json_item rt item day = Ok (Some r)
      /\ start_time r = clock (hour s) (minute s)
      /\ end_time r = clock ((hour s + 1) mod 24) (minute s)
      /\ duration_hours r = 100.
Proof.
  intros Hd Hstart Hend Hs. unfold extract_from_json_item, json_start in *.
  rewrite Hstart, Hend, Hs. cbn [negb bind].
  destruct (parse_time_string_ok _ _ _ Hs) as (Ho & Hh & Hm & Hsec & Hus).
  unfold add_timedelta. rewrite Ho, Hsec.
  assert (Hq : ((hour s * 60 + minute s) * 60 + 0 + 3600) / 86400
               = if hour s =? 23 then 1 else 0).
  { destruct (Z.eqb_spec (hour s) 23); Z.div_mod_to_equations; lia. }
  rewrite Hq.
  destruct (Z.eqb_spec (ordinal day) MAXORDINAL) as [Hlast|Hlast];
    destruct (Z.eqb_spec (hour s) 23) as [H23|H23]; cbn [andb].
  - rewrite Hlast. reflexivity.
  - replace ((0 <? ordinal day + 0 + 0) && (ordinal day + 0 + 0 <=? MAXORDINAL)) with true
      by (symmetry; apply andb_true_iff; split; [apply Z.ltb_lt | apply Z.leb_le]; lia).
    cbn [try_except bind]. eexists. split; [reflexivity|]. fields.
    unfold strftime_HM, clock. cbn [hour minute].
    split; [reflexivity|]. split.
    + replace (((hour s * 60 + minute s) * 60 + 0 + 3600) mod 86400 / 3600)
        with ((hour s + 1) mod 24) by (Z.div_mod_to_equations; lia).
      replace (((hour s * 60 + minute s) * 60 + 0 + 3600) mod 86400 mod 3600 / 60)
        with (minute s) by (Z.div_mod_to_equations; lia).
      reflexivity.
    + unfold sub_seconds, time_key. cbn [hour minute second microsecond].
      rewrite Hsec. unfold round2_hours. Z.div_mod_to_equations. lia.
  - replace ((0 <? ordinal day + 0 + 1) && (ordinal day + 0 + 1 <=? MAXORDINAL)) with true
      by (symmetry; apply andb_true_iff; split; [apply Z.ltb_lt | apply Z.leb_le]; lia).
    cbn [try_except bind]. eexists. split; [reflexivity|]. fields.
    unfold strftime_HM, clock. cbn [hour minute].
    split; [reflexivity|]. split.
    + replace (((hour s * 60 + minute s) * 60 + 0 + 3600) mod 86400 / 3600)
        with ((hour s + 1) mod 24) by (Z.div_mod_to_equations; lia).
      replace (((hour s * 60 + minute s) * 60 + 0 + 3600) mod 86400 mod 3600 / 60)
        with (minute s) by (Z.div_mod_to_equations; lia).
      reflexivity.
    + unfold sub_seconds, time_key. cbn [hour minute second microsecond].
      rewrite Hsec. unfold round2_hours. Z.div_mod_to_equations. lia.
  - replace ((0 <? ordinal day + 0 + 0) && (ordinal day + 0 + 0 <=? MAXORDINAL)) with true
      by (symmetry; apply andb_true_iff; split; [apply Z.ltb_lt | apply Z.leb_le]; lia).
    cbn [try_except bind]. eexists. split; [reflexivity|]. fields.
    unfold strftime_HM, clock. cbn [hour minute].
    split; [reflexivity|]. split.
    + replace (((hour s * 60 + minute s) * 60 + 0 + 3600) mod 86400 / 3600)
        with ((hour s + 1) mod 24) by (Z.div_mod_to_equations; lia).
      replace (((hour s * 60 + minute s) * 60 + 0 + 3600) mod 86400 mod 3600 / 60)
        with (minute s) by (Z.div_mod_to_equations; lia).
      reflexivity.
    + unfold sub_seconds, time_key. cbn [hour minute second microsecond].
      rewrite Hsec. unfold round2_hours. Z.div_mod_to_equations. lia.
Qed.

Lemma json_item_without_end_witness :
  extract_from_json_item Ex.rt0 Cases.open_item Cases.last_day = Raise OverflowError
  /\ exists r,
      extract_from_json_item Ex.rt0 Cases.open_item (Ex.march 1) = Ok (Some r)
      /\ start_time r = clock 23 15 /\ end_time r = clock 0 15 /\ duration_hours r = 100.
Proof.
  split.
  - exact (json_item_without_end Ex.rt0 Cases.open_item Cases.last_day
             (mkdt MAXORDINAL 23 15 0 0)
             ltac:(vm_compute; split; discriminate) eq_refl eq_refl eq_refl).
  - exact (json_item_without_end Ex.rt0 Cases.open_item (Ex.march 1)
             (mkdt (ordinal (Ex.march 1)) 23 15 0 0)
             ltac:(vm_compute; split; discriminate) eq_refl eq_refl eq_refl).
Defined.

(** *** The page of a day *)

Lemma try_endpoints_result (get : pystr -> list (pystr * pystr) -> Requests.reply)
    (params : list (pystr * pystr)) (l asked0 : list pystr) :
  match try_endpoints get params l asked0 with
  | (asked, Some page) =>
      exists before endpoint after,
        l = before ++ endpoint :: after /\ asked = asked0 ++ before ++ [endpoint]
        /\ page_of (get endpoint params) = Some page
        /\ (forall e, In e before -> page_of (get e params) = None)
  | (asked, None) =>
      asked = asked0 ++ l /\ forall e, In e l -> page_of (get e params) = None
  end.
Proof.
  revert asked0. induction l as [|endpoint l IH]; intro asked0; cbn [try_endpoints].
  - split; [now rewrite app_nil_r | contradiction].
  - assert (Hnext : page_of (get endpoint params) = None ->
              match try_endpoints get params l (asked0 ++ [endpoint]) with
              | (asked, Some page) =>
                  exists before e after,
                    endpoint :: l = before ++ e :: after /\ asked = asked0 ++ before ++ [e]
                    /\ page_of (get e params) = Some page
                    /\ (forall e', In e' before -> page_of (get e' params) = None)
              | (asked, None) =>
                  asked = asked0 ++ endpoint :: l
                  /\ forall e, In e (endpoint :: l) -> page_of (get e params) = None
              end).
    { intro Hnone. specialize (IH (asked0 ++ [endpoint])).
      destruct (try_endpoints get params l (asked0 ++ [endpoint])) as [asked [page|]].
      - destruct IH as (before & e & after & -> & -> & Hp & Hb).
        exists (endpoint :: before), e, after. rewrite <- app_assoc.
        repeat split; try assumption. intros e' [<- | He']; auto.
      - destruct IH as [-> Hall]. rewrite <- app_assoc. split; [reflexivity|].
        intros e [<- | He]; auto. }
    unfold page_of in Hnext at 1.
    destruct (get endpoint params) as [resp|] eqn:Eg; [|now apply Hnext].
    destruct ((Requests.status_code resp =? 200)
              && (500 <? Z.of_nat (List.length (Requests.text resp)))) eqn:Eok;
      [|now apply Hnext].
    exists [], endpoint, l. repeat split; try contradiction.
    unfold page_of. now rewrite Eg, Eok.
Qed.

Lemma page_of_long (r : Requests.reply) (page : pystr) :
  page_of r = Some page -> 500 < Z.of_nat (List.length page).
Proof.
  unfold page_of. destruct r as [resp|]; [|discriminate].
  destruct (Requests.status_code resp =? 200); [|discriminate].
  destruct (500 <? _) eqn:E; [|discriminate].
  intro H. injection H as <-. now apply Z.ltb_lt.
Qed.

(** X12.  [fetch_availability_page] asks the three endpoints in their
    order and stops at the first that answers with status 200 and more
    than 500 characters: the page returned is that answer, the endpoints
    before it were asked and gave no such answer, and the endpoints after
    it are not asked.  It returns nothing exactly when all three were
    asked and none gave such an answer.  A page it returns is never
    empty. *)
Theorem fetch_stops_at_first_page (get : pystr -> list (pystr * pystr) -> Requests.reply)
    (date : datetime) :
  match fetch_availability_page get date with
  | (asked, Some page) =>
      exists before endpoint after,
        endpoints = before ++ endpoint :: after /\ asked = before ++ [endpoint]
        /\ page_of (get endpoint (day_params date)) = Some page
        /\ (forall e, In e before -> page_of (get e (day_params date)) = None)
        /\ 500 < Z.of_nat (List.length page)
  | (asked, None) =>
      asked = endpoints
      /\ forall e, In e endpoints -> page_of (get e (day_params date)) = None
  end.
Proof.
  unfold fetch_availability_page.
  pose proof (try_endpoints_result get (day_params date) endpoints []) as H.
  change [(str "date", strftime_mdY date); (str "view", str "day")] with (day_params date).
  destruct (try_endpoints get (day_params date) endpoints []) as [asked [page|]].
  - destruct H as (before & endpoint & after & E & -> & Hp & Hb).
    exists before, endpoint, after. repeat split; try assumption.
    now apply page_of_long in Hp.
  - exact H.
Qed.

Lemma fetch_stops_at_first_page_witness :
  exists page,
    fetch_availability_page second_answers (Ex.march 1) =
      ([BASE_URL ++ str "/BrowseAvailability.aspx"; BASE_URL ++ str "/RoomRequest.aspx"],
       Some page)
    /\ 500 < Z.of_nat (List.length page).
Proof.
  pose proof (fetch_stops_at_first_page second_answers (Ex.march 1)) as H.
  destruct (fetch_availability_page second_answers (Ex.march 1)) as [asked [page|]] eqn:E.
  - destruct H as (before & endpoint & after & _ & _ & _ & _ & Hlen).
    vm_compute in E. injection E as <- <-. eexists. split; [reflexivity|].
    exact Hlen.
  - vm_compute in E. discriminate E.
Defined.

(** *** The range of days *)

Lemma date_match (y mo d : Z) :
  1 <= mo <= 12 -> 1 <= d <= 31 ->
  exists t last,
  re_match date_regex (date_text y mo d) =
  Some (MatchObj t
          [(chr "d", two_digits d); (chr "m", two_digits mo); (chr "Y", four_digits y)]
          last []).
Proof.
  intros Hmo Hd. eexists _, _.
  change (date_text y mo d)
    with (four_digits y ++ 45%N :: two_digits mo ++ 45%N :: two_digits d ++ []).
  unfold re_match, match_at, date_regex. cbn [cat].
  apply run_seq. unfold four_digits at 1. cbn [app].
  rewrite run_year by (apply digit_cp_is_digit, mod10).
  apply run_seq, run_chr; [reflexivity|].
  apply run_seq, run_month; [assumption|].
  apply run_seq, run_chr; [reflexivity|].
  apply run_seq, run_day; [assumption|].
  cbn [run]. reflexivity.
Qed.

(** [strptime] reads a date written [YYYY-MM-DD] as [datetime(y, m, d)]. *)
Lemma strptime_date (y mo d : Z) :
  0 <= y <= 9999 -> 1 <= mo <= 12 -> 1 <= d <= 31 ->
  strptime (date_text y mo d) (str "%Y-%m-%d") = make_datetime y mo d 0 0 0.
Proof.
  intros Hy Hmo Hd. unfold strptime.
  change (pattern (str "%Y-%m-%d")) with (Some date_regex).
  destruct (date_match y mo d Hmo Hd) as (t & last & ->).
  cbn [m_rest groups].
  change (group (chr "I") _) with (@None pystr). cbv iota.
  unfold field.
  change (group (chr "Y") _) with (Some (four_digits y)).
  change (group (chr "m") _) with (Some (two_digits mo)).
  change (group (chr "d") _) with (Some (two_digits d)).
  change (group (chr "H") _) with (@None pystr).
  change (group (chr "M") _) with (@None pystr).
  change (group (chr "S") _) with (@None pystr).
  cbv iota. rewrite py_int_four_digits, !py_int_two_digits by lia.
  reflexivity.
Qed.

Lemma days_range (now : datetime) (args : Args.t) :
  given (Args.start args) = false ->
  1 <= ordinal now <= MAXORDINAL ->
  date_range now args =
    if (ordinal now - MAXORDINAL <? Args.days args) && (Args.days args <=? ordinal now)
    then Ok (plus_days (midnight now) (1 - Args.days args), midnight now)
    else Raise OverflowError.
Proof.
  intros Hstart Hnow. unfold date_range, timedelta_days, MAXORDINAL in *.
  rewrite Hstart. cbn [andb].
  destruct ((-999999999 <=? Args.days args - 1) && (Args.days args - 1 <=? 999999999)) eqn:Ed;
    cbn [bind].
  - unfold add_timedelta, midnight, plus_days, MAXORDINAL.
    cbn [ordinal hour minute second microsecond].
    change (((0 * 60 + 0) * 60 + 0 + 0) / 86400) with 0.
    replace (ordinal now + - (Args.days args - 1) + 0)
      with (ordinal now + (1 - Args.days args)) by lia.
    replace (0 <? ordinal now + (1 - Args.days args)) with (Args.days args <=? ordinal now)
      by (apply eq_true_iff_eq; rewrite Z.leb_le, Z.ltb_lt; lia).
    replace (ordinal now + (1 - Args.days args) <=? 3652059)
      with (ordinal now - 3652059 <? Args.days args)
      by (apply eq_true_iff_eq; rewrite Z.leb_le, Z.ltb_lt; lia).
    destruct (Args.days args <=? ordinal now), (ordinal now - 3652059 <? Args.days args);
      reflexivity.
  - replace ((ordinal now - 3652059 <? Args.days args) && (Args.days args <=? ordinal now))
      with false; [reflexivity|].
    symmetry. apply andb_false_iff. apply andb_false_iff in Ed.
    rewrite Z.ltb_ge, Z.leb_gt. rewrite Z.leb_gt, Z.leb_gt in Ed. lia.
Qed.

(** X13.  The range of [main] when [--start] is not given, or is the
    empty string: it ends today and starts [--days] less one days before,
    both at midnight.  [--end] plays no part in it, so that [--end]
    alone is ignored.  A number of days that would put the start outside
    the calendar, before year 1 or after year 9999, makes [main] raise
    [OverflowError] before any page is asked for; with [--days] zero or
    negative the start is after the end, no page is asked for and the
    dataset is empty. *)
Theorem days_option (rt : runtime) (fetch : datetime -> option soup) (now : datetime)
    (args : Args.t) :
  given (Args.start args) = false ->
  1 <= ordinal now <= MAXORDINAL ->
  date_range now args =
    (if (ordinal now - MAXORDINAL <? Args.days args) && (Args.days args <=? ordinal now)
     then Ok (plus_days (midnight now) (1 - Args.days args), midnight now)
     else Raise OverflowError)
  /\ (Args.days args <= ordinal now - MAXORDINAL \/ ordinal now < Args.days args ->
      main_collect rt fetch now args = ([], Raise OverflowError))
  /\ (ordinal now - MAXORDINAL < Args.days args <= 0 ->
      main_collect rt fetch now args = ([], Ok [])).
Proof.
  intros Hstart Hnow. pose proof (days_range now args Hstart Hnow) as E.
  split; [exact E|]. unfold main_collect. rewrite E. split.
  - intro H.
    replace ((ordinal now - MAXORDINAL <? Args.days args) && (Args.days args <=? ordinal now))
      with false; [reflexivity|].
    symmetry. apply andb_false_iff. rewrite Z.ltb_ge, Z.leb_gt. lia.
  - intro H.
    replace ((ordinal now - MAXORDINAL <? Args.days args) && (Args.days args <=? ordinal now))
      with true
      by (symmetry; apply andb_true_iff; rewrite Z.ltb_lt, Z.leb_le; lia).
    unfold collect_date_range. rewrite collect_loop_exit; [reflexivity|].
    unfold dt_leb, plus_days, midnight. cbn [ordinal hour minute second microsecond].
    apply orb_false_iff. split; [apply Z.ltb_ge; lia|].
    apply andb_false_iff. left. apply Z.eqb_neq. lia.
Qed.

Lemma days_option_witness :
  date_range (Ex.march 3) (Args.Make None (Some (str "2024-01-01")) 3 (Finite (3 # 2))) =
    Ok (Ex.march 1, Ex.march 3)
  /\ main_collect Ex.rt0 (fun _ => Some Ex.page_three_rows) (Ex.march 3)
       (Args.Make None None 0 (Finite (3 # 2))) = ([], Ok []).
Proof.
  assert (Hnow : 1 <= ordinal (Ex.march 3) <= MAXORDINAL)
    by (vm_compute; split; discriminate).
  split.
  - exact (proj1 (days_option Ex.rt0 (fun _ => None) (Ex.march 3)
                    (Args.Make None (Some (str "2024-01-01")) 3 (Finite (3 # 2))) eq_refl Hnow)).
  - apply (days_option Ex.rt0 (fun _ => Some Ex.page_three_rows) (Ex.march 3)
             (Args.Make None None 0 (Finite (3 # 2))) eq_refl Hnow).
    vm_compute. split; [reflexivity | discriminate].
Defined.

(** X14.  [main] with [--days n], [n] at least 1, no [--start] and a
    [--delay] that [time.sleep] accepts (it raises on a negative delay,
    on a NaN and on a delay too large for its clock): when the
    extraction of every page returns, the pages asked for are those of
    the [n] days that end today, the oldest first, each once and each
    followed by the delay. *)
Theorem days_option_visits_last_days (rt : runtime) (fetch : datetime -> option soup)
    (now : datetime) (args : Args.t) :
  given (Args.start args) = false ->
  1 <= Args.days args <= ordinal now -> ordinal now < MAXORDINAL ->
  time_sleep rt (Args.delay args) = Ok tt ->
  (forall d, exists rs, day_records rt fetch d = Ok rs) ->
  fst (main_collect rt fetch now args) =
  run_trace (Args.delay args)
    (days_from (plus_days (midnight now) (1 - Args.days args)) (Z.to_nat (Args.days args))).
Proof.
  intros Hstart Hdays Hnow Hsleep Hret. unfold main_collect.
  rewrite (days_range now args Hstart) by lia.
  replace ((ordinal now - MAXORDINAL <? Args.days args) && (Args.days args <=? ordinal now))
    with true
    by (symmetry; apply andb_true_iff; rewrite Z.ltb_lt, Z.leb_le; lia).
  unfold collect_date_range.
  rewrite (collect_loop_range rt fetch (Args.delay args) _ _ (Z.to_nat (Args.days args))
             (fun d => match day_records rt fetch d with Ok rs => rs | Raise _ => [] end)).
  - now destruct (flat_map _ _).
  - intros _. exact Hsleep.
  - unfold valid_time_of_day. cbn [plus_days midnight hour minute second]. lia.
  - cbn [plus_days midnight ordinal]. lia.
  - cbn [plus_days midnight ordinal]. unfold MAXORDINAL in *. lia.
  - intros d Hd. apply In_days_from in Hd as (k & Hk & ->). split.
    + unfold dt_leb, plus_days, midnight. cbn [ordinal hour minute second microsecond].
      destruct (Z.ltb_spec (ordinal now + (1 - Args.days args) + k) (ordinal now));
        [reflexivity|].
      replace (ordinal now + (1 - Args.days args) + k =? ordinal now) with true
        by (symmetry; apply Z.eqb_eq; lia).
      reflexivity.
    + destruct (Hret (plus_days (plus_days (midnight now) (1 - Args.days args)) k)) as [rs ->].
      reflexivity.
  - unfold dt_leb, plus_days, midnight. cbn [ordinal hour minute second microsecond].
    apply orb_false_iff. split; [apply Z.ltb_ge; lia|].
    apply andb_false_iff. left. apply Z.eqb_neq. lia.
Qed.

Lemma days_option_visits_last_days_witness :
  fst (main_collect Ex.rt0 (fun _ => None) (Ex.march 3) (Args.Make None None 2 (Finite (3 # 2)))) =
  [Fetch (Ex.march 2); Sleep (Finite (3 # 2)); Fetch (Ex.march 3); Sleep (Finite (3 # 2))].
Proof.
  apply (days_option_visits_last_days Ex.rt0 (fun _ => None) (Ex.march 3)
           (Args.Make None None 2 (Finite (3 # 2))) eq_refl).
  - vm_compute. split; discriminate.
  - reflexivity.
  - reflexivity.
  - intro d. exists []. reflexivity.
Defined.

Lemma given_date_text (y m d : Z) : given (Some (date_text y m d)) = true.
Proof. reflexivity. Qed.

Lemma make_datetime_invalid (y m d : Z) :
  valid_date y m d = false -> make_datetime y m d 0 0 0 = Raise ValueError.
Proof. unfold make_datetime. now intros ->. Qed.

(** X15.  The range of [main] when [--start] is a date written
    [YYYY-MM-DD].  A day the calendar does not have, such as 30 February
    or a day of year 0, makes [main] raise [ValueError] before any page
    is asked for.  Otherwise the range starts at midnight of that day,
    and [--days] plays no part in it: it ends today when [--end] is not
    given, or is the empty string, and at midnight of the day of [--end]
    when that is a date of the calendar. *)
Theorem start_option (rt : runtime) (fetch : datetime -> option soup) (now : datetime)
    (args : Args.t) (y m d : Z) :
  Args.start args = Some (date_text y m d) ->
  0 <= y <= 9999 -> 1 <= m <= 12 -> 1 <= d <= 31 ->
  (valid_date y m d = false ->
   main_collect rt fetch now args = ([], Raise ValueError))
  /\ (valid_date y m d = true ->
      (given (Args.end_ args) = false ->
       date_range now args = Ok (mkdt (ymd2ord y m d) 0 0 0 0, midnight now))
      /\ (forall y' m' d',
            Args.end_ args = Some (date_text y' m' d') ->
            valid_date y' m' d' = true ->
            date_range now args =
            Ok (mkdt (ymd2ord y m d) 0 0 0 0, mkdt (ymd2ord y' m' d') 0 0 0 0))).
Proof.
  intros Hstart Hy Hm Hd.
  assert (Hs : strptime (option_text (Args.start args)) (str "%Y-%m-%d")
               = make_datetime y m d 0 0 0).
  { rewrite Hstart. now apply strptime_date. }
  split.
  - intro Hbad. unfold main_collect, date_range.
    rewrite Hs, (make_datetime_invalid _ _ _ Hbad), Hstart, given_date_text.
    now destruct (given (Args.end_ args)).
  - intro Hok. split.
    + intro Hend. unfold date_range.
      rewrite Hs, Hstart, given_date_text, Hend, make_datetime_ok by (assumption || lia).
      reflexivity.
    + intros y' m' d' Hend Hok'. unfold date_range.
      destruct (valid_date_range _ _ _ Hok') as (Hy' & Hm' & Hd').
      rewrite Hs, Hstart, Hend, !given_date_text, make_datetime_ok by (assumption || lia).
      cbn [option_text andb bind].
      rewrite strptime_date, make_datetime_ok by (assumption || lia).
      reflexivity.
Qed.

Lemma start_option_witness :
  main_collect Ex.rt0 (fun _ => None) (Ex.march 3)
    (Args.Make (Some (date_text 2023 2 30)) None 1 (Finite (3 # 2))) = ([], Raise ValueError)
  /\ date_range (Ex.march 3) (Args.Make (Some (date_text 2024 3 1)) None 1 (Finite (3 # 2)))
     = Ok (Ex.march 1, Ex.march 3).
Proof.
  split.
  - exact (proj1 (start_option Ex.rt0 (fun _ => None) (Ex.march 3)
                    (Args.Make (Some (date_text 2023 2 30)) None 1 (Finite (3 # 2))) 2023 2 30
                    eq_refl ltac:(lia) ltac:(lia) ltac:(lia)) eq_refl).
  - exact (proj1 (proj2 (start_option Ex.rt0 (fun _ => None) (Ex.march 3)
                           (Args.Make (Some (date_text 2024 3 1)) None 1 (Finite (3 # 2))) 2024 3 1
                           eq_refl ltac:(lia) ltac:(lia) ltac:(lia)) eq_refl) eq_refl).
Defined.

(* ------------------------------------------------------------------ *)
(** ** The calendar *)

Lemma scan_spec {A} (h : Z -> A) (c : Z -> A -> A -> bool) (lo : Z) (n : N) :
  scan h c lo n = true ->
  forall i, lo <= i < lo + Z.of_N n -> c i (h i) (h (i + 1)) = true.
Proof.
  unfold scan.
  assert (H : forall n,
             let st := N.iter n
                         (fun st : Z * A * bool =>
                            let '(i, x, ok) := st in
                            let y := h (i + 1) in
                            (i + 1, y, ok && c i x y))
                         (lo, h lo, true) in
             fst (fst st) = lo + Z.of_N n /\ snd (fst st) = h (lo + Z.of_N n)
             /\ (snd st = true ->
                 forall i, lo <= i < lo + Z.of_N n -> c i (h i) (h (i + 1)) = true)).
  { clear n. intro n. induction n as [|n IH] using N.peano_ind.
    - simpl. rewrite Z.add_0_r. repeat split. intros _ i Hi. lia.
    - rewrite N.iter_succ. cbv zeta in IH |- *.
      destruct (N.iter n _ _) as [[i x] ok]. cbn [fst snd] in IH |- *.
      destruct IH as (-> & -> & IH). rewrite N2Z.inj_succ.
      replace (lo + Z.succ (Z.of_N n)) with (lo + Z.of_N n + 1) by lia.
      repeat split. intros Hok j Hj. apply andb_true_iff in Hok as [Hok Hc].
      destruct (Z.eq_dec j (lo + Z.of_N n)) as [-> | Hne]; [exact Hc|].
      apply IH; [exact Hok | lia]. }
  intro Hok. apply (H n). exact Hok.
Qed.

Lemma first_cycle : scan ord2ymd cycle_day_ok 1 146097 = true.
Proof. vm_compute. reflexivity. Qed.

Lemma ord2ymd_later (n q : Z) :
  ord2ymd (n + 146097 * q) = later_by q (ord2ymd n).
Proof.
  unfold ord2ymd, later_by.
  replace (n + 146097 * q - 1) with (n - 1 + q * 146097) by lia.
  rewrite Z.div_add, Z.mod_add by lia.
  set (q0 := (n - 1) / 146097). set (r := (n - 1) mod 146097). cbv zeta.
  repeat match goal with
         | |- context [if ?c then _ else _] => destruct c
         end; f_equal; try f_equal; lia.
Qed.

Lemma is_leap_later (y q : Z) : is_leap (y + 400 * q) = is_leap y.
Proof.
  unfold is_leap.
  replace ((y + 400 * q) mod 4) with (y mod 4) by (Z.div_mod_to_equations; lia).
  replace ((y + 400 * q) mod 100) with (y mod 100) by (Z.div_mod_to_equations; lia).
  replace ((y + 400 * q) mod 400) with (y mod 400) by (Z.div_mod_to_equations; lia).
  reflexivity.
Qed.

Lemma ymd2ord_later (y m d q : Z) :
  ymd2ord (y + 400 * q) m d = ymd2ord y m d + 146097 * q.
Proof.
  unfold ymd2ord, days_before_month, days_before_year. rewrite is_leap_later.
  Z.div_mod_to_equations. lia.
Qed.

Lemma days_in_month_later (y m q : Z) : days_in_month (y + 400 * q) m = days_in_month y m.
Proof. unfold days_in_month. now rewrite is_leap_later. Qed.

Lemma date_ltb_later (q : Z) (a b : Z * Z * Z) :
  date_ltb (later_by q a) (later_by q b) = date_ltb a b.
Proof.
  destruct a as [[y m] d], b as [[y' m'] d']. unfold date_ltb, later_by.
  replace (y + 400 * q <? y' + 400 * q) with (y <? y')
    by (apply eq_true_iff_eq; rewrite !Z.ltb_lt; lia).
  replace (y + 400 * q =? y' + 400 * q) with (y =? y')
    by (apply eq_true_iff_eq; rewrite !Z.eqb_eq; lia).
  reflexivity.
Qed.

(** The date of a day of the calendar: it is a date [datetime] accepts,
    its ordinal is the day's, and the day after has a later date. *)
Lemma ord2ymd_facts (n : Z) :
  1 <= n <= MAXORDINAL ->
  match ord2ymd n with
  | (y, m, d) =>
      valid_date y m d = true /\ ymd2ord y m d = n
      /\ date_ltb (y, m, d) (ord2ymd (n + 1)) = true
  end.
Proof.
  unfold MAXORDINAL. intro Hn.
  set (q := (n - 1) / 146097). set (r := (n - 1) mod 146097 + 1).
  assert (Hq : 0 <= q <= 24) by (subst q; Z.div_mod_to_equations; lia).
  assert (Hr : 1 <= r < 1 + Z.of_N 146097) by (subst r; Z.div_mod_to_equations; lia).
  assert (En : n = r + 146097 * q) by (subst q r; Z.div_mod_to_equations; lia).
  pose proof (scan_spec _ _ _ _ first_cycle r Hr) as H.
  rewrite En. replace (r + 146097 * q + 1) with (r + 1 + 146097 * q) by lia.
  rewrite !ord2ymd_later.
  destruct (ord2ymd r) as [[y m] d]. cbn [later_by].
  change (y + 400 * q, m, d) with (later_by q (y, m, d)). rewrite date_ltb_later.
  unfold cycle_day_ok in H.
  repeat (apply andb_true_iff in H as [H ?]).
  repeat match goal with
         | H : (_ <=? _) = true |- _ => apply Z.leb_le in H
         | H : (_ =? _) = true |- _ => apply Z.eqb_eq in H
         end.
  split; [|split; [|assumption]].
  - unfold valid_date. rewrite days_in_month_later.
    assert (Hy : y <= 399 \/ q <= 23).
    { destruct (Z.leb_spec r 145731) as [Hle | Hgt].
      - left. match goal with H : implb true _ = true |- _ => simpl in H; apply Z.leb_le in H end.
        assumption.
      - right. subst r q. Z.div_mod_to_equations. lia. }
    repeat (apply andb_true_iff; split); apply Z.leb_le; lia.
  - rewrite ymd2ord_later. lia.
Qed.

(** *** Dates as text *)

Lemma str_ltb_app (x s t : pystr) : str_ltb (x ++ s) (x ++ t) = str_ltb s t.
Proof.
  induction x as [|c x IH]; [reflexivity|]. simpl.
  now rewrite N.ltb_irrefl, N.eqb_refl, IH.
Qed.

Lemma str_ltb_app_lt (x x' s t : pystr) :
  List.length x = List.length x' -> str_ltb x x' = true -> str_ltb (x ++ s) (x' ++ t) = true.
Proof.
  revert x'. induction x as [|c x IH]; intros [|c' x'] Hlen H; try discriminate.
  simpl in *. apply orb_true_iff in H as [H | H]; [now rewrite H|].
  apply andb_true_iff in H as [Hc H]. rewrite Hc, (IH x') by (assumption || lia).
  now rewrite orb_true_r.
Qed.

Lemma two_digits_lt (a b : Z) :
  0 <= a < b -> b <= 99 -> str_ltb (two_digits a) (two_digits b) = true.
Proof.
  intros Ha Hb.
  assert (E : forallb (fun a => forallb (fun b =>
                 implb (a <? b) (str_ltb (two_digits a) (two_digits b)))
                 (upto 100)) (upto 100) = true) by (vm_compute; reflexivity).
  rewrite forallb_forall in E. specialize (E a (In_upto 100 a ltac:(lia))).
  rewrite forallb_forall in E. specialize (E b (In_upto 100 b ltac:(lia))).
  replace (a <? b) with true in E by (symmetry; apply Z.ltb_lt; lia). exact E.
Qed.

Lemma four_digits_split (n : Z) :
  0 <= n <= 9999 -> four_digits n = two_digits (n / 100) ++ two_digits (n mod 100).
Proof.
  intro H. unfold four_digits, two_digits. cbn [app].
  replace (n / 100 / 10 mod 10) with (n / 1000 mod 10)
    by (Z.div_mod_to_equations; lia).
  replace (n mod 100 / 10 mod 10) with (n / 10 mod 10)
    by (Z.div_mod_to_equations; lia).
  replace (n mod 100 mod 10) with (n mod 10) by (Z.div_mod_to_equations; lia).
  reflexivity.
Qed.

Lemma four_digits_lt (a b : Z) :
  0 <= a < b -> b <= 9999 -> str_ltb (four_digits a) (four_digits b) = true.
Proof.
  intros Ha Hb. rewrite !four_digits_split by lia.
  destruct (Z.eq_dec (a / 100) (b / 100)) as [E | E].
  - rewrite E, str_ltb_app. apply two_digits_lt; Z.div_mod_to_equations; lia.
  - apply str_ltb_app_lt; [reflexivity|].
    apply two_digits_lt; Z.div_mod_to_equations; lia.
Qed.

(** Dates written [YYYY-MM-DD] compare as texts the way they compare as
    dates. *)
Lemma date_text_lt (y m d y' m' d' : Z) :
  0 <= y <= 9999 -> 0 <= y' <= 9999 -> 0 <= m <= 99 -> 0 <= m' <= 99 ->
  0 <= d <= 99 -> 0 <= d' <= 99 ->
  date_ltb (y, m, d) (y', m', d') = true ->
  str_ltb (date_text y m d) (date_text y' m' d') = true.
Proof.
  intros Hy Hy' Hm Hm' Hd Hd' H. unfold date_ltb in H. unfold date_text.
  apply orb_true_iff in H as [H | H].
  - apply Z.ltb_lt in H. apply str_ltb_app_lt; [reflexivity|].
    apply four_digits_lt; lia.
  - apply andb_true_iff in H as [E H]. apply Z.eqb_eq in E. subst y'.
    rewrite !str_ltb_app. apply orb_true_iff in H as [H | H].
    + apply Z.ltb_lt in H. apply str_ltb_app_lt; [reflexivity|].
      apply two_digits_lt; lia.
    + apply andb_true_iff in H as [E H]. apply Z.eqb_eq in E. subst m'.
      apply Z.ltb_lt in H. rewrite !str_ltb_app. apply two_digits_lt; lia.
Qed.

Lemma strftime_Ymd_text (t : datetime) :
  strftime_Ymd t = date_text (year_of t) (month_of t) (day_of t).
Proof. reflexivity. Qed.

Lemma calendar_date (t : datetime) :
  1 <= ordinal t <= MAXORDINAL ->
  valid_date (year_of t) (month_of t) (day_of t) = true
  /\ ymd2ord (year_of t) (month_of t) (day_of t) = ordinal t.
Proof.
  intro H. pose proof (ord2ymd_facts (ordinal t) H) as F.
  unfold year_of, month_of, day_of. destruct (ord2ymd (ordinal t)) as [[y m] d].
  cbn [fst snd]. tauto.
Qed.

(** The date of the next day is later, as a text. *)
Lemma next_day_text (n : Z) :
  1 <= n < MAXORDINAL ->
  str_ltb (strftime_Ymd (mkdt n 0 0 0 0)) (strftime_Ymd (mkdt (n + 1) 0 0 0 0)) = true.
Proof.
  intro Hn.
  pose proof (ord2ymd_facts n ltac:(lia)) as F.
  pose proof (ord2ymd_facts (n + 1) ltac:(lia)) as F'.
  rewrite !strftime_Ymd_text. unfold year_of, month_of, day_of. cbn [ordinal].
  destruct (ord2ymd n) as [[y m] d], (ord2ymd (n + 1)) as [[y' m'] d']. cbn [fst snd].
  destruct F as (Hv & _ & Hlt), F' as (Hv' & _ & _).
  apply valid_date_range in Hv, Hv'. apply date_text_lt; try lia. exact Hlt.
Qed.

Lemma strftime_Ymd_ordinal (a b : datetime) :
  ordinal a = ordinal b -> strftime_Ymd a = strftime_Ymd b.
Proof.
  intro H. rewrite !strftime_Ymd_text. unfold year_of, month_of, day_of. now rewrite H.
Qed.

(** A later day has a later date, as a text. *)
Lemma later_day_text (a b : datetime) :
  1 <= ordinal a -> ordinal a < ordinal b -> ordinal b <= MAXORDINAL ->
  str_ltb (strftime_Ymd a) (strftime_Ymd b) = true.
Proof.
  intros Ha Hab Hb.
  assert (H : forall k : nat,
             ordinal a + 1 + Z.of_nat k <= MAXORDINAL ->
             str_ltb (strftime_Ymd a)
                     (strftime_Ymd (mkdt (ordinal a + 1 + Z.of_nat k) 0 0 0 0)) = true).
  { induction k as [|k IH]; intro Hk.
    - rewrite (strftime_Ymd_ordinal a (mkdt (ordinal a) 0 0 0 0)) by reflexivity.
      replace (ordinal a + 1 + Z.of_nat 0) with (ordinal a + 1) by lia.
      apply next_day_text. lia.
    - eapply str_ltb_trans; [apply IH; lia|].
      replace (ordinal a + 1 + Z.of_nat (S k)) with (ordinal a + 1 + Z.of_nat k + 1) by lia.
      apply next_day_text. lia. }
  rewrite (strftime_Ymd_ordinal b (mkdt (ordinal a + 1 + Z.of_nat (Z.to_nat (ordinal b - ordinal a - 1))) 0 0 0 0)).
  - apply H. lia.
  - cbn [ordinal]. lia.
Qed.

(** *** The date column *)

(** X16.  The date column reads back: the date of a record extracted for
    a day, from year 1000 on, is read by [strptime] with the format of
    [--start] and [--end] as midnight of that day, so that [main] given
    the date of a record as [--start] and as [--end] collects that one
    day. *)
Theorem date_column_reads_back (rt : runtime) (html : soup) (day now : datetime)
    (args : Args.t) (rs : list record) (r : record) :
  ymd2ord 1000 1 1 <= ordinal day <= MAXORDINAL ->
  parse_time_slots rt html day = Ok rs -> In r rs ->
  strptime (date r) (str "%Y-%m-%d") = Ok (midnight day)
  /\ (Args.start args = Some (date r) -> Args.end_ args = Some (date r) ->
      date_range now args = Ok (midnight day, midnight day)).
Proof.
  intros Hday H Hin. change (ymd2ord 1000 1 1) with 364878 in Hday.
  destruct (parse_time_slots_facts _ _ _ _ _ H Hin) as (Hdate & _).
  destruct (calendar_date day ltac:(lia)) as [Hv Ho].
  destruct (valid_date_range _ _ _ Hv) as (Hy & Hm & Hd).
  assert (E : strptime (date r) (str "%Y-%m-%d") = Ok (midnight day)).
  { rewrite Hdate, strftime_Ymd_text, strptime_date, make_datetime_ok by (assumption || lia).
    unfold midnight. now rewrite Ho. }
  split; [exact E|]. intros Hs He. unfold date_range. rewrite Hs, He.
  cbn [option_text]. rewrite E.
  replace (given (Some (date r))) with true
    by (rewrite Hdate, strftime_Ymd_text; reflexivity).
  reflexivity.
Qed.

Lemma date_column_reads_back_witness :
  exists r,
    parse_time_slots Ex.rt0 Ex.page_three_rows (Ex.march 2) = Ok [r]
    /\ strptime (date r) (str "%Y-%m-%d") = Ok (Ex.march 2).
Proof.
  eexists. split; [vm_compute; reflexivity|].
  refine (proj1 (date_column_reads_back Ex.rt0 Ex.page_three_rows (Ex.march 2) (Ex.march 3)
                   (Args.Make None None 1 (Finite (3 # 2))) _ _ _ eq_refl (or_introl eq_refl))).
  vm_compute. split; discriminate.
Defined.

Lemma StronglySorted_later {A} (R : A -> A -> Prop) (l1 l2 : list A) (x y : A) :
  StronglySorted R (l1 ++ x :: l2) -> In y l2 -> R x y.
Proof.
  induction l1 as [|z l1 IH]; simpl; intros H Hy.
  - apply StronglySorted_inv in H as [_ H]. rewrite Forall_forall in H. now apply H.
  - apply StronglySorted_inv in H as [H _]. now apply IH.
Qed.

(** X17.  The dataset of [collect_date_range] is in the order of the
    days: sorting by the text of the date sorts by the date.  For days
    from year 1000 on, a row that comes after another in the dataset is
    not of an earlier day. *)
Theorem dataset_is_chronological (rt : runtime) (fetch : datetime -> option soup)
    (delay : pyfloat) (start_date end_date a b : datetime) (before after : list record)
    (r r' : record) :
  snd (collect_date_range rt fetch delay start_date end_date) = Ok (before ++ r :: after) ->
  In r' after ->
  date r = strftime_Ymd a -> date r' = strftime_Ymd b ->
  ymd2ord 1000 1 1 <= ordinal a <= MAXORDINAL ->
  ymd2ord 1000 1 1 <= ordinal b <= MAXORDINAL ->
  ordinal a <= ordinal b.
Proof.
  intros H Hin Ha Hb Hda Hdb.
  change (ymd2ord 1000 1 1) with 364878 in Hda, Hdb.
  apply collect_date_range_sorted in H as [Hs _].
  apply Sorted_StronglySorted in Hs; [|exact key_le_trans].
  pose proof (StronglySorted_later _ _ _ _ _ Hs Hin) as Hle.
  destruct (Z.le_gt_cases (ordinal a) (ordinal b)) as [Hab | Hab]; [assumption|].
  exfalso. assert (Hlt : str_ltb (date r') (date r) = true).
  { rewrite Ha, Hb. apply later_day_text; lia. }
  unfold key_le, key_leb in Hle.
  rewrite (str_ltb_asym _ _ Hlt) in Hle.
  assert (Hne : str_eqb (date r) (date r') = false).
  { destruct (str_eqb (date r) (date r')) eqn:E; [|reflexivity].
    apply str_eqb_eq in E. rewrite E, str_ltb_irrefl in Hlt. discriminate Hlt. }
  rewrite Hne in Hle. discriminate Hle.
Qed.

Lemma dataset_is_chronological_witness :
  exists r r',
    snd (collect_date_range Ex.rt0 (fun _ => Some Ex.page_three_rows) (Finite (3 # 2))
           (Ex.march 1) (Ex.march 2)) = Ok ([] ++ r :: [r'])
    /\ ordinal (Ex.march 1) <= ordinal (Ex.march 2).
Proof.
  eexists _, _. split; [vm_compute; reflexivity|].
  refine (dataset_is_chronological Ex.rt0 (fun _ => Some Ex.page_three_rows) (Finite (3 # 2))
            (Ex.march 1) (Ex.march 2) (Ex.march 1) (Ex.march 2) [] _ _ _
            eq_refl (or_introl eq_refl) eq_refl eq_refl _ _);
    vm_compute; split; discriminate.
Defined.

(** X18.  The semester of a record: the month of every record extracted
    for a day of the calendar is from 1 to 12, and [classify_semester]
    puts the months up to May in Spring, June and July in Summer and the
    months from August in Fall.  Any other number, such as 0 or 13, is
    put in Summer. *)
Theorem semester_of_a_record :
  (forall rt html day rs r,
      1 <= ordinal day <= MAXORDINAL ->
      parse_time_slots rt html day = Ok rs -> In r rs ->
      1 <= month r <= 12
      /\ classify_semester (month r) =
         if month r <=? 5 then str "Spring"
         else if month r <=? 7 then str "Summer" else str "Fall")
  /\ (forall m, m < 1 \/ 12 < m -> classify_semester m = str "Summer").
Proof.
  split.
  - intros rt html day rs r Hday H Hin.
    assert (Hm : month r = month_of day).
    { revert rs r H Hin.
      apply (parse_time_slots_records rt day (fun r => month r = month_of day)).
      - intros headers h mi slot_time [col_idx cell] rs0 r0 _ Hc Hin.
        unfold grid_cell in Hc.
        destruct (is_reserved _ _); [|injection Hc as <-; contradiction].
        apply bind_ok in Hc as (end_dt & _ & Hc). injection Hc as <-.
        now destruct Hin as [<- | []].
      - intros item r0 H. unfold extract_from_json_item in H.
        destruct (negb _); [discriminate|].
        apply try_except_ok in H as [H | H]; [|discriminate].
        apply bind_ok in H as (s & _ & H). apply bind_ok in H as (e & _ & H).
        now injection H as <-.
      - intros element r0 H. unfold extract_from_element in H.
        destruct (re_search time_range_re _); [|discriminate].
        apply try_except_ok in H as [H | H]; [|discriminate].
        apply bind_ok in H as (s & _ & H). apply bind_ok in H as (e & _ & H).
        now injection H as <-. }
    destruct (calendar_date day Hday) as [Hv _].
    apply valid_date_range in Hv as (_ & Hmo & _). rewrite Hm.
    split; [assumption|].
    split_range (month_of day) 1 12; reflexivity.
  - intros m Hm. unfold classify_semester. cbn [existsb].
    repeat match goal with
           | |- context [m =? ?k] => destruct (Z.eqb_spec m k); [lia|]
           end.
    reflexivity.
Qed.

Lemma semester_of_a_record_witness :
  exists r,
    parse_time_slots Ex.rt0 Ex.page_three_rows (Ex.march 2) = Ok [r]
    /\ 1 <= month r <= 12
    /\ classify_semester (month r) =
       if month r <=? 5 then str "Spring"
       else if month r <=? 7 then str "Summer" else str "Fall".
Proof.
  eexists. split; [vm_compute; reflexivity|].
  refine (proj1 semester_of_a_record Ex.rt0 Ex.page_three_rows (Ex.march 2) _ _ _
            eq_refl (or_introl eq_refl)).
  vm_compute. split; discriminate.
Defined.

(* ------------------------------------------------------------------ *)
(** ** The arrays taken from a script *)

(** A lazy [.*?] stops at the first place where what follows matches. *)
Lemma rep_lazy_first {X} (s : pystr) :
  forall (prev : option N) (k : option N -> pystr -> pystr -> option X) (x : X),
    rep false any O None prev s k = Some x ->
    exists prev' t s',
      s = t ++ s' /\ k prev' t s' = Some x
      /\ forall t1 t2, t = t1 ++ t2 -> t2 <> [] -> exists p, k p t1 (t2 ++ s') = None.
Proof.
  induction s as [|a s IH]; intros prev k x H; simpl in H.
  - exists prev, [], []. repeat split; [assumption|].
    intros t1 t2 E Hne. destruct t1, t2; try discriminate. congruence.
  - destruct (k prev [] (a :: s)) as [y|] eqn:Ek.
    + injection H as ->. exists prev, [], (a :: s). repeat split; [assumption|].
      intros t1 t2 E Hne. destruct t1, t2; try discriminate. congruence.
    + apply IH in H as (prev' & t & s' & -> & Hk & Hfail).
      exists prev', (a :: t), s'. repeat split; [assumption|].
      intros t1 t2 E Hne. destruct t1 as [|b t1].
      * simpl in E. subst t2. exists prev. exact Ek.
      * injection E as <- E. destruct (Hfail t1 t2 E Hne) as [p Hp]. exists p. exact Hp.
Qed.

Lemma one_eq (c a : N) : one c a = true -> a = c.
Proof. unfold one. apply N.eqb_eq. Qed.

Lemma json_array_match (prev : option N) (s : pystr) (m : match_obj) :
  match_at json_array_re prev s = Some m ->
  exists mid,
    group0 m = str "[{" ++ mid ++ str "}]"
    /\ group 1 (groups m) = Some (group0 m)
    /\ s = group0 m ++ m_rest m
    /\ ~ substring (str "}]") (mid ++ str "}").
Proof.
  unfold match_at, json_array_re.
  change (lit "[{") with (Seq (Chr (one 91%N)) (Chr (one 123%N))).
  change (lit "}]") with (Seq (Chr (one 125%N)) (Chr (one 93%N))).
  cbn [cat]. cbn [run].
  destruct s as [|a [|b s]]; try discriminate;
    destruct (one 91 a) eqn:Ea; try discriminate.
  destruct (one 123 b) eqn:Eb; [|discriminate].
  apply one_eq in Ea, Eb. subst a b.
  intro H. apply rep_lazy_first in H as (prev' & mid & s' & -> & Hk & Hfail).
  destruct s' as [|a [|b s']]; try discriminate;
    destruct (one 125 a) eqn:Ea; try discriminate.
  destruct (one 93 b) eqn:Eb; [|discriminate].
  apply one_eq in Ea, Eb. subst a b.
  injection Hk as <-. cbn [group0 groups m_rest group N.eqb Pos.eqb]. exists mid.
  split; [reflexivity|]. split; [reflexivity|]. split.
  - cbn [app]. now rewrite <- !app_assoc.
  - intros (pre & post & E).
    destruct post as [|z0 post0] eqn:Epost.
    + rewrite app_nil_r in E. change (str "}]") with ([125%N] ++ [93%N]) in E.
      rewrite !app_assoc in E. apply app_inj_tail in E as [_ E]. discriminate E.
    + destruct (exists_last (l := z0 :: post0)) as (post' & z & Ez); [discriminate|].
      rewrite Ez in E. change (str "}") with [125%N] in E.
      rewrite !app_assoc in E. apply app_inj_tail in E as [E _].
      rewrite <- app_assoc in E.
      destruct (Hfail pre (str "}]" ++ post') E ltac:(discriminate)) as [p Hp].
      cbn in Hp. discriminate Hp.
Qed.

Lemma search_from_match (r : regex) (s : pystr) :
  forall (prev : option N) (m : match_obj),
    search_from r prev s = Some m ->
    exists prev' pre s', s = pre ++ s' /\ match_at r prev' s' = Some m.
Proof.
  induction s as [|a s IH]; intros prev m H; simpl in H.
  - destruct (match_at r prev []) eqn:E; [|discriminate]. injection H as ->.
    now exists prev, [], [].
  - destruct (match_at r prev (a :: s)) eqn:E.
    + injection H as ->. now exists prev, [], (a :: s).
    + apply IH in H as (prev' & pre & s' & -> & H). now exists prev', (a :: pre), s'.
Qed.

Lemma findall_from_match (r : regex) (fuel : nat) :
  forall (prev : option N) (s : pystr) (m : match_obj),
    In m (findall_from fuel r prev s) ->
    exists prev' pre s', s = pre ++ s' /\ match_at r prev' s' = Some m.
Proof.
  induction fuel as [|fuel IH]; intros prev s m H; simpl in H; [contradiction|].
  destruct (search_from r prev s) as [m0|] eqn:E; [|contradiction].
  assert (Hnext : forall p skipped s1,
             m_rest m0 = skipped ++ s1 -> In m (findall_from fuel r p s1) ->
             exists prev' pre s', s = pre ++ s' /\ match_at r prev' s' = Some m).
  { intros p skipped s1 Hrest Hin. apply IH in Hin as (prev' & pre & s' & -> & Hm).
    apply search_from_match in E as (prev0 & pre0 & s0 & -> & E).
    apply match_at_group0 in E as [E _]. rewrite E, Hrest.
    exists prev', (pre0 ++ group0 m0 ++ skipped ++ pre), s'. now rewrite <- !app_assoc. }
  destruct (group0 m0) as [|c t] eqn:Eg, (m_rest m0) as [|a s1] eqn:Er.
  - destruct H as [<- | []]. now apply search_from_match in E.
  - destruct H as [<- | H]; [now apply search_from_match in E|].
    now apply (Hnext (Some a) [a] s1).
  - destruct H as [<- | H]; [now apply search_from_match in E|].
    now apply (Hnext (m_last m0) [] []).
  - destruct H as [<- | H]; [now apply search_from_match in E|].
    now apply (Hnext (m_last m0) [] (a :: s1)).
Qed.

(** X19.  The arrays [parse_time_slots] takes from a script for
    [json.loads]: each is a piece of the script that starts with [[{],
    ends with [}]] and holds no [}]] before its end.  The text taken to
    be an array thus stops at the first [}]] after its start, so that an
    array in which an object holds an array of objects is cut short. *)
Theorem json_candidate_is_minimal (script_text : pystr) (m : match_obj) :
  In m (re_findall json_array_re script_text) ->
  exists mid,
    group 1 (groups m) = Some (str "[{" ++ mid ++ str "}]")
    /\ substring (str "[{" ++ mid ++ str "}]") script_text
    /\ ~ substring (str "}]") (mid ++ str "}").
Proof.
  unfold re_findall. intro H.
  apply findall_from_match in H as (prev & pre & s & -> & H).
  apply json_array_match in H as (mid & Eg & E1 & Es & Hmin).
  exists mid. rewrite <- Eg. split; [exact E1|]. split; [|exact Hmin].
  exists pre, (m_rest m). now rewrite <- Es.
Qed.

Lemma json_candidate_is_minimal_witness :
  exists m,
    re_findall json_array_re Scripts.nested = [m]
    /\ group 1 (groups m) = Some (str "[{'a': [{'b': 1}]")
    /\ exists mid,
        group 1 (groups m) = Some (str "[{" ++ mid ++ str "}]")
        /\ substring (str "[{" ++ mid ++ str "}]") Scripts.nested
        /\ ~ substring (str "}]") (mid ++ str "}").
Proof.
  eexists. split; [vm_compute; reflexivity|]. split; [reflexivity|].
  apply (json_candidate_is_minimal Scripts.nested). left. reflexivity.
Defined.

(* ------------------------------------------------------------------ *)
(** ** The login form *)

Lemma str_eqb_sym (a b : pystr) : str_eqb a b = str_eqb b a.
Proof.
  apply eq_true_iff_eq. rewrite !str_eqb_eq. split; congruence.
Qed.










(* ------------------------------------------------------------------ *)
(** ** Rows found twice on a page *)

Lemma for_each_split {A B} (f : A -> result (list B)) (l : list A) (x : A)
    (rs rs' : list B) :
  for_each f l = Ok rs -> In x l -> f x = Ok rs' ->
  exists before after, rs = before ++ rs' ++ after.
Proof.
  revert rs. induction l as [|y l IH]; intros rs H Hin Hx; [contradiction|].
  simpl in H. apply bind_ok in H as (r1 & H1 & H). apply bind_ok in H as (r2 & H2 & H).
  injection H as <-. destruct Hin as [-> | Hin].
  - rewrite Hx in H1. injection H1 as <-. now exists [], r2.
  - destruct (IH r2 H2 Hin Hx) as (before & after & ->).
    exists (r1 ++ before), after. now rewrite <- app_assoc.
Qed.

(** X21.  A page can give the same row twice.  The third strategy of
    [parse_time_slots] searches the page once for each of its two
    selectors, so an element with a class that matches the first and a
    [data-type] that matches the second is extracted twice, and its
    record is twice in the list returned. *)
Theorem element_under_both_selectors (rt : runtime) (html : soup) (day : datetime)
    (element : node) (r : record) (rs : list record) :
  In element (soup_descendants html) ->
  class_matches class_selector_re element = true ->
  attr_matches (str "data-type") data_type_selector_re element = true ->
  extract_from_element element day = Ok (Some r) ->
  parse_time_slots rt html day = Ok rs ->
  exists l1 l2 l3, rs = l1 ++ r :: l2 ++ r :: l3.
Proof.
  intros Hin Hc Ha Hr H. unfold parse_time_slots in H.
  destruct html as [|n html]; [contradiction|].
  apply bind_ok in H as (r1 & _ & H). apply bind_ok in H as (r2 & _ & H).
  apply bind_ok in H as (r3 & H3 & H). injection H as <-.
  unfold strategy3, event_selectors in H3. cbn [for_each] in H3.
  apply bind_ok in H3 as (A & HA & H3). apply bind_ok in H3 as (B' & HB' & H3).
  injection H3 as <-. apply bind_ok in HB' as (B & HB & HB'). cbn [bind] in HB'.
  injection HB' as <-.
  assert (He : element_records day element = Ok [r])
    by (unfold element_records; now rewrite Hr).
  destruct (for_each_split _ _ element _ [r] HA) as (a1 & a2 & ->);
    [apply filter_In; now split | exact He |].
  destruct (for_each_split _ _ element _ [r] HB) as (b1 & b2 & ->);
    [apply filter_In; now split | exact He |].
  exists (r1 ++ r2 ++ a1), (a2 ++ b1), b2.
  cbn [app]. rewrite app_nil_r, <- !app_assoc. cbn [app]. reflexivity.
Qed.

Lemma element_under_both_selectors_witness :
  exists r l1 l2 l3,
    parse_time_slots Ex.rt0 [twice_found] (Ex.march 1) = Ok [r; r]
    /\ [r; r] = l1 ++ r :: l2 ++ r :: l3.
Proof.
  eexists. 
  destruct (element_under_both_selectors Ex.rt0 [twice_found] (Ex.march 1) twice_found
              _ _ (or_introl eq_refl) eq_refl eq_refl eq_refl eq_refl)
    as (l1 & l2 & l3 & E).
  exists l1, l2, l3. split; [reflexivity | exact E].
Defined.

(* ------------------------------------------------------------------ *)
(** ** The synthetic data *)

Lemma In_py_range (a b x : Z) : In x (Sample.py_range a b) <-> a <= x < b.
Proof.
  unfold Sample.py_range. rewrite in_map_iff. split.
  - intros (k & <- & Hk). apply in_seq in Hk. lia.
  - intro H. exists (Z.to_nat (x - a)). split; [lia | apply in_seq; lia].
Qed.

Lemma choice_In {A} (l : list A) (i : nat) (default : A) :
  l <> [] -> In (Sample.choice l i default) l.
Proof.
  intro H. unfold Sample.choice. apply nth_In. apply Nat.mod_upper_bound.
  destruct l; [contradiction | discriminate].
Qed.

Lemma mem_In (x : Z) (l : list Z) : Sample.mem x l = true <-> In x l.
Proof.
  unfold Sample.mem. rewrite existsb_exists. split.
  - intros (y & Hy & E). apply Z.eqb_eq in E. now subst.
  - intro H. exists x. split; [assumption | apply Z.eqb_refl].
Qed.

Lemma meets_false (slots booked : list Z) :
  Sample.meets slots booked = false -> forall x, In x slots -> ~ In x booked.
Proof.
  unfold Sample.meets. intros H x Hx Hb.
  assert (E : existsb (fun x => Sample.mem x booked) slots = true).
  { apply existsb_exists. exists x. split; [assumption | now apply mem_In]. }
  congruence.
Qed.

Lemma int_of_two_digits (v : Z) : 0 <= v <= 99 -> int_of_digits (two_digits v) = v.
Proof.
  intro H.
  assert (E : forallb (fun v => int_of_digits (two_digits v) =? v) (upto 100) = true)
    by (vm_compute; reflexivity).
  rewrite forallb_forall in E. apply Z.eqb_eq, E, In_upto. lia.
Qed.

Lemma minute_of_clock (h m : Z) :
  0 <= h <= 99 -> 0 <= m <= 99 -> Sample.minute_of_day (clock h m) = h * 60 + m.
Proof.
  intros Hh Hm. unfold Sample.minute_of_day, clock.
  change (firstn 2 (two_digits h ++ str ":" ++ two_digits m)) with (two_digits h).
  change (skipn 3 (two_digits h ++ str ":" ++ two_digits m)) with (two_digits m).
  now rewrite !int_of_two_digits.
Qed.

Lemma weekday_range (t : datetime) : 0 <= weekday t <= 6.
Proof. unfold weekday. pose proof (Z.mod_pos_bound (ordinal t + 6) 7). lia. Qed.

Lemma library_hours (t : datetime) :
  match nth (Z.to_nat (weekday t)) Sample.LIBRARY_HOURS (0, 0) with
  | (open_hour, close_hour) => 8 <= open_hour /\ open_hour + 2 <= close_hour <= 22
  end.
Proof.
  pose proof (weekday_range t) as H.
  split_range (weekday t) 0 6; unfold Sample.LIBRARY_HOURS; simpl; lia.
Qed.

Lemma duration_options (d : Z) :
  In d Sample.DURATION_OPTIONS -> exists n, d = 50 * n /\ 1 <= n <= 6.
Proof.
  intro H. exists (d / 50). cbn in H.
  repeat (destruct H as [<- | H]; [split; [reflexivity | vm_compute; split; discriminate]|]).
  contradiction.
Qed.

(** The rows of a room, whatever is drawn. *)
Lemma room_bookings_rows (date : datetime) (room : pystr) (open_hour close_hour : Z) :
  1 <= ordinal date <= MAXORDINAL -> valid_time_of_day date ->
  0 <= open_hour -> open_hour + 2 <= close_hour <= 22 ->
  forall draws booked,
  exists rs,
    Sample.room_bookings date room open_hour close_hour draws booked = Ok rs
    /\ Forall (sample_row_ok date room open_hour close_hour booked) rs
    /\ ForallOrdPairs Sample.apart rs.
Proof.
  intros Hord (Hh & Hm & Hs) Ho Hc.
  induction draws as [|d draws IH]; intro booked; cbn [Sample.room_bookings].
  - exists []. repeat split; constructor.
  - set (hours := Sample.py_range open_hour (close_hour - 1)).
    assert (Hne : hours <> []).
    { intro E. assert (Hin : In open_hour hours) by (apply In_py_range; lia).
      rewrite E in Hin. contradiction. }
    destruct hours as [|h0 hours'] eqn:Ehours; [contradiction|]. rewrite <- Ehours.
    set (start_hour := Sample.choice hours (Sample.pick_hour d) 0).
    set (start_minute := Sample.choice [0; 30] (Sample.pick_minute d) 0).
    set (duration := Sample.choice Sample.DURATION_OPTIONS (Sample.pick_duration d) 0).
    assert (Hsh : open_hour <= start_hour < close_hour - 1).
    { apply In_py_range. subst start_hour hours. apply choice_In. congruence. }
    assert (Hsm : start_minute = 0 \/ start_minute = 30).
    { assert (Hin : In start_minute [0; 30]) by (apply choice_In; discriminate).
      destruct Hin as [<- | [<- | []]]; auto. }
    assert (Hdur : In duration Sample.DURATION_OPTIONS) by (apply choice_In; discriminate).
    destruct (duration_options _ Hdur) as (n & Hd & Hn).
    set (start_slot := (start_hour - open_hour) * 2 + (if start_minute =? 30 then 1 else 0)).
    replace (duration * 2 / 100) with n by (rewrite Hd; Z.div_mod_to_equations; lia).
    destruct (Sample.meets _ booked) eqn:Emeet; [apply IH|].
    destruct (_ <? start_slot + n) eqn:Etot; [apply IH|].
    apply Z.ltb_ge in Etot.
    assert (Hk : 0 <= start_slot /\ start_hour * 60 + start_minute = open_hour * 60 + 30 * start_slot
                 /\ start_hour = open_hour + start_slot / 2).
    { subst start_slot. destruct Hsm as [-> | ->]; cbn [Z.eqb Pos.eqb];
        repeat split; try lia; Z.div_mod_to_equations; lia. }
    destruct Hk as (Hk0 & Hkm & Hkh).
    unfold Sample.replace_hour_minute.
    replace ((0 <=? start_hour) && (start_hour <=? 23) && (0 <=? start_minute)
             && (start_minute <=? 59)) with true
      by (symmetry; repeat (apply andb_true_iff; split); apply Z.leb_le; lia).
    cbn [bind]. unfold add_timedelta. cbn [ordinal hour minute second microsecond].
    set (secs := (start_hour * 60 + start_minute) * 60 + second date + duration * 36).
    assert (Hsecs : secs = (open_hour * 60 + 30 * (start_slot + n)) * 60 + second date)
      by (subst secs; lia).
    assert (Hday : secs / 86400 = 0) by (apply Z.div_small; lia).
    rewrite Hday.
    replace ((0 <? ordinal date + 0 + 0) && (ordinal date + 0 + 0 <=? MAXORDINAL)) with true
      by (symmetry; apply andb_true_iff; split; [apply Z.ltb_lt | apply Z.leb_le]; lia).
    cbn [bind].
    destruct (IH (booked ++ Sample.py_range start_slot (start_slot + n)))
      as (rest & -> & Hrest & Hapart).
    cbn [bind]. eexists. split; [reflexivity|].
    set (M := open_hour * 60 + 30 * (start_slot + n)) in *.
    assert (Hend : Sample.minute_of_day
                     (strftime_HM (mkdt (ordinal date + 0 + 0) (secs mod 86400 / 3600)
                                        (secs mod 86400 mod 3600 / 60) (secs mod 86400 mod 60)
                                        (microsecond date))) = M).
    { unfold strftime_HM. cbn [hour minute]. fold (clock (secs mod 86400 / 3600)
                                                     (secs mod 86400 mod 3600 / 60)).
      rewrite minute_of_clock by (Z.div_mod_to_equations; lia).
      Z.div_mod_to_equations. lia. }
    assert (Hstart : Sample.minute_of_day
                       (strftime_HM (mkdt (ordinal date) start_hour start_minute
                                          (second date) (microsecond date)))
                     = open_hour * 60 + 30 * start_slot).
    { unfold strftime_HM. cbn [hour minute]. fold (clock start_hour start_minute).
      rewrite minute_of_clock by lia. exact Hkm. }
    split.
    + constructor.
      * exists start_slot, n. cbn [Sample.row]. fields.
        repeat split; try lia; try assumption.
        intros j Hj. apply (meets_false _ _ Emeet). now apply In_py_range.
      * eapply Forall_impl; [|exact Hrest].
        intros r (k' & n' & H1 & H2 & H3 & H4 & H5 & H6 & H7 & H8 & H9 & H10 & H11).
        exists k', n'. repeat split; try assumption.
        intros j Hj Hin. apply (H4 j Hj). apply in_or_app. now left.
    + constructor; [|exact Hapart].
      rewrite Forall_forall in Hrest |- *. intros r' Hr'.
      destruct (Hrest r' Hr') as (k' & n' & Hk' & Hn' & _ & Hfree & Hs' & He' & _).
      intros _. cbn [Sample.row]. fields. rewrite Hend, Hstart, Hs', He'.
      destruct (Z.le_gt_cases (start_slot + n) k') as [H | H]; [left; subst M; lia|].
      destruct (Z.le_gt_cases (k' + n') start_slot) as [H' | H']; [right; lia|].
      exfalso. destruct (Z.le_gt_cases start_slot k') as [Hle | Hgt].
      * apply (Hfree k'); [lia|]. apply in_or_app. right. apply In_py_range. lia.
      * apply (Hfree start_slot); [lia|]. apply in_or_app. right. apply In_py_range. lia.
Qed.

Lemma ForallOrdPairs_app {A} (R : A -> A -> Prop) (l1 l2 : list A) :
  ForallOrdPairs R l1 -> ForallOrdPairs R l2 ->
  (forall a b, In a l1 -> In b l2 -> R a b) ->
  ForallOrdPairs R (l1 ++ l2).
Proof.
  intros H1 H2 H12. induction H1 as [|a l1 Ha H1 IH]; [exact H2|].
  simpl. constructor.
  - apply Forall_app. split; [exact Ha|].
    apply Forall_forall. intros b Hb. apply H12; [now left | exact Hb].
  - apply IH. intros x y Hx Hy. apply H12; [now right | exact Hy].
Qed.

(** The rows of a day that is no holiday, room after room. *)
Lemma rooms_rows (rng : nat -> list Sample.draw) (date : datetime) (open_hour close_hour : Z)
    (rooms : list (nat * pystr)) :
  1 <= ordinal date <= MAXORDINAL -> valid_time_of_day date ->
  0 <= open_hour -> open_hour + 2 <= close_hour <= 22 ->
  NoDup (List.map snd rooms) ->
  exists rs,
    for_each (fun ir => Sample.room_bookings date (snd ir) open_hour close_hour
                          (rng (fst ir)) []) rooms = Ok rs
    /\ Forall (fun r => exists room, In room (List.map snd rooms)
                         /\ sample_row_ok date room open_hour close_hour [] r) rs
    /\ ForallOrdPairs Sample.apart rs.
Proof.
  intros Hord Hv Ho Hc. induction rooms as [|[i room] rooms IH]; intro Hnd.
  - exists []. repeat split; constructor.
  - inversion Hnd as [|? ? Hnew Hnd']; subst.
    destruct (IH Hnd') as (rs2 & E2 & H2 & A2).
    destruct (room_bookings_rows date room open_hour close_hour Hord Hv Ho Hc (rng i) [])
      as (rs1 & E1 & H1 & A1).
    cbn [for_each fst snd]. rewrite E1, E2. cbn [bind]. exists (rs1 ++ rs2).
    split; [reflexivity|]. split.
    + apply Forall_app. split.
      * eapply Forall_impl; [|exact H1]. intros r Hr. exists room. split; [now left | exact Hr].
      * eapply Forall_impl; [|exact H2]. intros r (room' & Hin & Hr).
        exists room'. split; [now right | exact Hr].
    + apply ForallOrdPairs_app; [exact A1 | exact A2 |].
      intros a b Ha Hb Hsame. exfalso.
      rewrite Forall_forall in H1, H2.
      destruct (H1 a Ha) as (k & n & Hra). destruct (H2 b Hb) as (room' & Hin & k' & n' & Hrb).
      assert (Ea : room_name (Sample.row a) = room) by tauto.
      assert (Eb : room_name (Sample.row b) = room') by tauto.
      apply Hnew. cbn [List.map snd]. congruence.
Qed.

Lemma rooms_distinct : NoDup (List.map snd (enumerate 0 Sample.ROOMS)).
Proof.
  cbn. repeat constructor; cbn; intro H;
    repeat (destruct H as [H | H]; [discriminate H|]); contradiction.
Qed.

Lemma rooms_enumerated (room : pystr) :
  In room (List.map snd (enumerate 0 Sample.ROOMS)) -> In room Sample.ROOMS.
Proof. cbn. tauto. Qed.

(** X22.  [generate_day_reservations] never raises, whatever is drawn,
    and makes no row on a holiday.  Every row is for one of the five
    rooms on the day asked for; it starts on the hour or the half hour,
    not before the library opens on that day of the week, lasts one of
    the durations of [DURATION_OPTIONS] and ends no later than the
    library closes. *)
Theorem sample_day_is_within_hours (rng : nat -> list Sample.draw) (day : datetime) :
  1 <= ordinal day <= MAXORDINAL -> valid_time_of_day day ->
  exists rs,
    Sample.generate_day_reservations rng day = Ok rs
    /\ (Sample.is_holiday day = true -> rs = [])
    /\ forall r, In r rs ->
         match nth (Z.to_nat (weekday day)) Sample.LIBRARY_HOURS (0, 0) with
         | (open_hour, close_hour) =>
             In (room_name (Sample.row r)) Sample.ROOMS
             /\ date (Sample.row r) = strftime_Ymd day
             /\ open_hour * 60 <= Sample.minute_of_day (start_time (Sample.row r))
             /\ Sample.minute_of_day (start_time (Sample.row r)) mod 30 = 0
             /\ In (duration_hours (Sample.row r)) Sample.DURATION_OPTIONS
             /\ Sample.minute_of_day (end_time (Sample.row r))
                = Sample.minute_of_day (start_time (Sample.row r))
                  + duration_hours (Sample.row r) * 60 / 100
             /\ Sample.minute_of_day (end_time (Sample.row r)) <= close_hour * 60
         end.
Proof.
  intros Hord Hv. unfold Sample.generate_day_reservations.
  destruct (Sample.is_holiday day).
  - exists []. repeat split. intros r [].
  - pose proof (library_hours day) as Hh.
    destruct (nth (Z.to_nat (weekday day)) Sample.LIBRARY_HOURS (0, 0))
      as [open_hour close_hour].
    destruct Hh as [Ho Hc].
    destruct (rooms_rows rng day open_hour close_hour (enumerate 0 Sample.ROOMS)
                Hord Hv ltac:(lia) Hc rooms_distinct) as (rs & E & Hrs & _).
    exists rs. split; [exact E|]. split; [discriminate|].
    intros r Hr. rewrite Forall_forall in Hrs.
    destruct (Hrs r Hr) as (room & Hroom & k & n & Hk & Hn & Hkn & _ & Hs & He & Hd
                            & Hopt & _ & Hname & Hdate).
    rewrite Hname, Hs, He, Hd.
    split; [now apply rooms_enumerated|]. split; [exact Hdate|].
    split; [lia|]. split; [Z.div_mod_to_equations; lia|].
    split; [now rewrite <- Hd|]. split; [Z.div_mod_to_equations; lia | lia].
Qed.

Lemma sample_day_is_within_hours_witness :
  exists rs,
    Sample.generate_day_reservations example_draws (Ex.march 1) = Ok rs
    /\ List.length rs = 10%nat.
Proof.
  destruct (sample_day_is_within_hours example_draws (Ex.march 1)) as (rs & E & _).
  - vm_compute. split; discriminate.
  - unfold valid_time_of_day. cbn. lia.
  - exists rs. split; [exact E|]. vm_compute in E. now injection E as <-.
Defined.

(** X23.  The rows [generate_day_reservations] makes for one room on one
    day never overlap, whatever is drawn: of two rows of the same room,
    one ends no later than the other starts. *)
Theorem sample_bookings_do_not_overlap (rng : nat -> list Sample.draw) (day : datetime)
    (rs : list Sample.sample) :
  1 <= ordinal day <= MAXORDINAL -> valid_time_of_day day ->
  Sample.generate_day_reservations rng day = Ok rs ->
  ForallOrdPairs Sample.apart rs.
Proof.
  intros Hord Hv. unfold Sample.generate_day_reservations.
  destruct (Sample.is_holiday day).
  - intro H. injection H as <-. constructor.
  - pose proof (library_hours day) as Hh.
    destruct (nth (Z.to_nat (weekday day)) Sample.LIBRARY_HOURS (0, 0))
      as [open_hour close_hour].
    destruct Hh as [Ho Hc].
    destruct (rooms_rows rng day open_hour close_hour (enumerate 0 Sample.ROOMS)
                Hord Hv ltac:(lia) Hc rooms_distinct) as (rs' & E & _ & Hapart).
    rewrite E. intro H. now injection H as <-.
Qed.

Lemma sample_bookings_do_not_overlap_witness :
  exists rs,
    Sample.generate_day_reservations example_draws (Ex.march 1) = Ok rs
    /\ ForallOrdPairs Sample.apart rs.
Proof.
  eexists. split; [vm_compute; reflexivity|].
  apply (sample_bookings_do_not_overlap example_draws (Ex.march 1)).
  - vm_compute. split; discriminate.
  - unfold valid_time_of_day. cbn. lia.
  - vm_compute. reflexivity.
Defined.
